(** * app_scraper: the localized text normalizer and the comment harvester

    A shallow embedding of [scraper/utils.py], [scraper/scraper.py],
    [scraper/savers.py] and [scraper/scripts.py].  Python values are
    modelled as follows:

    - a [str] is the list of its Unicode code points ([Z]);
    - an [int] is a [Z] (Python integers are unbounded);
    - a [float] is an IEEE 754 binary64 value, [spec_float] with
      [prec = 53] and [emax = 1024], rounded to nearest-even;
    - a call that may raise returns a [result]: [Ok v] or [Raise e];
    - [None] is the [None] of an [option].

    String literals are written as in the Python source and decoded from
    UTF-8 by [utf8]. *)

From Stdlib Require Import String Ascii.
From Stdlib Require Import ZArith List Bool Lia.
From Stdlib Require Import Floats.SpecFloat.
Import ListNotations.
Local Open Scope Z_scope.

(** ** The Python runtime: exceptions, strings, [int()] and [float()] *)

Module Py.

Definition str := list Z.

Inductive exn : Type :=
| ValueError
| TypeError
| OverflowError
| ZeroDivisionError
| IndexError
| NoSuchElementException
| TimeoutException
| WebDriverException.

Inductive result (A : Type) : Type :=
| Ok (a : A)
| Raise (e : exn).
Arguments Ok {A} a.
Arguments Raise {A} e.

Definition bind {A B} (r : result A) (k : A -> result B) : result B :=
  match r with
  | Ok a => k a
  | Raise e => Raise e
  end.

Notation "x <- r ;; k" := (bind r (fun x => k))
  (at level 61, r at next level, right associativity).

(** *** Literals *)

(** UTF-8 decoding of a source literal; [need] continuation bytes are still
    expected and [acc] holds the bits read so far. *)
Fixpoint utf8_bytes (bs : list Z) (need : nat) (acc : Z) : str :=
  match bs with
  | [] => []
  | b :: rest =>
    match need with
    | O =>
      if b <? 0x80 then b :: utf8_bytes rest 0 0
      else if b <? 0xE0 then utf8_bytes rest 1 (Z.land b 0x1F)
      else if b <? 0xF0 then utf8_bytes rest 2 (Z.land b 0x0F)
      else utf8_bytes rest 3 (Z.land b 0x07)
    | S O => (acc * 64 + Z.land b 0x3F) :: utf8_bytes rest 0 0
    | S n => utf8_bytes rest n (acc * 64 + Z.land b 0x3F)
    end
  end.

Definition utf8 (s : string) : str :=
  utf8_bytes (map (fun a => Z.of_N (N_of_ascii a)) (list_ascii_of_string s)) 0 0.

(** *** Character classes (Unicode 14.0) *)

Definition in_range (lo hi c : Z) : bool := (lo <=? c) && (c <=? hi).

(** [str.isspace] on one character, which is what [strip()] and [split()]
    test. *)
Definition isspace (c : Z) : bool :=
  in_range 0x09 0x0D c || in_range 0x1C 0x20 c || (c =? 0x85) || (c =? 0xA0)
  || (c =? 0x1680) || in_range 0x2000 0x200A c || (c =? 0x2028)
  || (c =? 0x2029) || (c =? 0x202F) || (c =? 0x205F) || (c =? 0x3000).

(** The code points of the digit zero of every decimal-digit range (general
    category Nd); each range holds the ten digits in order. *)
Definition decimal_zeros : list Z :=
  [0x30; 0x660; 0x6F0; 0x7C0; 0x966; 0x9E6; 0xA66; 0xAE6; 0xB66; 0xBE6;
   0xC66; 0xCE6; 0xD66; 0xDE6; 0xE50; 0xED0; 0xF20; 0x1040; 0x1090; 0x17E0;
   0x1810; 0x1946; 0x19D0; 0x1A80; 0x1A90; 0x1B50; 0x1BB0; 0x1C40; 0x1C50;
   0xA620; 0xA8D0; 0xA900; 0xA9D0; 0xA9F0; 0xAA50; 0xABF0; 0xFF10; 0x104A0;
   0x10D30; 0x11066; 0x110F0; 0x11136; 0x111D0; 0x112F0; 0x11450; 0x114D0;
   0x11650; 0x116C0; 0x11730; 0x118E0; 0x11950; 0x11C50; 0x11D50; 0x11DA0;
   0x16A60; 0x16AC0; 0x16B50; 0x1D7CE; 0x1D7D8; 0x1D7E2; 0x1D7EC; 0x1D7F6;
   0x1E140; 0x1E2F0; 0x1E950; 0x1FBF0].

Fixpoint decimal_in (zeros : list Z) (c : Z) : option Z :=
  match zeros with
  | [] => None
  | z :: rest => if in_range z (z + 9) c then Some (c - z) else decimal_in rest c
  end.

(** [Py_UNICODE_TODECIMAL]: the value of a decimal digit. *)
Definition todecimal (c : Z) : option Z := decimal_in decimal_zeros c.

(** Characters with a digit value that are not decimal digits (superscripts,
    circled digits and the like): [str.isdigit] accepts them, [int()] does
    not. *)
Definition other_digit_ranges : list (Z * Z) :=
  [(0xB2, 0xB3); (0xB9, 0xB9); (0x1369, 0x1371); (0x19DA, 0x19DA);
   (0x2070, 0x2070); (0x2074, 0x2079); (0x2080, 0x2089); (0x2460, 0x2468);
   (0x2474, 0x247C); (0x2488, 0x2490); (0x24EA, 0x24EA); (0x24F5, 0x24FD);
   (0x24FF, 0x24FF); (0x2776, 0x277E); (0x2780, 0x2788); (0x278A, 0x2792);
   (0x10A40, 0x10A43); (0x10E60, 0x10E68); (0x11052, 0x1105A);
   (0x1F100, 0x1F10A)].

Definition isdigit (c : Z) : bool :=
  match todecimal c with
  | Some _ => true
  | None => existsb (fun r => in_range (fst r) (snd r) c) other_digit_ranges
  end.

(** [str.lower] on one character.  The case table is restricted to Basic
    Latin, Latin-1 and the letter-like signs that fold into them; every other
    code point is left as it is (no lowercase mapping outside this table
    yields an ASCII character). *)
Definition lower_char (c : Z) : str :=
  if in_range 0x41 0x5A c then [c + 32]
  else if in_range 0xC0 0xDE c && negb (c =? 0xD7) then [c + 32]
  else if c =? 0x130 then [0x69; 0x307]
  else if c =? 0x212A then [0x6B]
  else if c =? 0x212B then [0xE5]
  else [c].

(** *** String methods *)

Definition lower (s : str) : str := flat_map lower_char s.

Fixpoint lstrip_by (sp : Z -> bool) (s : str) : str :=
  match s with
  | [] => []
  | c :: r => if sp c then lstrip_by sp r else s
  end.

Definition strip_by (sp : Z -> bool) (s : str) : str :=
  rev (lstrip_by sp (rev (lstrip_by sp s))).

Definition strip (s : str) : str := strip_by isspace s.

Fixpoint startswith (p s : str) : bool :=
  match p, s with
  | [], _ => true
  | _ :: _, [] => false
  | a :: p', b :: s' => (a =? b) && startswith p' s'
  end.

(** [sub in s] *)
Fixpoint contains (sub s : str) : bool :=
  startswith sub s ||
  match s with
  | [] => false
  | _ :: r => contains sub r
  end.

(** [s.replace(old, new)]: occurrences are found left to right and do not
    overlap; [skip] characters of a match are still to be dropped. *)
Fixpoint replace_from (old new : str) (skip : nat) (s : str) : str :=
  match s with
  | [] => []
  | c :: r =>
    match skip with
    | S k => replace_from old new k r
    | O =>
      if startswith old s
      then new ++ replace_from old new (Nat.pred (length old)) r
      else c :: replace_from old new 0 r
    end
  end.

Definition replace (old new s : str) : str :=
  match old with
  | [] => new ++ flat_map (fun c => c :: new) s
  | _ :: _ => replace_from old new 0 s
  end.

(** [s.split(sep)] for a separator of one character. *)
Fixpoint split_on (sep : Z) (s : str) : list str :=
  match s with
  | [] => [[]]
  | c :: r =>
    if c =? sep then [] :: split_on sep r
    else match split_on sep r with
         | [] => [[c]]
         | w :: ws => (c :: w) :: ws
         end
  end.

(** The maximal runs of characters that are not separators; [cur] is the
    run being read, reversed. *)
Fixpoint split_runs (sp : Z -> bool) (cur : option str) (s : str) : list str :=
  match s with
  | [] => match cur with Some w => [rev w] | None => [] end
  | c :: r =>
    if sp c
    then match cur with
         | Some w => rev w :: split_runs sp None r
         | None => split_runs sp None r
         end
    else split_runs sp (Some (c :: match cur with Some w => w | None => [] end)) r
  end.

(** [s.split()] *)
Definition split (s : str) : list str := split_runs isspace None s.

Definition str_eqb (a b : str) : bool :=
  (length a =? length b)%nat && startswith a b.

(** *** [int(str)] and [float(str)] *)

Definition is_ascii_digit (c : Z) : bool := in_range 0x30 0x39 c.

(** Both conversions first bring the text to ASCII: a decimal digit of any
    script becomes the ASCII digit of its value, non-ASCII whitespace becomes
    a blank and any other non-ASCII character becomes [?], which no numeral
    contains. *)
Definition number_char (c : Z) : Z :=
  if c <? 127 then c
  else if isspace c then 0x20
  else match todecimal c with
       | Some d => 0x30 + d
       | None => 0x3F
       end.

(** The blanks they skip on both sides, after that step. *)
Definition is_blank (c : Z) : bool := in_range 0x09 0x0D c || (c =? 0x20).

(** An underscore is legal between two digits only; [prev] is the character
    before [s]. *)
Fixpoint drop_underscores (prev : Z) (s : str) : option str :=
  match s with
  | [] => if prev =? 0x5F then None else Some []
  | c :: r =>
    if c =? 0x5F
    then (if is_ascii_digit prev then drop_underscores c r else None)
    else if (prev =? 0x5F) && negb (is_ascii_digit c) then None
    else option_map (cons c) (drop_underscores c r)
  end.

Definition digits_value (ds : str) : Z :=
  fold_left (fun acc c => acc * 10 + (c - 0x30)) ds 0.

(** A leading sign: [(negative, rest)]. *)
Definition take_sign (s : str) : bool * str :=
  match s with
  | c :: r => if c =? 0x2D then (true, r)
              else if c =? 0x2B then (false, r)
              else (false, s)
  | [] => (false, s)
  end.

(** [sys.int_info.default_max_str_digits] *)
Definition max_str_digits : nat := 4300.

(** [int(s)] for a [str] argument, base 10. *)
Definition int (s : str) : result Z :=
  let '(neg, body) := take_sign (strip_by is_blank (map number_char s)) in
  match drop_underscores 0 body with
  | None => Raise ValueError
  | Some ds =>
    match ds with
    | [] => Raise ValueError
    | _ :: _ =>
      if negb (forallb is_ascii_digit ds) then Raise ValueError
      else if (max_str_digits <? length ds)%nat then Raise ValueError
      else Ok (if neg then - digits_value ds else digits_value ds)
    end
  end.

(** *** binary64 *)

Definition prec : Z := 53.
Definition emax : Z := 1024.

(** The binary64 nearest to [n / d], for positive [n] and [d], with the sign
    [neg]. *)
Definition float_of_ratio (neg : bool) (n d : Z) : spec_float :=
  let '(q, e, l) := SFdiv_core_binary prec emax n 0 d 0 in
  binary_round_aux prec emax neg q e l.

(** The binary64 nearest to [m * 10 ^ e]. *)
Definition float_of_decimal (neg : bool) (m e : Z) : spec_float :=
  if m =? 0 then S754_zero neg
  else if 0 <=? e then float_of_ratio neg (m * 10 ^ e) 1
  else float_of_ratio neg m (10 ^ (- e)).

Definition float_of_int (n : Z) : spec_float :=
  binary_normalize prec emax n 0 false.

Fixpoint span_digits (s : str) : str * str :=
  match s with
  | [] => ([], [])
  | c :: r =>
    if is_ascii_digit c
    then let '(ds, rest) := span_digits r in (c :: ds, rest)
    else ([], s)
  end.

(** The exponent part, empty or [e], an optional sign and digits. *)
Definition parse_exponent (s : str) : option Z :=
  match s with
  | [] => Some 0
  | c :: r =>
    if (c =? 0x65) || (c =? 0x45) then
      let '(neg, ds) := take_sign r in
      match ds with
      | [] => None
      | _ :: _ =>
        if forallb is_ascii_digit ds
        then Some (if neg then - digits_value ds else digits_value ds)
        else None
      end
    else None
  end.

(** A decimal numeral [digits [. digits] [exponent]] with a digit before or
    after the point, as [(mantissa, exponent)]. *)
Definition parse_decimal (s : str) : option (Z * Z) :=
  let '(ip, rest) := span_digits s in
  let '(fp, rest') :=
    match rest with
    | c :: r => if c =? 0x2E then span_digits r else ([], rest)
    | [] => ([], [])
    end in
  match ip ++ fp with
  | [] => None
  | _ :: _ =>
    match parse_exponent rest' with
    | None => None
    | Some x => Some (digits_value (ip ++ fp), x - Z.of_nat (length fp))
    end
  end.

(** [float(s)] for a [str] argument. *)
Definition float (s : str) : result spec_float :=
  match drop_underscores 0 (strip_by is_blank (map number_char s)) with
  | None => Raise ValueError
  | Some t =>
    let '(neg, body) := take_sign t in
    let word := lower body in
    if str_eqb word (utf8 "inf") || str_eqb word (utf8 "infinity")
    then Ok (S754_infinity neg)
    else if str_eqb word (utf8 "nan") then Ok S754_nan
    else match parse_decimal body with
         | None => Raise ValueError
         | Some (m, e) => Ok (float_of_decimal neg m e)
         end
  end.

Definition float_mul (x y : spec_float) : spec_float := SFmul prec emax x y.

(** The integer part of a positive [m * 2 ^ e], and whether the rest is
    below, at or above one half. *)
Definition int_and_half (m : positive) (e : Z) : Z * comparison :=
  if 0 <=? e then (Zpos m * 2 ^ e, Lt)
  else let q := Z.shiftr (Zpos m) (- e) in
       let r := Zpos m - Z.shiftl q (- e) in
       (q, if r =? 0 then Lt else (2 * r ?= 2 ^ (- e))).

(** [int(x)] for a [float]: truncation towards zero. *)
Definition int_of_float (x : spec_float) : result Z :=
  match x with
  | S754_zero _ => Ok 0
  | S754_infinity _ => Raise OverflowError
  | S754_nan => Raise ValueError
  | S754_finite s m e =>
    let q := fst (int_and_half m e) in Ok (if s then - q else q)
  end.

(** [round(x)] for a [float]: the nearest integer, ties to the even one. *)
Definition round (x : spec_float) : result Z :=
  match x with
  | S754_zero _ => Ok 0
  | S754_infinity _ => Raise OverflowError
  | S754_nan => Raise ValueError
  | S754_finite s m e =>
    let '(q, h) := int_and_half m e in
    let q' := match h with
              | Lt => q
              | Eq => if Z.even q then q else q + 1
              | Gt => q + 1
              end in
    Ok (if s then - q' else q')
  end.

(** [a / b] on integers: the binary64 nearest to the quotient. *)
Definition truediv (a b : Z) : result spec_float :=
  if b =? 0 then Raise ZeroDivisionError
  else
    let neg := xorb (a <? 0) (b <? 0) in
    if a =? 0 then Ok (S754_zero (b <? 0))
    else match float_of_ratio neg (Z.abs a) (Z.abs b) with
         | S754_infinity _ => Raise OverflowError
         | q => Ok q
         end.

End Py.

(** ** [datetime.date] *)

Module Datetime.
Import Py.

Record date : Type := Date { year : Z; month : Z; day : Z }.

Definition is_leap (y : Z) : bool :=
  (y mod 4 =? 0) && (negb (y mod 100 =? 0) || (y mod 400 =? 0)).

Definition days_in_month (y m : Z) : Z :=
  if m =? 2 then (if is_leap y then 29 else 28)
  else if (m =? 4) || (m =? 6) || (m =? 9) || (m =? 11) then 30
  else 31.

Definition fits_c_int (z : Z) : bool := in_range (- 2 ^ 31) (2 ^ 31 - 1) z.

Definition valid_ymd (y m d : Z) : bool :=
  in_range 1 9999 y && in_range 1 12 m && in_range 1 (days_in_month y m) d.

(** [date(year, month, day)]: the arguments are read as C ints, then
    checked against the calendar. *)
Definition date_new (y m d : Z) : result date :=
  if negb (fits_c_int y && fits_c_int m && fits_c_int d) then Raise OverflowError
  else if valid_ymd y m d then Ok (Date y m d)
  else Raise ValueError.

Definition month_names : list string :=
  ["january"; "february"; "march"; "april"; "may"; "june"; "july"; "august";
   "september"; "october"; "november"; "december"]%string.

Fixpoint index_of (names : list string) (w : str) (i : Z) : option Z :=
  match names with
  | [] => None
  | n :: rest => if str_eqb (utf8 n) w then Some i else index_of rest w (i + 1)
  end.

Definition is_decimal (c : Z) : bool :=
  match todecimal c with Some _ => true | None => false end.

(** [%Y]: four digits. *)
Definition year_token (t : str) : bool :=
  (length t =? 4)%nat && forallb is_decimal t.

(** [%d]: [3[0-1]|[1-2]\d|0[1-9]|[1-9]]. *)
Definition day_token (t : str) : bool :=
  match t with
  | [c] => in_range 0x31 0x39 c
  | [c1; c2] =>
    ((c1 =? 0x33) && in_range 0x30 0x31 c2)
    || (in_range 0x31 0x32 c1 && is_decimal c2)
    || ((c1 =? 0x30) && in_range 0x31 0x39 c2)
  | _ => false
  end.

(** [datetime.strptime(s, "%Y %B %d").date()], in the C locale: the three
    fields are separated by runs of whitespace and fill the whole of [s]; the
    month is a full English month name in any letter case. *)
Definition strptime_Y_B_d (s : str) : result date :=
  match split s with
  | [y; b; d] =>
    if str_eqb (strip s) s && year_token y && day_token d then
      match index_of month_names (lower b) 1 with
      | Some m => yv <- int y ;; dv <- int d ;; date_new yv m dv
      | None => Raise ValueError
      end
    else Raise ValueError
  | _ => Raise ValueError
  end.

End Datetime.

(** ** The [jdatetime] package: Jalali dates and their conversion

    [utils.py] imports this package; its [date] constructor, [isleap] and
    the class [JalaliToGregorian] behind [togregorian] are embedded here as
    the package has them. *)

Module Jdatetime.
Import Py.

Definition MINYEAR : Z := 1.
Definition MAXYEAR : Z := 9377.

Definition j_days_in_month : list Z :=
  [31; 31; 31; 31; 31; 31; 30; 30; 30; 30; 30; 29].
Definition g_days_in_month : list Z :=
  [31; 28; 31; 30; 31; 30; 31; 31; 30; 31; 30; 31].

Record date : Type := JDate { year : Z; month : Z; day : Z }.

Definition mem (x : Z) (l : list Z) : bool := existsb (Z.eqb x) l.

(** [date.isleap] *)
Definition isleap (y : Z) : bool :=
  mem (y mod 33) [1; 5; 9; 13; 17; 22; 26; 30].

(** [jdatetime.date(year, month, day)] *)
Definition date_new (y m d : Z) : result date :=
  if (y <? MINYEAR) || (MAXYEAR <? y) then Raise ValueError
  else if (m <? 1) || (12 <? m) then Raise ValueError
  else if d <? 1 then Raise ValueError
  else if (m =? 12) && (d =? 30) && isleap y then Ok (JDate y m d)
  else if (m =? 12) && (d =? 30) && negb (isleap y) then Raise ValueError
  else if nth (Z.to_nat (m - 1)) j_days_in_month 0 <? d then Raise ValueError
  else Ok (JDate y m d).

(** The closing loop of [JalaliToGregorian]: months are taken off the day
    number while it reaches their length; [i] is the index of the month of
    [days]. *)
Fixpoint month_and_day (days : list Z) (i leap g_day_no : Z) : result (Z * Z) :=
  match days with
  | [] => Raise IndexError
  | len :: rest =>
    let len' := len + (if i =? 1 then leap else 0) in
    if len' <=? g_day_no then month_and_day rest (i + 1) leap (g_day_no - len')
    else Ok (i + 1, g_day_no + 1)
  end.

(** [JalaliToGregorian(jyear, jmonth, jday).getGregorianList()] *)
Definition JalaliToGregorian (jyear jmonth jday : Z) : result (Z * Z * Z) :=
  let jy := jyear - 979 in
  let jm := jmonth - 1 in
  let jd := jday - 1 in
  let j_day_no := 365 * jy + (jy / 33) * 8 + (jy mod 33 + 3) / 4 in
  let j_day_no :=
    fold_left Z.add (firstn (Z.to_nat jm) j_days_in_month) j_day_no in
  let j_day_no := j_day_no + jd in
  let g_day_no := j_day_no + 79 in
  let gy := 1600 + 400 * (g_day_no / 146097) in
  let g_day_no := g_day_no mod 146097 in
  let '(leap, gy, g_day_no) :=
    if 36525 <=? g_day_no then
      let g_day_no := g_day_no - 1 in
      let gy := gy + 100 * (g_day_no / 36524) in
      let g_day_no := g_day_no mod 36524 in
      if 365 <=? g_day_no then (1, gy, g_day_no + 1) else (0, gy, g_day_no)
    else (1, gy, g_day_no) in
  let gy := gy + 4 * (g_day_no / 1461) in
  let g_day_no := g_day_no mod 1461 in
  let '(leap, gy, g_day_no) :=
    if 366 <=? g_day_no then
      let g_day_no := g_day_no - 1 in
      (0, gy + g_day_no / 365, g_day_no mod 365)
    else (leap, gy, g_day_no) in
  md <- month_and_day g_days_in_month 0 leap g_day_no ;;
  Ok (gy, fst md, snd md).

(** [date.togregorian] *)
Definition togregorian (j : date) : result Datetime.date :=
  g <- JalaliToGregorian (year j) (month j) (day j) ;;
  let '(y, m, d) := g in Datetime.date_new y m d.

End Jdatetime.

(** ** [scraper/utils.py] *)

Module Utils.
Import Py.

Definition PERSIAN_MONTHS : list (string * Z) :=
  [("فروردین", 1); ("اردیبهشت", 2); ("خرداد", 3); ("تیر", 4); ("مرداد", 5);
   ("شهریور", 6); ("مهر", 7); ("آبان", 8); ("آذر", 9); ("دی", 10);
   ("بهمن", 11); ("اسفند", 12)]%string.

(** [dict.get] on a table keyed by literals *)
Fixpoint get (table : list (string * Z)) (key : str) : option Z :=
  match table with
  | [] => None
  | (k, v) :: rest => if str_eqb (utf8 k) key then Some v else get rest key
  end.

(** [str.maketrans(from, to)] and [str.translate] *)
Definition maketrans (from to : str) : list (Z * Z) := combine from to.

Fixpoint translate_char (table : list (Z * Z)) (c : Z) : Z :=
  match table with
  | [] => c
  | (k, v) :: rest => if k =? c then v else translate_char rest c
  end.

Definition translate (table : list (Z * Z)) (s : str) : str :=
  map (translate_char table) s.

Definition convert_persian_digits_to_english (persian_str : str) : str :=
  let persian_digits := utf8 "۰۱۲۳۴۵۶۷۸۹" in
  let english_digits := utf8 "0123456789" in
  translate (maketrans persian_digits english_digits) persian_str.

(** [re.search] of the character class U+0600 to U+06FF *)
Definition contains_persian (text : str) : bool :=
  existsb (in_range 0x0600 0x06FF) text.

(** [try: r except (ValueError, TypeError): return None] *)
Definition except_value_type {A} (r : result (option A)) : result (option A) :=
  match r with
  | Raise ValueError | Raise TypeError => Ok None
  | _ => r
  end.

Definition parse_jalali_date (persian_date_str : option str)
  : result (option Datetime.date) :=
  match persian_date_str with
  | None | Some [] => Ok None
  | Some s =>
    let is_jalali := contains_persian s in
    let cleaned := convert_persian_digits_to_english (strip s) in
    if contains (utf8 "/") cleaned
       && (length (split_on 0x2F cleaned) =? 3)%nat
    then
      except_value_type
        match split_on 0x2F cleaned with
        | [ys; ms; ds] =>
          year <- int ys ;; month <- int ms ;; day <- int ds ;;
          if is_jalali then
            jalali_date <- Jdatetime.date_new year month day ;;
            g <- Jdatetime.togregorian jalali_date ;; Ok (Some g)
          else
            g <- Datetime.date_new year month day ;; Ok (Some g)
        | _ => Raise ValueError
        end
    else
      match split cleaned with
      | [day_str; month_str; year_str] =>
        if is_jalali then
          except_value_type
            (day <- int day_str ;;
             let month := get PERSIAN_MONTHS month_str in
             year <- int year_str ;;
             match month with
             | None | Some 0 => Ok None
             | Some month =>
               jalali_date <- Jdatetime.date_new year month day ;;
               g <- Jdatetime.togregorian jalali_date ;; Ok (Some g)
             end)
        else
          match Datetime.strptime_Y_B_d cleaned with
          | Ok d => Ok (Some d)
          | Raise ValueError => Ok None
          | Raise e => Raise e
          end
      | _ => Ok None
      end
  end.

Definition thousand : spec_float := float_of_int 1000.

Definition parse_installs (installs_str : option str) : result Z :=
  match installs_str with
  | None | Some [] => Ok 0
  | Some s =>
    let text := convert_persian_digits_to_english s in
    let text := lower (strip (replace (utf8 "+") [] text)) in
    if contains (utf8 "هزار") text then
      let number := strip (replace (utf8 "هزار") [] text) in
      x <- float number ;; int_of_float (float_mul x thousand)
    else if contains (utf8 "k") text then
      let number := strip (replace (utf8 "k") [] text) in
      x <- float number ;; int_of_float (float_mul x thousand)
    else
      let number := filter isdigit text in
      match number with
      | [] => Ok 0
      | _ :: _ => int number
      end
  end.

Definition parse_size (size_str : option str) : result Z :=
  match size_str with
  | None | Some [] => Ok 0
  | Some s =>
    let text := convert_persian_digits_to_english s in
    let text := lower (strip text) in
    let text :=
      if contains (utf8 "مگابایت") text
      then strip (replace (utf8 "مگابایت") [] text)
      else if contains (utf8 "MB") text
      then strip (replace (utf8 "MB") [] text)
      else text in
    match x <- float text ;; int_of_float x with
    | Raise ValueError => Ok 0
    | r => r
    end
  end.

End Utils.

(** ** The page session: elements as the browser presents them *)

Module Selenium.
Import Py.

(** An element of the rendered page: its tag, its attributes, the text the
    browser shows for it ([WebElement.text]) and its child elements. *)
#[local] Unset Elimination Schemes.
Inductive WebElement : Type :=
| Element (tag : str) (attributes : list (str * str)) (text : str)
          (children : list WebElement).
#[local] Set Elimination Schemes.

Definition tag (el : WebElement) : str :=
  match el with Element t _ _ _ => t end.
Definition attributes (el : WebElement) : list (str * str) :=
  match el with Element _ a _ _ => a end.
Definition text (el : WebElement) : str :=
  match el with Element _ _ x _ => x end.
Definition children (el : WebElement) : list WebElement :=
  match el with Element _ _ _ c => c end.

Fixpoint lookup (name : str) (attrs : list (str * str)) : option str :=
  match attrs with
  | [] => None
  | (k, v) :: rest => if str_eqb k name then Some v else lookup name rest
  end.

(** [el.get_attribute(name)]: [None] when the element has no such
    attribute. *)
Definition get_attribute (el : WebElement) (name : string) : option str :=
  lookup (utf8 name) (attributes el).

(** The class names of an element: the tokens of its [class] attribute,
    which HTML separates by blanks, tabs and line breaks. *)
Definition html_space (c : Z) : bool :=
  (c =? 0x09) || (c =? 0x0A) || (c =? 0x0C) || (c =? 0x0D) || (c =? 0x20).

Definition class_names (el : WebElement) : list str :=
  match get_attribute el "class" with
  | Some v => split_runs html_space None v
  | None => []
  end.

Definition has_class (name : str) (el : WebElement) : bool :=
  existsb (str_eqb name) (class_names el).

(** The elements below [el], in document order. *)
Fixpoint descendants (el : WebElement) : list WebElement :=
  match el with
  | Element _ _ _ cs => flat_map (fun c => c :: descendants c) cs
  end.

(** [el.find_element(By.CLASS_NAME, name)] *)
Definition find_element (el : WebElement) (name : string) : result WebElement :=
  match filter (has_class (utf8 name)) (descendants el) with
  | found :: _ => Ok found
  | [] => Raise NoSuchElementException
  end.

(** [el.find_elements(By.XPATH, "./div")] *)
Definition find_child_divs (el : WebElement) : list WebElement :=
  filter (fun c => str_eqb (tag c) (utf8 "div")) (children el).

End Selenium.

(** ** [scraper/scraper.py]: the comment harvester *)

Module Scraper.
Import Py Selenium.

(** The dictionary returned by [extract_comment_details], one field per
    key. *)
Record RawComment : Type := {
  id : option str;
  username : option str;
  text : option str;
  rating : option Z;
  date : option str
}.

Definition exn_eqb (a b : exn) : bool :=
  match a, b with
  | ValueError, ValueError | TypeError, TypeError
  | OverflowError, OverflowError | ZeroDivisionError, ZeroDivisionError
  | IndexError, IndexError
  | NoSuchElementException, NoSuchElementException
  | TimeoutException, TimeoutException
  | WebDriverException, WebDriverException => true
  | _, _ => false
  end.

(** [try: x = r except (e1, e2, ...): x = None] *)
Definition except {A} (handled : list exn) (r : result (option A))
  : result (option A) :=
  match r with
  | Ok v => Ok v
  | Raise e => if existsb (exn_eqb e) handled then Ok None else Raise e
  end.

(** The five [try] blocks of [extract_comment_details], in their order. *)
Definition extract_id (el : WebElement) : result (option str) :=
  except [NoSuchElementException] (Ok (get_attribute el "id")).

Definition extract_username (el : WebElement) : result (option str) :=
  except [NoSuchElementException]
    (u <- find_element el "AppComment__username" ;;
     Ok (Some (strip (Selenium.text u)))).

Definition extract_body (el : WebElement) : result (option str) :=
  except [NoSuchElementException]
    (b <- find_element el "AppComment__body" ;;
     Ok (Some (strip (Selenium.text b)))).

Definition extract_rating (el : WebElement) : result (option Z) :=
  except [NoSuchElementException; ValueError]
    (rating_el <- find_element el "rating__fill" ;;
     let style := get_attribute rating_el "style" in
     percent <-
       match style with
       | Some ((_ :: _) as st) =>
         int (strip (replace (utf8 "%") []
                      (replace (utf8 "%;") []
                        (replace (utf8 "width:") [] st))))
       | _ => Ok 0
       end ;;
     q <- truediv percent 20 ;;
     rating <- round q ;;
     Ok (Some rating)).

Definition extract_date (el : WebElement) : result (option str) :=
  except [NoSuchElementException; IndexError]
    (meta_el <- find_element el "AppComment__meta" ;;
     let child_divs := find_child_divs meta_el in
     if (1 <? length child_divs)%nat then
       match nth_error child_divs 1 with
       | Some d => Ok (Some (strip (Selenium.text d)))
       | None => Raise IndexError
       end
     else Ok (Some [])).

Definition extract_comment_details (el : WebElement) : result RawComment :=
  external_id <- extract_id el ;;
  username <- extract_username el ;;
  body <- extract_body el ;;
  rating <- extract_rating el ;;
  date <- extract_date el ;;
  Ok {| id := external_id; username := username; text := body;
        rating := rating; date := date |}.

(** *** The pagination loop

    The browser session is a collaborator: its capabilities act on a
    session state, and each may raise.  Durations are in milliseconds. *)

Section Pagination.

Variable Session : Type.
(** [wd.get(url)] *)
Variable wd_get : str -> Session -> result unit * Session.
(** [WebDriverWait(wd, 10).until(presence_of_element_located(
    (By.CLASS_NAME, "AppCommentsList__loadmore")))]: the control, or
    [TimeoutException] when it is not located in time. *)
Variable wait_until_load_more : Session -> result WebElement * Session.
(** [wd.execute_script("arguments[0].scrollIntoView(true);", el)] *)
Variable scroll_into_view : WebElement -> Session -> result unit * Session.
(** [time.sleep] *)
Variable sleep : Z -> Session -> Session.
(** [el.click()] *)
Variable click : WebElement -> Session -> result unit * Session.
(** [wd.find_elements(By.CLASS_NAME, "AppCommentsList__item")] *)
Variable find_comment_items : Session -> result (list WebElement) * Session.

(** One pass through the body of [while True]; [true] when the loop goes
    round again.  The control returned by the wait is a [WebElement], hence
    true in a condition; the bare [except] ends the loop on any exception. *)
Definition load_more_step (s : Session) : bool * Session :=
  match wait_until_load_more s with
  | (Raise _, s1) => (false, s1)
  | (Ok load_more_button, s1) =>
    match scroll_into_view load_more_button s1 with
    | (Raise _, s2) => (false, s2)
    | (Ok _, s2) =>
      match click load_more_button (sleep 500 s2) with
      | (Raise _, s3) => (false, s3)
      | (Ok _, s3) => (true, sleep 1000 s3)
      end
    end
  end.

(** The loop, for at most [fuel] passes: [None] when it is still running
    after them. *)
Fixpoint load_more_loop (fuel : nat) (s : Session) : option Session :=
  match fuel with
  | O => None
  | S fuel' =>
    match load_more_step s with
    | (true, s') => load_more_loop fuel' s'
    | (false, s') => Some s'
    end
  end.

Definition extract_all_comment_elements (fuel : nat) (app_url : str)
  (s : Session) : option (result (list WebElement) * Session) :=
  match wd_get app_url s with
  | (Raise e, s1) => Some (Raise e, s1)
  | (Ok _, s1) =>
    match load_more_loop fuel s1 with
    | None => None
    | Some s2 => Some (find_comment_items s2)
    end
  end.

(** [passes s n s']: from [s] the loop makes [n] full passes, each finding
    and activating the control, and reaches [s']. *)
Inductive passes : Session -> nat -> Session -> Prop :=
| passes_none : forall s, passes s 0 s
| passes_more : forall s s1 n s',
    load_more_step s = (true, s1) -> passes s1 n s' -> passes s (S n) s'.

End Pagination.

End Scraper.

(** ** Vocabulary of the statements *)

Module Notions.
Import Py.

(** A date numeral is a run of Latin or Persian digits, not longer than
    [int()] accepts. *)
Definition date_digit (c : Z) : bool :=
  in_range 0x30 0x39 c || in_range 0x06F0 0x06F9 c.

Definition digit_val (c : Z) : Z :=
  if c <? 0x06F0 then c - 0x30 else c - 0x06F0.

Definition numeral_value (ds : str) : Z :=
  fold_left (fun acc c => acc * 10 + digit_val c) ds 0.

Definition numeral (ds : str) : Prop :=
  ds <> [] /\ forallb date_digit ds = true /\ (length ds <= max_str_digits)%nat.

(** The numeric layout [Y/M/D]. *)
Definition slash_date (ys ms ds : str) : str :=
  ys ++ utf8 "/" ++ ms ++ utf8 "/" ++ ds.

(** The length of a month of the Jalali civil calendar. *)
Definition jalali_month_length (y m : Z) : Z :=
  if m <=? 6 then 31
  else if m <=? 11 then 30
  else if Jdatetime.isleap y then 30 else 29.

Definition valid_jalali (y m d : Z) : bool :=
  in_range Jdatetime.MINYEAR Jdatetime.MAXYEAR y && in_range 1 12 m
  && in_range 1 (jalali_month_length y m) d.

(** The Gregorian date of a Jalali date, as [jdatetime] computes it. *)
Definition jalali_to_gregorian (y m d : Z) : Datetime.date :=
  match Jdatetime.JalaliToGregorian y m d with
  | Ok (gy, gm, gd) => Datetime.Date gy gm gd
  | Raise _ => Datetime.Date 0 0 0
  end.

(** What the numeric branch of [parse_jalali_date] does with the three
    integers it has read. *)
Definition from_triple (is_jalali : bool) (y m d : Z)
  : result (option Datetime.date) :=
  Utils.except_value_type
    (if is_jalali then
       jalali_date <- Jdatetime.date_new y m d ;;
       g <- Jdatetime.togregorian jalali_date ;; Ok (Some g)
     else g <- Datetime.date_new y m d ;; Ok (Some g)).

(** The two halves of [JalaliToGregorian]: the number of days from the
    first day of the Gregorian year 1600 to a Jalali date, and the Gregorian
    date that many days after it. *)
Definition jalali_day_no (jyear jmonth jday : Z) : Z :=
  let jy := jyear - 979 in
  fold_left Z.add (firstn (Z.to_nat (jmonth - 1)) Jdatetime.j_days_in_month)
    (365 * jy + (jy / 33) * 8 + (jy mod 33 + 3) / 4)
  + (jday - 1) + 79.

Definition gregorian_year_of_day_no (g_day_no : Z) : Z * Z * Z :=
  let gy := 1600 + 400 * (g_day_no / 146097) in
  let g_day_no := g_day_no mod 146097 in
  let '(leap, gy, g_day_no) :=
    if 36525 <=? g_day_no then
      let g_day_no := g_day_no - 1 in
      let gy := gy + 100 * (g_day_no / 36524) in
      let g_day_no := g_day_no mod 36524 in
      if 365 <=? g_day_no then (1, gy, g_day_no + 1) else (0, gy, g_day_no)
    else (1, gy, g_day_no) in
  let gy := gy + 4 * (g_day_no / 1461) in
  let g_day_no := g_day_no mod 1461 in
  if 366 <=? g_day_no then
    let g_day_no := g_day_no - 1 in
    (0, gy + g_day_no / 365, g_day_no mod 365)
  else (leap, gy, g_day_no).

Definition gregorian_of_day_no (g_day_no : Z) : result (Z * Z * Z) :=
  let '(leap, gy, g_day_no) := gregorian_year_of_day_no g_day_no in
  md <- Jdatetime.month_and_day Jdatetime.g_days_in_month 0 leap g_day_no ;;
  Ok (gy, fst md, snd md).

(** [b] holds for every integer from [lo] on, [n] of them. *)
Fixpoint all_from (lo : Z) (n : nat) (b : Z -> bool) : bool :=
  match n with
  | O => true
  | S n' => b lo && all_from (lo + 1) n' b
  end.

(** The length of a month of a Gregorian year, leap ([leap = 1]) or not. *)
Definition gregorian_month_length (leap m : Z) : Z :=
  if m =? 2 then 28 + leap
  else if (m =? 4) || (m =? 6) || (m =? 9) || (m =? 11) then 30
  else 31.

(** The sum of [f] over the [n] integers from [lo] on. *)
Fixpoint sum_from (lo : Z) (n : nat) (f : Z -> Z) : Z :=
  match n with
  | O => 0
  | S n' => f lo + sum_from (lo + 1) n' f
  end.

(** *** Counting days in the two civil calendars

    The day number of a Gregorian date, as [date.toordinal] has it: 1 for
    1 January of the year 1. *)
Definition days_before_year (y : Z) : Z :=
  let y := y - 1 in y * 365 + y / 4 - y / 100 + y / 400.

Definition gregorian_ordinal (g : Datetime.date) : Z :=
  days_before_year (Datetime.year g)
  + sum_from 1 (Z.to_nat (Datetime.month g - 1))
      (Datetime.days_in_month (Datetime.year g))
  + Datetime.day g.

(** The day number of a Jalali date: 1 for 1 Farvardin of the year 1, the
    years having 366 days when leap in the cycle of 33 years and 365
    otherwise. *)
Definition jalali_year_length (y : Z) : Z :=
  if Jdatetime.isleap y then 366 else 365.

Definition jalali_ordinal (y m d : Z) : Z :=
  sum_from 1 (Z.to_nat (y - 1)) jalali_year_length
  + sum_from 1 (Z.to_nat (m - 1)) (jalali_month_length y)
  + d.

(** The Gregorian day number of the day before 1 Farvardin of the year 1;
    it makes 1 Farvardin 1404 the 21st of March 2025. *)
Definition jalali_epoch : Z := 226894.

(** The count of days before a Jalali year in closed form, as the
    conversion computes it. *)
Definition before_year (y : Z) : Z :=
  365 * (y - 979) + (y - 979) / 33 * 8 + ((y - 979) mod 33 + 3) / 4.

(** The closing loop of the conversion counts the days of the months that
    it passes. *)
Definition month_and_day_counts (leap g : Z) : bool :=
  match Jdatetime.month_and_day Jdatetime.g_days_in_month 0 leap g with
  | Ok (m, d) =>
    sum_from 1 (Z.to_nat (m - 1)) (gregorian_month_length leap) + d =? g + 1
  | Raise _ => false
  end.

(** The closing loop of the conversion finds a month and a day of it. *)
Definition month_and_day_ok (leap g : Z) : bool :=
  match Jdatetime.month_and_day Jdatetime.g_days_in_month 0 leap g with
  | Ok (m, d) => in_range 1 12 m && in_range 1 (gregorian_month_length leap m) d
  | Raise _ => false
  end.

(** The character [-]. *)
Definition minus : Z := 0x2D.

Definition no_minus (s : str) : Prop := Forall (fun c => c <> minus) s.

(** The text that [parse_size] hands to [float()]: the digits normalized,
    the ends stripped, lowered, and the unit removed where it is found. *)
Definition size_text (size_str : str) : str :=
  let text := Utils.convert_persian_digits_to_english size_str in
  let text := lower (strip text) in
  if contains (utf8 "مگابایت") text
  then strip (replace (utf8 "مگابایت") [] text)
  else if contains (utf8 "MB") text
  then strip (replace (utf8 "MB") [] text)
  else text.

(** A float that is not below zero: a zero of either sign and NaN count. *)
Definition not_negative (x : spec_float) : Prop :=
  match x with
  | S754_zero _ | S754_nan => True
  | S754_infinity s | S754_finite s _ _ => s = false
  end.

(** [p / 20] rounded to the nearest integer, ties to the even one. *)
Definition nearest_even_20 (p : Z) : Z :=
  let q := p / 20 in
  let r := p mod 20 in
  if r <? 10 then q
  else if 10 <? r then q + 1
  else if Z.even q then q else q + 1.

(** *** Comment elements *)

(** The text of a sub-element that was looked for, when it was found. *)
Definition text_of (found : result Selenium.WebElement) : option str :=
  match found with
  | Ok e => Some (strip (Selenium.text e))
  | Raise _ => None
  end.

Definition username_of (el : Selenium.WebElement) : option str :=
  text_of (Selenium.find_element el "AppComment__username").

Definition body_of (el : Selenium.WebElement) : option str :=
  text_of (Selenium.find_element el "AppComment__body").

(** The date of a comment: that of the second [div] of the metadata
    container, the empty string when the container has no second [div]. *)
Definition date_of (el : Selenium.WebElement) : option str :=
  match Selenium.find_element el "AppComment__meta" with
  | Ok meta_el =>
    Some match Selenium.find_child_divs meta_el with
         | _ :: d :: _ => strip (Selenium.text d)
         | _ => []
         end
  | Raise _ => None
  end.

(** The text of a [style] attribute that is read as the percentage. *)
Definition percent_text (style : str) : str :=
  strip (replace (utf8 "%") []
          (replace (utf8 "%;") [] (replace (utf8 "width:") [] style))).

(** The percentage read off a fill indicator. *)
Definition percent_of (fill : Selenium.WebElement) : result Z :=
  match Selenium.get_attribute fill "style" with
  | Some ((_ :: _) as st) => int (percent_text st)
  | _ => Ok 0
  end.

(** [round(p / 20)] agrees with the nearest integer, ties to even. *)
Definition rating_agrees (p : Z) : bool :=
  match q <- truediv p 20 ;; round q with
  | Ok r => r =? nearest_even_20 p
  | Raise _ => false
  end.

(** Sample elements. *)
Definition div (class : string) (txt : string)
  (cs : list Selenium.WebElement) : Selenium.WebElement :=
  Selenium.Element (utf8 "div") [(utf8 "class", utf8 class)] (utf8 txt) cs.

Definition fill (style : list (str * str)) : Selenium.WebElement :=
  Selenium.Element (utf8 "div")
    ((utf8 "class", utf8 "rating__fill") :: style) [] [].

Definition comment (parts : list Selenium.WebElement) : Selenium.WebElement :=
  Selenium.Element (utf8 "div")
    [(utf8 "class", utf8 "AppCommentsList__item"); (utf8 "id", utf8 "4711")]
    [] parts.

Definition name_part := div "AppComment__username" " Sara " [].
Definition body_part := div "AppComment__body" "good app" [].
Definition meta_part (dates : list Selenium.WebElement) :=
  div "AppComment__meta" "" dates.
Definition date_parts :=
  [div "rating" "" []; div "" "۱ تیر ۱۴۰۴" []].

(** A comment whose metadata container holds one [div] only. *)
Definition comment_with_one_meta_div : Selenium.WebElement :=
  comment [name_part; body_part; fill [(utf8 "style", utf8 "width: 80%;")];
           meta_part [div "rating" "" []]].

(** A comment whose fill indicator has no [style] attribute. *)
Definition comment_without_style : Selenium.WebElement :=
  comment [name_part; body_part; fill []; meta_part date_parts].

(** A comment without fill indicator. *)
Definition comment_without_rating : Selenium.WebElement :=
  comment [name_part; body_part; meta_part date_parts].

(** A comment with all its parts. *)
Definition full_comment : Selenium.WebElement :=
  comment [name_part; body_part; fill [(utf8 "style", utf8 "width: 70%;")];
           meta_part date_parts].

(** A comment whose fill indicator has a width that is no integer, one
    with a width over 100, and two with a width of 400 digits: a comment
    with all its parts, and one with the fill indicator only. *)
Definition comment_with_fraction : Selenium.WebElement :=
  comment [name_part; body_part; fill [(utf8 "style", utf8 "width: 37.5%;")];
           meta_part date_parts].

Definition comment_with_wide_fill : Selenium.WebElement :=
  comment [name_part; body_part; fill [(utf8 "style", utf8 "width: 120%;")];
           meta_part date_parts].

Definition long_width : str :=
  utf8 "width: " ++ repeat 0x39 400 ++ utf8 "%;".

Definition comment_with_long_width : Selenium.WebElement :=
  comment [name_part; body_part; fill [(utf8 "style", long_width)];
           meta_part date_parts].

Definition fill_with_long_width : Selenium.WebElement :=
  comment [fill [(utf8 "style", long_width)]].

(** *** A sample page session

    The page shows some comments and holds more; the load-more control is
    there while comments are held back, and each activation shows one
    more. *)
Record Page : Type := { shown : list Selenium.WebElement;
                        held : list Selenium.WebElement }.

Definition load_more_control : Selenium.WebElement :=
  div "AppCommentsList__loadmore" "more" [].

Definition page_get (url : str) (p : Page) : result unit * Page := (Ok tt, p).

Definition page_wait (p : Page) : result Selenium.WebElement * Page :=
  match held p with
  | [] => (Raise TimeoutException, p)
  | _ :: _ => (Ok load_more_control, p)
  end.

Definition page_scroll (el : Selenium.WebElement) (p : Page)
  : result unit * Page := (Ok tt, p).

Definition page_sleep (ms : Z) (p : Page) : Page := p.

Definition page_click (el : Selenium.WebElement) (p : Page)
  : result unit * Page :=
  match held p with
  | [] => (Raise WebDriverException, p)
  | c :: rest => (Ok tt, {| shown := shown p ++ [c]; held := rest |})
  end.

Definition page_items (p : Page) : result (list Selenium.WebElement) * Page :=
  (Ok (shown p), p).

Definition sample_page : Page :=
  {| shown := [full_comment];
     held := [comment_without_rating; comment_without_style] |}.

End Notions.

(** ** Further vocabulary *)

Module MoreNotions.
Import Py Notions.

(** The textual layout: three words with a blank between them. *)
Definition text_date (t1 t2 t3 : str) : str :=
  t1 ++ utf8 " " ++ t2 ++ utf8 " " ++ t3.

(** A word: not empty, without whitespace and without slash. *)
Definition word_char (c : Z) : bool := negb (isspace c) && negb (c =? 0x2F).

Definition word (t : str) : Prop := t <> [] /\ forallb word_char t = true.

(** An ASCII character other than the letter k. *)
Definition ascii_not_k (c : Z) : bool :=
  in_range 0 127 c && negb (c =? 0x6B) && negb (c =? 0x4B).

(** A character of a plain install count: a Persian digit, or an ASCII
    character other than the letter k. *)
Definition plain_char (c : Z) : bool :=
  in_range 0x06F0 0x06F9 c || ascii_not_k c.

(** A character that [str.isdigit] accepts without its being a decimal
    digit. *)
Definition other_digit (c : Z) : bool :=
  existsb (fun r => in_range (fst r) (snd r) c) other_digit_ranges.

(** A character of an install count with such digits. *)
Definition count_char (c : Z) : bool := plain_char c || other_digit c.

(** *** A page that never runs out

    The session counts the activations of the load-more control, which is
    always there. *)
Definition endless_get (url : str) (n : nat) : result unit * nat := (Ok tt, n).
Definition endless_wait (n : nat) : result Selenium.WebElement * nat :=
  (Ok load_more_control, n).
Definition endless_scroll (el : Selenium.WebElement) (n : nat)
  : result unit * nat := (Ok tt, n).
Definition endless_sleep (ms : Z) (n : nat) : nat := n.
Definition endless_click (el : Selenium.WebElement) (n : nat)
  : result unit * nat := (Ok tt, S n).
Definition endless_items (n : nat)
  : result (list Selenium.WebElement) * nat :=
  (Ok (repeat full_comment n), n).

(** *** Numerals in Arabic-Indic digits *)

Definition arabic_digit (c : Z) : bool := in_range 0x0660 0x0669 c.

Definition arabic_value (ds : str) : Z :=
  fold_left (fun acc c => acc * 10 + (c - 0x0660)) ds 0.

Definition arabic_numeral (ds : str) : Prop :=
  ds <> [] /\ forallb arabic_digit ds = true /\
  (length ds <= max_str_digits)%nat.

End MoreNotions.

(** ** Exceptions and collaborators of the page and database code *)

Module Flow.
Import Py.

(** What a call may raise in this part: an exception of the runtime above,
    an [AttributeError], or an exception of the HTTP client
    ([requests.RequestException]) or of the object-relational mapper
    ([django.db.Error]).  All of them derive from [Exception]. *)
Inductive failure : Type :=
| Builtin (e : exn)
| AttributeError
| RequestException
| DatabaseError.

Inductive outcome (A : Type) : Type :=
| Returns (a : A)
| Raises (e : failure).
Arguments Returns {A} a.
Arguments Raises {A} e.

Definition and_then {A B} (r : outcome A) (k : A -> outcome B) : outcome B :=
  match r with
  | Returns a => k a
  | Raises e => Raises e
  end.

Notation "x <~ r ;; k" := (and_then r (fun x => k))
  (at level 61, r at next level, right associativity).

Definition of_result {A} (r : result A) : outcome A :=
  match r with
  | Ok a => Returns a
  | Raise e => Raises (Builtin e)
  end.

(** [l[i]] for a list and an index that is not negative. *)
Definition getitem {A} (l : list A) (i : nat) : outcome A :=
  match nth_error l i with
  | Some x => Returns x
  | None => Raises (Builtin IndexError)
  end.

(** The truth value of an optional [str]: [None] and the empty string are
    false. *)
Definition nonempty (s : option str) : option str :=
  match s with
  | Some ((_ :: _) as v) => Some v
  | _ => None
  end.

(** [requests.Response], as far as it is used. *)
Record Response : Type := { status_code : Z; response_text : str }.

(** The HTTP client and the HTML parser.  A [Soup] is a parsed document and
    a [Tag] an element of it. *)
Record Web (World Soup Tag : Type) : Type := {
  (** [requests.get(url, headers=headers)] *)
  requests_get : str -> option (list (string * string)) -> World
                 -> outcome Response * World;
  (** [BeautifulSoup(markup, 'html.parser')] *)
  BeautifulSoup : str -> Soup;
  (** [soup.select(selector)] *)
  soup_select : Soup -> string -> list Tag;
  (** [soup.find(name, class_=value)] *)
  soup_find : Soup -> string -> string -> option Tag;
  (** [soup.find_all(name, class_=value)] *)
  soup_find_all : Soup -> string -> string -> list Tag;
  (** [tag.find(name)] *)
  tag_find : Tag -> string -> option Tag;
  (** [tag.get(key)], and [tag[key]] where the key is there *)
  tag_get : Tag -> string -> option str;
  (** [tag.text] *)
  tag_text : Tag -> str
}.
Arguments requests_get {World Soup Tag}.
Arguments BeautifulSoup {World Soup Tag}.
Arguments soup_select {World Soup Tag}.
Arguments soup_find {World Soup Tag}.
Arguments soup_find_all {World Soup Tag}.
Arguments tag_find {World Soup Tag}.
Arguments tag_get {World Soup Tag}.
Arguments tag_text {World Soup Tag}.

(** [bool(tag)]: a [Tag] is true whatever it holds. *)
Definition tag_bool {Tag} (t : Tag) : bool := true.

(** The browser session, with the capabilities that the pagination loop
    uses and those that open and close it. *)
Record Browser (World : Type) : Type := {
  (** [webdriver.Remote(command_executor=url, options=options)], the
      options given by their arguments *)
  remote : str -> list str -> World -> outcome unit * World;
  (** [wd.quit()] *)
  quit : World -> outcome unit * World;
  wd_get : str -> World -> result unit * World;
  wait_until_load_more : World -> result Selenium.WebElement * World;
  scroll_into_view : Selenium.WebElement -> World -> result unit * World;
  sleep : Z -> World -> World;
  click : Selenium.WebElement -> World -> result unit * World;
  find_comment_items : World -> result (list Selenium.WebElement) * World
}.
Arguments remote {World}.
Arguments quit {World}.
Arguments wd_get {World}.
Arguments wait_until_load_more {World}.
Arguments scroll_into_view {World}.
Arguments sleep {World}.
Arguments click {World}.
Arguments find_comment_items {World}.

End Flow.

(** ** [scraper/scraper.py]: the list page and the app page *)

Module Pages.
Import Py Flow.

(** The dictionary returned by [extract_app_details]. *)
Record AppData : Type := {
  name : str;
  description : str;
  installs : str;
  size : str;
  updated_at : str;
  image_urls : list str
}.

Section Pages.
Context {World Soup Tag : Type}.
Variable web : Web World Soup Tag.

(** The loop of [get_app_links] over the selected tags. *)
Fixpoint collect_links (base_url : str) (app_tags : list Tag)
  (app_links : list str) : list str :=
  match app_tags with
  | [] => app_links
  | tag :: rest =>
    let href := tag_get web tag "href" in
    collect_links base_url rest
      match nonempty href with
      | Some href =>
        if startswith (utf8 "/app/") href
        then app_links ++ [base_url ++ href]
        else app_links
      | None => app_links
      end
  end.

(** The status of the response is looked at for a warning in the log
    only. *)
Definition get_app_links (list_url base_url : str)
  (headers : option (list (string * string))) (w : World)
  : outcome (list str) * World :=
  match requests_get web list_url headers w with
  | (Raises e, w1) => (Raises e, w1)
  | (Returns response, w1) =>
    let soup := BeautifulSoup web (response_text response) in
    let app_tags := soup_select web soup "a.SimpleAppItem--single" in
    (Returns (collect_links base_url app_tags []), w1)
  end.

(** [x = found; if not x: x = default]: a tag, or the default string. *)
Definition or_default (found : option Tag) (default : string) : Tag + str :=
  match found with
  | Some t => if negb (tag_bool t) then inr (utf8 default) else inl t
  | None => inr (utf8 default)
  end.

(** [x.text]: a [str] has no such attribute. *)
Definition text_attribute (x : Tag + str) : outcome str :=
  match x with
  | inl t => Returns (tag_text web t)
  | inr _ => Raises AttributeError
  end.

(** [t and t.get(key)], where it is true. *)
Definition lazy_source (t : option Tag) (key : string) : option str :=
  match t with
  | Some t => if tag_bool t then nonempty (tag_get web t key) else None
  | None => None
  end.

(** [srcset.split(",")[0].split()[0]] *)
Definition first_source (srcset : str) : outcome str :=
  first <~ getitem (split_on 0x2C srcset) 0 ;;
  getitem (split first) 0.

(** The loop over the pictures of the page. *)
Fixpoint collect_screenshots (pictures : list Tag) (screenshots : list str)
  : outcome (list str) :=
  match pictures with
  | [] => Returns screenshots
  | pic :: rest =>
    match lazy_source (tag_find web pic "img") "data-lazy-src" with
    | Some src => collect_screenshots rest (screenshots ++ [src])
    | None =>
      match lazy_source (tag_find web pic "source") "data-lazy-srcset" with
      | Some srcset =>
        first_src <~ first_source srcset ;;
        collect_screenshots rest (screenshots ++ [first_src])
      | None => collect_screenshots rest screenshots
      end
    end
  end.

Definition extract_app_details (app_url : str) (w : World)
  : outcome AppData * World :=
  let headers := [("Accept-Language", "fa")]%string in
  match requests_get web app_url (Some headers) w with
  | (Raises e, w1) => (Raises e, w1)
  | (Returns response, w1) =>
    let soup := BeautifulSoup web (response_text response) in
    let app_name := or_default (soup_find web soup "h1" "AppName fs-20")
                               "untitled" in
    let app_description :=
      or_default (soup_find web soup "div" "AppDescription__content fs-14")
                 "untitled" in
    let info_cubes := soup_find_all web soup "td" "InfoCube__content fs-14" in
    (app_installs <~ getitem info_cubes 0 ;;
     let app_installs := or_default (Some app_installs) "-" in
     app_size <~ getitem info_cubes 3 ;;
     app_update_at <~ getitem info_cubes 4 ;;
     screenshots <~
       collect_screenshots (soup_find_all web soup "picture" "sg__image") [] ;;
     name <~ text_attribute app_name ;;
     description <~ text_attribute app_description ;;
     installs <~ text_attribute app_installs ;;
     Returns {| name := name; description := description;
                installs := installs; size := tag_text web app_size;
                updated_at := tag_text web app_update_at;
                image_urls := screenshots |},
     w1)
  end.

End Pages.

(** [create_webdriver] *)
Definition create_webdriver {World} (browser : Browser World) (w : World)
  : outcome unit * World :=
  let selenium_url := utf8 "http://selenium:4444/wd/hub" in
  let wd_options :=
    [utf8 "--headless"; utf8 "--disable-dev-shm-usage"; utf8 "--no-sandbox"] in
  remote browser selenium_url wd_options w.

End Pages.

(** ** [scraper/savers.py] and [scraper/scripts.py] *)

Module Savers.
Import Py Flow Pages.

(** The [defaults] of the two [update_or_create] calls. *)
Record AppDefaults : Type := {
  app_description : str;
  app_installs : Z;
  app_size : Z;
  app_updated_at : option Datetime.date;
  app_image_urls : list str
}.

Record CommentDefaults : Type := {
  comment_rating : option Z;
  comment_date : option Datetime.date
}.

(** The object-relational mapper: the three model managers, as far as they
    are used.  [App] and [User] are the model instances. *)
Record Database (World App User : Type) : Type := {
  (** [App.objects.update_or_create(name=name, defaults=defaults)] *)
  App_update_or_create : str -> AppDefaults -> World -> outcome App * World;
  (** [User.objects.get_or_create(user_id=user_id,
      defaults={"display_name": display_name})] *)
  User_get_or_create : option str -> str -> World -> outcome User * World;
  (** [Comment.objects.update_or_create(app=app, user=user, text=text,
      defaults=defaults)] *)
  Comment_update_or_create :
    App -> option User -> option str -> CommentDefaults -> World
    -> outcome unit * World
}.
Arguments App_update_or_create {World App User}.
Arguments User_get_or_create {World App User}.
Arguments Comment_update_or_create {World App User}.

Section Savers.
Context {World Soup Tag App User : Type}.
Variable web : Web World Soup Tag.
Variable browser : Browser World.
Variable db : Database World App User.

(** The arguments of the call are evaluated before it, the three parsers in
    the order of the dictionary. *)
Definition save_app_details (app_data : AppData) (w : World)
  : outcome App * World :=
  match
    (installs <- Utils.parse_installs (Some (installs app_data)) ;;
     size <- Utils.parse_size (Some (size app_data)) ;;
     updated_at <- Utils.parse_jalali_date (Some (updated_at app_data)) ;;
     Ok {| app_description := description app_data;
           app_installs := installs; app_size := size;
           app_updated_at := updated_at;
           app_image_urls := image_urls app_data |})
  with
  | Raise e => (Raises (Builtin e), w)
  | Ok defaults => App_update_or_create db (name app_data) defaults w
  end.

Definition save_comment_details (app_instance : App)
  (comment_data : Scraper.RawComment) (w : World) : outcome unit * World :=
  let '(user_instance, w1) :=
    match nonempty (Scraper.username comment_data) with
    | Some display_name =>
      match User_get_or_create db (Scraper.id comment_data) display_name w with
      | (Returns u, w1) => (Returns (Some u), w1)
      | (Raises e, w1) => (Raises e, w1)
      end
    | None => (Returns None, w)
    end in
  match user_instance with
  | Raises e => (Raises e, w1)
  | Returns user_instance =>
    match Utils.parse_jalali_date (Scraper.date comment_data) with
    | Raise e => (Raises (Builtin e), w1)
    | Ok date =>
      Comment_update_or_create db app_instance user_instance
        (Scraper.text comment_data)
        {| comment_rating := Scraper.rating comment_data;
           comment_date := date |} w1
    end
  end.

(** The loop over the comment elements.  The dictionary of a comment has
    five keys, hence is true. *)
Fixpoint save_comments (app_instance : App)
  (comment_elements : list Selenium.WebElement) (w : World)
  : outcome unit * World :=
  match comment_elements with
  | [] => (Returns tt, w)
  | el :: rest =>
    match Scraper.extract_comment_details el with
    | Raise e => (Raises (Builtin e), w)
    | Ok comment_data =>
      match save_comment_details app_instance comment_data w with
      | (Raises e, w1) => (Raises e, w1)
      | (Returns _, w1) => save_comments app_instance rest w1
      end
    end
  end.

Definition extract_all_comment_elements (fuel : nat) (app_url : str)
  (w : World) : option (result (list Selenium.WebElement) * World) :=
  Scraper.extract_all_comment_elements World (wd_get browser)
    (wait_until_load_more browser) (scroll_into_view browser) (sleep browser)
    (click browser) (find_comment_items browser) fuel app_url w.

(** The body of the [try] of [save_app_and_comments]; [None] when the
    pagination loop is still running after [fuel] passes. *)
Definition scrape_and_save (fuel : nat) (app_url : str) (w : World)
  : option (outcome unit * World) :=
  match extract_app_details web app_url w with
  | (Raises e, w1) => Some (Raises e, w1)
  | (Returns app_data, w1) =>
    match save_app_details app_data w1 with
    | (Raises e, w2) => Some (Raises e, w2)
    | (Returns app_instance, w2) =>
      match extract_all_comment_elements fuel app_url w2 with
      | None => None
      | Some (Raise e, w3) => Some (Raises (Builtin e), w3)
      | Some (Ok comment_elements, w3) =>
        Some (save_comments app_instance comment_elements w3)
      end
    end
  end.

(** [except Exception] takes every [failure]: it is logged. *)
Definition save_app_and_comments (fuel : nat) (app_url : str) (w : World)
  : option (outcome unit * World) :=
  match scrape_and_save fuel app_url w with
  | None => None
  | Some (Returns _, w') => Some (Returns tt, w')
  | Some (Raises _, w') => Some (Returns tt, w')
  end.

End Savers.

End Savers.

(** ** [scraper/scripts.py] *)

Module Scripts.
Import Py Flow Pages Savers.

Definition LIST_URL : str :=
  utf8 "https://cafebazaar.ir/lists/ml-mental-health-exercises".
Definition BASE_URL : str := utf8 "https://cafebazaar.ir".

Section Scripts.
Context {World Soup Tag App User : Type}.
Variable web : Web World Soup Tag.
Variable browser : Browser World.
Variable db : Database World App User.

(** The loop of [run_scraper] over the links. *)
Fixpoint process_links (fuel : nat) (app_links : list str) (w : World)
  : option (outcome unit * World) :=
  match app_links with
  | [] => Some (Returns tt, w)
  | app_url :: rest =>
    match save_app_and_comments web browser db fuel app_url w with
    | None => None
    | Some (Raises e, w1) => Some (Raises e, w1)
    | Some (Returns _, w1) => process_links fuel rest w1
    end
  end.

(** [try: ... finally: wd.quit()]: the driver is quit after the loop,
    whether it raised or not; what the loop raised is raised again unless
    [quit] itself raises. *)
Definition run_scraper (fuel : nat) (w : World)
  : option (outcome unit * World) :=
  match get_app_links web LIST_URL BASE_URL None w with
  | (Raises e, w1) => Some (Raises e, w1)
  | (Returns app_links, w1) =>
    match create_webdriver browser w1 with
    | (Raises e, w2) => Some (Raises e, w2)
    | (Returns _, w2) =>
      match process_links fuel app_links w2 with
      | None => None
      | Some (Returns _, w3) => Some (quit browser w3)
      | Some (Raises e, w3) =>
        match quit browser w3 with
        | (Returns _, w4) => Some (Raises e, w4)
        | (Raises e', w4) => Some (Raises e', w4)
        end
      end
    end
  end.

End Scripts.

End Scripts.

(** ** A sample site

    A server, a parser, a browser and a database to run the code on.  The
    server answers a request with the address itself, and the parser knows
    the page of each address; a parsed document and its tags are element
    trees. *)

Module SampleSite.
Import Py Flow Pages Savers Scripts Notions.

Definition node (tag class txt : string) (attrs : list (string * string))
  (cs : list Selenium.WebElement) : Selenium.WebElement :=
  Selenium.Element (utf8 tag)
    ((utf8 "class", utf8 class)
     :: map (fun kv => (utf8 (fst kv), utf8 (snd kv))) attrs)
    (utf8 txt) cs.

Definition app_item (attrs : list (string * string)) : Selenium.WebElement :=
  node "a" "SimpleAppItem--single" "" attrs [].

Definition list_page : Selenium.WebElement :=
  node "html" "" "" []
    [app_item [("href", "/app/com.example.calm")];
     app_item [("href", "/developer/example")];
     app_item [];
     node "a" "footer" "" [("href", "/app/com.example.hidden")] [];
     app_item [("href", "/app/com.example.untitled")];
     app_item [("href", "/app/com.example.calm")]]%string.

Definition cube (txt : string) : Selenium.WebElement :=
  node "td" "InfoCube__content fs-14" txt [] [].

Definition picture (cs : list Selenium.WebElement) : Selenium.WebElement :=
  node "picture" "sg__image" "" [] cs.

Definition pictures : list Selenium.WebElement :=
  [picture [node "img" "" "" [("data-lazy-src", "https://cdn.example/1.png")] []];
   picture [node "img" "" "" [] [];
            node "source" "" ""
              [("data-lazy-srcset",
                "https://cdn.example/2.webp 1x, https://cdn.example/2b.webp 2x")]
              []];
   picture []]%string.

Definition app_page (title : list Selenium.WebElement) (installs : string)
  : Selenium.WebElement :=
  node "html" "" "" []
    (title ++
     [node "div" "AppDescription__content fs-14" "Breathing exercises" [] [];
      cube installs; cube "4.5"; cube "health"; cube "۲۱۵ مگابایت";
      cube "۱۴۰۴/۴/۱"] ++ pictures).

Definition title : list Selenium.WebElement :=
  [node "h1" "AppName fs-20" "Calm" [] []].

Definition calm_url : str := utf8 "https://cafebazaar.ir/app/com.example.calm".
Definition vague_url : str := utf8 "https://cafebazaar.ir/app/com.example.vague".
Definition untitled_url : str :=
  utf8 "https://cafebazaar.ir/app/com.example.untitled".

Definition parse (markup : str) : Selenium.WebElement :=
  if str_eqb markup LIST_URL then list_page
  else if str_eqb markup calm_url then app_page title "۱۰ هزار"
  else if str_eqb markup vague_url then app_page title "بیش از ۵۰۰ هزار"
  else if str_eqb markup untitled_url then app_page [] "۱۰ هزار"
  else node "html" "" "" [] [].

Definition has_tag (tag : string) (el : Selenium.WebElement) : bool :=
  str_eqb (Selenium.tag el) (utf8 tag).

Definition has_class_value (value : string) (el : Selenium.WebElement) : bool :=
  match Selenium.get_attribute el "class" with
  | Some v => str_eqb v (utf8 value)
  | None => false
  end.

Definition find_all (root : Selenium.WebElement) (tag class : string)
  : list Selenium.WebElement :=
  filter (fun el => has_tag tag el && has_class_value class el)
    (Selenium.descendants root).

(** The state of the sample: the page in the browser, whether a driver is
    running, the addresses requested and the rows stored. *)
Record Site : Type := {
  page : Page;
  driver : bool;
  requested : list str;
  apps : list (str * AppDefaults);
  users : list (option str * str);
  comments : list (str * option (option str) * option str * CommentDefaults)
}.

Definition with_page (p : Page) (w : Site) : Site :=
  {| page := p; driver := driver w; requested := requested w;
     apps := apps w; users := users w; comments := comments w |}.

Definition with_driver (d : bool) (w : Site) : Site :=
  {| page := page w; driver := d; requested := requested w;
     apps := apps w; users := users w; comments := comments w |}.

Definition on_page {A} (f : Page -> result A * Page) (w : Site)
  : result A * Site :=
  let '(r, p) := f (page w) in (r, with_page p w).

Definition web : Web Site Selenium.WebElement Selenium.WebElement :=
  {| requests_get := fun url _ w =>
       (Returns {| status_code := 200; response_text := url |},
        {| page := page w; driver := driver w;
           requested := requested w ++ [url];
           apps := apps w; users := users w; comments := comments w |});
     BeautifulSoup := parse;
     soup_select := fun root _ => find_all root "a" "SimpleAppItem--single";
     soup_find := fun root tag class => hd_error (find_all root tag class);
     soup_find_all := find_all;
     tag_find := fun el tag =>
       hd_error (filter (has_tag tag) (Selenium.descendants el));
     tag_get := Selenium.get_attribute;
     tag_text := Selenium.text |}.

Definition browser : Browser Site :=
  {| remote := fun _ _ w => (Returns tt, with_driver true w);
     quit := fun w => (Returns tt, with_driver false w);
     wd_get := fun url => on_page (page_get url);
     wait_until_load_more := on_page page_wait;
     scroll_into_view := fun el => on_page (page_scroll el);
     sleep := fun ms w => with_page (page_sleep ms (page w)) w;
     click := fun el => on_page (page_click el);
     find_comment_items := on_page page_items |}.

Definition same_id (a b : option str) : bool :=
  match a, b with
  | Some a, Some b => str_eqb a b
  | None, None => true
  | _, _ => false
  end.

(** The database keeps what it is given; a comment needs a text and a
    rating, as the columns of the model are not nullable. *)
Definition db : Database Site str (option str) :=
  {| App_update_or_create := fun name defaults w =>
       (Returns name,
        {| page := page w; driver := driver w; requested := requested w;
           apps := filter (fun row => negb (str_eqb (fst row) name)) (apps w)
                   ++ [(name, defaults)];
           users := users w; comments := comments w |});
     User_get_or_create := fun user_id display_name w =>
       (Returns user_id,
        {| page := page w; driver := driver w; requested := requested w;
           apps := apps w;
           users := if existsb (fun row => same_id (fst row) user_id) (users w)
                    then users w
                    else users w ++ [(user_id, display_name)];
           comments := comments w |});
     Comment_update_or_create := fun app user text defaults w =>
       match text, comment_rating defaults with
       | Some _, Some _ =>
         (Returns tt,
          {| page := page w; driver := driver w; requested := requested w;
             apps := apps w; users := users w;
             comments := comments w ++ [(app, user, text, defaults)] |})
       | _, _ => (Raises DatabaseError, w)
       end |}.

Definition start : Site :=
  {| page := sample_page; driver := false; requested := [];
     apps := []; users := []; comments := [] |}.

(** An address without page, and the answer to a request. *)
Definition missing_url : str := utf8 "https://cafebazaar.ir/app/com.example.gone".

Definition answer (url : str) : Response :=
  {| status_code := 200; response_text := url |}.

Definition asked (url : str) (w : Site) : Site :=
  snd (requests_get web url None w).

(** A comment without user name, and one with a date far in the future. *)
Definition anonymous_comment : Selenium.WebElement :=
  comment [body_part; fill [(utf8 "style", utf8 "width: 100%;")];
           meta_part date_parts].

Definition late_comment : Selenium.WebElement :=
  comment [name_part; body_part; fill [(utf8 "style", utf8 "width: 100%;")];
           meta_part [div "rating" "" []; div "" "99999999999/1/1" []]].

Definition details (el : Selenium.WebElement) : Scraper.RawComment :=
  match Scraper.extract_comment_details el with
  | Ok comment_data => comment_data
  | Raise _ =>
    {| Scraper.id := None; Scraper.username := None; Scraper.text := None;
       Scraper.rating := None; Scraper.date := None |}
  end.

(** The details of the sample app. *)
Definition calm : AppData :=
  {| name := utf8 "Calm"; description := utf8 "Breathing exercises";
     installs := utf8 "۱۰ هزار"; size := utf8 "۲۱۵ مگابایت";
     updated_at := utf8 "۱۴۰۴/۴/۱";
     image_urls := [utf8 "https://cdn.example/1.png";
                    utf8 "https://cdn.example/2.webp"] |}.


(** The state after a run on the sample. *)
Definition finish : Site :=
  match run_scraper web browser db 10 start with
  | Some (_, w) => w
  | None => start
  end.

End SampleSite.

(** ** Vocabulary for the pages *)

Module PageNotions.
Import Py Flow Pages.

(** The [href] attributes of the tags that have one, in their order. *)
Definition hrefs {World Soup Tag} (web : Web World Soup Tag)
  (tags : list Tag) : list str :=
  flat_map (fun t => match tag_get web t "href" with
                     | Some h => [h]
                     | None => []
                     end) tags.

(** The path of an app page. *)
Definition app_path (href : str) : bool := startswith (utf8 "/app/") href.

(** The parsed page of a response. *)
Definition soup_of {World Soup Tag} (web : Web World Soup Tag)
  (response : Response) : Soup :=
  BeautifulSoup web (response_text response).

(** The cells of the information table of an app page. *)
Definition info_cells {World Soup Tag} (web : Web World Soup Tag)
  (soup : Soup) : list Tag :=
  soup_find_all web soup "td" "InfoCube__content fs-14".

Definition language : option (list (string * string)) :=
  Some [("Accept-Language", "fa")]%string.

End PageNotions.

(* ------------------------------------------------------------------ *)
(** * Properties *)

Module RuntimeFacts.
Import Py.

Lemma in_range_iff lo hi c : in_range lo hi c = true <-> lo <= c <= hi.
Proof. unfold in_range. rewrite andb_true_iff, !Z.leb_le. tauto. Qed.

Lemma lstrip_by_head sp c r : sp c = false -> lstrip_by sp (c :: r) = c :: r.
Proof. intros H. simpl. now rewrite H. Qed.

(** Stripping leaves a string alone when neither end is a separator. *)
Lemma strip_by_ends sp s :
  (forall c, hd_error s = Some c -> sp c = false) ->
  (forall c, hd_error (rev s) = Some c -> sp c = false) ->
  strip_by sp s = s.
Proof.
  intros Hh Hl. unfold strip_by.
  assert (E1 : lstrip_by sp s = s).
  { destruct s as [|c r]; [reflexivity|]. apply lstrip_by_head, Hh. reflexivity. }
  rewrite E1.
  assert (E2 : lstrip_by sp (rev s) = rev s).
  { destruct (rev s) as [|c r] eqn:E; [reflexivity|].
    apply lstrip_by_head, Hl. reflexivity. }
  rewrite E2. apply rev_involutive.
Qed.

End RuntimeFacts.

Module NumeralFacts.
Import Py Utils Notions RuntimeFacts.

Lemma digit_table :
  maketrans (utf8 "۰۱۲۳۴۵۶۷۸۹") (utf8 "0123456789") =
  [(0x06F0, 0x30); (0x06F1, 0x31); (0x06F2, 0x32); (0x06F3, 0x33);
   (0x06F4, 0x34); (0x06F5, 0x35); (0x06F6, 0x36); (0x06F7, 0x37);
   (0x06F8, 0x38); (0x06F9, 0x39)].
Proof. vm_compute. reflexivity. Qed.

Definition normalize_char (c : Z) : Z :=
  if in_range 0x06F0 0x06F9 c then c - 0x06F0 + 0x30 else c.

Lemma convert_is_map s :
  convert_persian_digits_to_english s = map normalize_char s.
Proof.
  unfold convert_persian_digits_to_english, translate. rewrite digit_table.
  apply map_ext. intros c. unfold normalize_char, in_range.
  cbn [translate_char].
  repeat match goal with
         | |- context [?k =? c] => destruct (Z.eqb_spec k c); [subst c; reflexivity|]
         end.
  destruct (Z.leb_spec 0x06F0 c), (Z.leb_spec c 0x06F9); simpl; try reflexivity.
  lia.
Qed.

Lemma date_digit_inv c :
  date_digit c = true -> 0x30 <= c <= 0x39 \/ 0x06F0 <= c <= 0x06F9.
Proof.
  unfold date_digit. rewrite orb_true_iff, !in_range_iff. tauto.
Qed.

Lemma normalize_digit c :
  date_digit c = true ->
  is_ascii_digit (normalize_char c) = true /\
  normalize_char c - 0x30 = digit_val c.
Proof.
  intros H. apply date_digit_inv in H.
  unfold normalize_char, is_ascii_digit, digit_val, in_range.
  destruct H as [H|H].
  - destruct (Z.leb_spec 0x06F0 c); [lia|]. simpl.
    destruct (Z.ltb_spec c 0x06F0); [|lia].
    split; [|reflexivity]. apply andb_true_iff. rewrite !Z.leb_le. lia.
  - destruct (Z.leb_spec 0x06F0 c); [|lia].
    destruct (Z.leb_spec c 0x06F9); [|lia]. simpl.
    destruct (Z.ltb_spec c 0x06F0); [lia|].
    split; [|lia]. apply andb_true_iff. rewrite !Z.leb_le. lia.
Qed.

Lemma normalize_digits_ascii ds :
  forallb date_digit ds = true ->
  forallb is_ascii_digit (map normalize_char ds) = true.
Proof.
  induction ds as [|c r IH]; simpl; [reflexivity|].
  rewrite andb_true_iff. intros [Hc Hr].
  rewrite (proj1 (normalize_digit c Hc)). simpl. auto.
Qed.

Lemma digits_value_normalize ds :
  forallb date_digit ds = true ->
  digits_value (map normalize_char ds) = numeral_value ds.
Proof.
  unfold digits_value, numeral_value. generalize 0 as acc.
  induction ds as [|c r IH]; simpl; intros acc H; [reflexivity|].
  apply andb_true_iff in H. destruct H as [Hc Hr].
  rewrite (proj2 (normalize_digit c Hc)). apply IH, Hr.
Qed.

Lemma ascii_digit_inv c : is_ascii_digit c = true -> 0x30 <= c <= 0x39.
Proof. apply in_range_iff. Qed.

Lemma number_char_digits ds :
  forallb is_ascii_digit ds = true -> map number_char ds = ds.
Proof.
  induction ds as [|c r IH]; simpl; [reflexivity|].
  rewrite andb_true_iff. intros [Hc Hr]. apply ascii_digit_inv in Hc.
  rewrite (IH Hr). unfold number_char.
  destruct (Z.ltb_spec c 127); [reflexivity|lia].
Qed.

Lemma digit_not_blank c : is_ascii_digit c = true -> is_blank c = false.
Proof.
  intros H. apply ascii_digit_inv in H. unfold is_blank, in_range.
  destruct (Z.leb_spec c 0x0D); [lia|]. rewrite andb_false_r. simpl.
  apply Z.eqb_neq. lia.
Qed.

Lemma forallb_hd {A} (p : A -> bool) l c :
  forallb p l = true -> hd_error l = Some c -> p c = true.
Proof.
  destruct l; simpl; [discriminate|].
  rewrite andb_true_iff. intros [H _] [= <-]. exact H.
Qed.

Lemma forallb_rev {A} (p : A -> bool) l :
  forallb p l = true -> forallb p (rev l) = true.
Proof.
  rewrite !forallb_forall. intros H x Hx. apply H, in_rev, Hx.
Qed.

Lemma strip_digits ds :
  forallb is_ascii_digit ds = true -> strip_by is_blank ds = ds.
Proof.
  intros H. apply strip_by_ends; intros c Hc; apply digit_not_blank.
  - eapply forallb_hd; eauto.
  - eapply forallb_hd; [apply forallb_rev|]; eauto.
Qed.

Lemma drop_underscores_digits ds : forall prev,
  prev <> 0x5F -> forallb is_ascii_digit ds = true ->
  drop_underscores prev ds = Some ds.
Proof.
  induction ds as [|c r IH]; simpl; intros prev Hp H.
  - destruct (Z.eqb_spec prev 0x5F); [contradiction|reflexivity].
  - apply andb_true_iff in H. destruct H as [Hc Hr].
    pose proof (ascii_digit_inv c Hc) as Hb.
    destruct (Z.eqb_spec c 0x5F); [lia|].
    destruct (Z.eqb_spec prev 0x5F); [contradiction|]. simpl.
    rewrite IH; [reflexivity|lia|exact Hr].
Qed.

(** [int()] reads a run of ASCII digits as its decimal value. *)
Lemma int_digits ds :
  ds <> [] -> forallb is_ascii_digit ds = true ->
  (length ds <= max_str_digits)%nat ->
  int ds = Ok (digits_value ds).
Proof.
  intros Hne H Hlen. unfold int.
  rewrite (number_char_digits ds H), (strip_digits ds H).
  destruct ds as [|c r]; [contradiction|].
  assert (Hc : 0x30 <= c <= 0x39).
  { apply ascii_digit_inv. simpl in H. apply andb_true_iff in H. tauto. }
  unfold take_sign.
  destruct (Z.eqb_spec c 0x2D); [lia|]. destruct (Z.eqb_spec c 0x2B); [lia|].
  rewrite (drop_underscores_digits (c :: r) 0); [|lia|exact H].
  rewrite H. simpl negb. cbv iota.
  destruct (Nat.ltb_spec max_str_digits (length (c :: r))); [lia|reflexivity].
Qed.

(** The same for a date numeral, once its digits are normalized. *)
Lemma int_numeral ds :
  numeral ds -> int (map normalize_char ds) = Ok (numeral_value ds).
Proof.
  intros (Hne & Hd & Hlen).
  rewrite int_digits.
  - now rewrite digits_value_normalize.
  - destruct ds; [contradiction|discriminate].
  - now apply normalize_digits_ascii.
  - now rewrite length_map.
Qed.

End NumeralFacts.

Module SlashDateFacts.
Import Py Utils Notions RuntimeFacts NumeralFacts.

Lemma date_digit_not_space c : date_digit c = true -> isspace c = false.
Proof.
  intros H. apply date_digit_inv in H.
  destruct (isspace c) eqn:E; [exfalso|reflexivity].
  unfold isspace in E.
  repeat rewrite ?orb_true_iff, ?in_range_iff, ?Z.eqb_eq in E. lia.
Qed.

Lemma slash_is : utf8 "/" = [0x2F].
Proof. reflexivity. Qed.

Lemma hd_error_app {A} (l l' : list A) c :
  hd_error l = Some c -> hd_error (l ++ l') = Some c.
Proof. destruct l; simpl; [discriminate|auto]. Qed.

Lemma numeral_hd ds : numeral ds -> exists c, hd_error ds = Some c.
Proof. intros (Hne & _). destruct ds; [easy|simpl; eauto]. Qed.

Lemma numeral_rev ds : numeral ds -> numeral (rev ds).
Proof.
  intros (Hne & Hd & Hlen). repeat split.
  - intros E. apply Hne. rewrite <- (rev_involutive ds), E. reflexivity.
  - now apply forallb_rev.
  - now rewrite length_rev.
Qed.

Lemma strip_slash_date ys ms ds :
  numeral ys -> numeral ds -> strip (slash_date ys ms ds) = slash_date ys ms ds.
Proof.
  intros Hy Hd. apply strip_by_ends; intros c Hc; apply date_digit_not_space.
  - destruct (numeral_hd ys Hy) as [c' Hc'].
    unfold slash_date in Hc. rewrite (hd_error_app _ _ _ Hc') in Hc.
    injection Hc as <-. destruct Hy as (_ & Hy & _). eapply forallb_hd; eauto.
  - apply numeral_rev in Hd. destruct (numeral_hd _ Hd) as [c' Hc'].
    unfold slash_date in Hc. rewrite !rev_app_distr, <- !app_assoc in Hc.
    rewrite (hd_error_app _ _ _ Hc') in Hc.
    injection Hc as <-. destruct Hd as (_ & Hd & _). eapply forallb_hd; eauto.
Qed.

Lemma convert_slash_date ys ms ds :
  convert_persian_digits_to_english (slash_date ys ms ds) =
  map normalize_char ys ++ 0x2F :: map normalize_char ms
    ++ 0x2F :: map normalize_char ds.
Proof.
  rewrite convert_is_map. unfold slash_date. rewrite slash_is, !map_app.
  reflexivity.
Qed.

Lemma contains_slash xs rest : contains [0x2F] (xs ++ 0x2F :: rest) = true.
Proof.
  induction xs as [|c r IH]; [reflexivity|].
  change ((c :: r) ++ 0x2F :: rest) with (c :: (r ++ 0x2F :: rest)).
  cbn [contains]. rewrite IH. apply orb_true_r.
Qed.

Lemma split_on_digits xs :
  forallb is_ascii_digit xs = true -> split_on 0x2F xs = [xs].
Proof.
  induction xs as [|c r IH]; simpl; [reflexivity|].
  rewrite andb_true_iff. intros [Hc Hr]. apply ascii_digit_inv in Hc.
  destruct (Z.eqb_spec c 0x2F); [lia|]. now rewrite (IH Hr).
Qed.

Lemma split_on_digits_slash xs rest :
  forallb is_ascii_digit xs = true ->
  split_on 0x2F (xs ++ 0x2F :: rest) = xs :: split_on 0x2F rest.
Proof.
  induction xs as [|c r IH]; simpl; [reflexivity|].
  rewrite andb_true_iff. intros [Hc Hr]. apply ascii_digit_inv in Hc.
  destruct (Z.eqb_spec c 0x2F); [lia|]. now rewrite (IH Hr).
Qed.

(** A numeric date goes through the slash branch with the values of its
    three numerals, under the classification of the text as it came. *)
Lemma parse_slash_date ys ms ds :
  numeral ys -> numeral ms -> numeral ds ->
  parse_jalali_date (Some (slash_date ys ms ds)) =
  from_triple (contains_persian (slash_date ys ms ds))
    (numeral_value ys) (numeral_value ms) (numeral_value ds).
Proof.
  intros Hy Hm Hd.
  pose proof (strip_slash_date ys ms ds Hy Hd) as Es.
  pose proof (convert_slash_date ys ms ds) as Ec.
  pose proof (int_numeral _ Hy) as Iy.
  pose proof (int_numeral _ Hm) as Im.
  pose proof (int_numeral _ Hd) as Id.
  assert (Ay := normalize_digits_ascii ys (proj1 (proj2 Hy))).
  assert (Am := normalize_digits_ascii ms (proj1 (proj2 Hm))).
  assert (Ad := normalize_digits_ascii ds (proj1 (proj2 Hd))).
  remember (slash_date ys ms ds) as s eqn:Hs.
  assert (Hne : s <> []).
  { destruct Hy as (Hne & _). rewrite Hs. unfold slash_date.
    destruct ys; [contradiction|discriminate]. }
  destruct s as [|c r]; [contradiction|].
  unfold parse_jalali_date. rewrite Es, Ec, slash_is.
  rewrite contains_slash, split_on_digits_slash, split_on_digits_slash,
    split_on_digits by assumption.
  cbn [length Nat.eqb andb]. rewrite Iy, Im, Id. reflexivity.
Qed.

End SlashDateFacts.

Module CalendarFacts.
Import Py Notions RuntimeFacts.

Lemma JalaliToGregorian_split y m d :
  Jdatetime.JalaliToGregorian y m d = gregorian_of_day_no (jalali_day_no y m d).
Proof.
  unfold Jdatetime.JalaliToGregorian, gregorian_of_day_no,
    gregorian_year_of_day_no, jalali_day_no. cbv zeta.
  repeat match goal with
         | |- context [if ?c then _ else _] => destruct c
         end; reflexivity.
Qed.

Lemma all_from_spec b : forall n lo,
  all_from lo n b = true ->
  forall x, lo <= x < lo + Z.of_nat n -> b x = true.
Proof.
  induction n as [|n IH]; intros lo H x Hx; [lia|].
  cbn [all_from] in H. apply andb_true_iff in H. destruct H as [H0 H1].
  destruct (Z.eq_dec x lo) as [->|Hne]; [exact H0|].
  apply (IH (lo + 1) H1). lia.
Qed.

Lemma month_and_day_common : all_from 0 365 (month_and_day_ok 0) = true.
Proof. vm_compute. reflexivity. Qed.

Lemma month_and_day_leap : all_from 0 366 (month_and_day_ok 1) = true.
Proof. vm_compute. reflexivity. Qed.

(** The closing loop finds a month and a day of that month. *)
Lemma month_and_day_valid leap g :
  leap = 0 \/ leap = 1 -> 0 <= g < 365 + leap ->
  exists m d,
    Jdatetime.month_and_day Jdatetime.g_days_in_month 0 leap g = Ok (m, d) /\
    1 <= m <= 12 /\ 1 <= d <= gregorian_month_length leap m.
Proof.
  intros Hl Hg.
  assert (H : month_and_day_ok leap g = true).
  { destruct Hl as [-> | ->].
    - apply (all_from_spec _ _ _ month_and_day_common). lia.
    - apply (all_from_spec _ _ _ month_and_day_leap). lia. }
  unfold month_and_day_ok in H.
  destruct (Jdatetime.month_and_day _ _ _ _) as [[m d]|]; [|discriminate].
  apply andb_true_iff in H. rewrite !in_range_iff in H.
  exists m, d. tauto.
Qed.

(** The year found for a day number: its day of the year is in range and
    the leap flag is that of the Gregorian rule. *)
Lemma gregorian_year_spec N :
  let '(leap, gy, g) := gregorian_year_of_day_no N in
  (leap = 0 \/ leap = 1) /\ 0 <= g < 365 + leap /\
  Datetime.is_leap gy = (leap =? 1) /\
  0 <= gy - (1600 + 400 * (N / 146097)) <= 399.
Proof.
  unfold gregorian_year_of_day_no. cbv zeta.
  pose proof (Z.mod_pos_bound N 146097 ltac:(lia)) as Hn.
  set (n := N mod 146097) in *. set (Q := N / 146097).
  assert (Hleap : forall base k, base mod 400 = 0 -> 0 <= k < 400 ->
            Datetime.is_leap (base + k) =
            ((k mod 4 =? 0) && (negb (k mod 100 =? 0) || (k =? 0)))).
  { intros base k Hb Hk. unfold Datetime.is_leap.
    replace ((base + k) mod 4) with (k mod 4)
      by (Z.div_mod_to_equations; lia).
    replace ((base + k) mod 100) with (k mod 100)
      by (Z.div_mod_to_equations; lia).
    replace ((base + k) mod 400) with k by (Z.div_mod_to_equations; lia).
    reflexivity. }
  assert (Hbase : (1600 + 400 * Q) mod 400 = 0)
    by (Z.div_mod_to_equations; lia).
  destruct (Z.leb_spec 36525 n) as [H1|H1].
  - pose proof (Z.mod_pos_bound (n - 1) 36524 ltac:(lia)) as Hg2.
    assert (Hc : 1 <= (n - 1) / 36524 <= 3) by (Z.div_mod_to_equations; lia).
    set (c := (n - 1) / 36524) in *. set (g2 := (n - 1) mod 36524) in *.
    destruct (Z.leb_spec 365 g2) as [H2|H2].
    + pose proof (Z.mod_pos_bound (g2 + 1) 1461 ltac:(lia)) as Hg3.
      assert (Hq : 0 <= (g2 + 1) / 1461 <= 24) by (Z.div_mod_to_equations; lia).
      assert (Hq0 : (g2 + 1) / 1461 = 0 -> 366 <= (g2 + 1) mod 1461)
        by (Z.div_mod_to_equations; lia).
      set (q := (g2 + 1) / 1461) in *. set (g3 := (g2 + 1) mod 1461) in *.
      destruct (Z.leb_spec 366 g3) as [H3|H3].
      * pose proof (Z.mod_pos_bound (g3 - 1) 365 ltac:(lia)) as Hg4.
        assert (Hk : 1 <= (g3 - 1) / 365 <= 3) by (Z.div_mod_to_equations; lia).
        set (k := (g3 - 1) / 365) in *.
        replace (1600 + 400 * Q + 100 * c + 4 * q + k)
          with ((1600 + 400 * Q) + (100 * c + 4 * q + k)) by lia.
        rewrite Hleap by (assumption || lia).
        replace ((100 * c + 4 * q + k) mod 4) with k
          by (Z.div_mod_to_equations; lia).
        destruct (Z.eqb_spec k 0); [lia|]. cbn [andb orb negb]. repeat split; try reflexivity; lia.
      * replace (1600 + 400 * Q + 100 * c + 4 * q)
          with ((1600 + 400 * Q) + (100 * c + 4 * q)) by lia.
        rewrite Hleap by (assumption || lia).
        replace ((100 * c + 4 * q) mod 4) with 0
          by (Z.div_mod_to_equations; lia).
        replace ((100 * c + 4 * q) mod 100) with (4 * q)
          by (Z.div_mod_to_equations; lia).
        destruct (Z.eqb_spec (4 * q) 0); [lia|]. cbn [andb orb negb].
        repeat split; try reflexivity; lia.
    + assert (Hq : g2 / 1461 = 0) by (Z.div_mod_to_equations; lia).
      assert (Hg3 : g2 mod 1461 = g2) by (Z.div_mod_to_equations; lia).
      rewrite Hq, Hg3.
      destruct (Z.leb_spec 366 g2) as [H3|H3]; [lia|].
      replace (1600 + 400 * Q + 100 * c + 4 * 0)
        with ((1600 + 400 * Q) + (100 * c)) by lia.
      rewrite Hleap by (assumption || lia).
      replace ((100 * c) mod 4) with 0 by (Z.div_mod_to_equations; lia).
      replace ((100 * c) mod 100) with 0 by (Z.div_mod_to_equations; lia).
      destruct (Z.eqb_spec (100 * c) 0); [lia|]. cbn [andb orb negb].
      repeat split; try reflexivity; lia.
  - pose proof (Z.mod_pos_bound n 1461 ltac:(lia)) as Hg3.
    assert (Hq : 0 <= n / 1461 <= 24) by (Z.div_mod_to_equations; lia).
    set (q := n / 1461) in *. set (g3 := n mod 1461) in *.
    destruct (Z.leb_spec 366 g3) as [H3|H3].
    + pose proof (Z.mod_pos_bound (g3 - 1) 365 ltac:(lia)) as Hg4.
      assert (Hk : 1 <= (g3 - 1) / 365 <= 3) by (Z.div_mod_to_equations; lia).
      set (k := (g3 - 1) / 365) in *.
      replace (1600 + 400 * Q + 4 * q + k)
        with ((1600 + 400 * Q) + (4 * q + k)) by lia.
      rewrite Hleap by (assumption || lia).
      replace ((4 * q + k) mod 4) with k by (Z.div_mod_to_equations; lia).
      destruct (Z.eqb_spec k 0); [lia|]. cbn [andb orb negb]. repeat split; try reflexivity; lia.
    + replace (1600 + 400 * Q + 4 * q)
        with ((1600 + 400 * Q) + (4 * q)) by lia.
      rewrite Hleap by (assumption || lia).
      replace ((4 * q) mod 4) with 0 by (Z.div_mod_to_equations; lia).
      replace ((4 * q) mod 100) with (4 * q) by (Z.div_mod_to_equations; lia).
      destruct (Z.eqb_spec (4 * q) 0) as [E|E]; cbn [andb orb negb];
        repeat split; try reflexivity; lia.
Qed.

(** Evaluates the closed tests and table lookups of the goal. *)
Ltac eval_closed :=
  repeat match goal with
         | |- context [nth ?n ?l ?d] =>
           let v := eval vm_compute in (nth n l d) in
           progress change (nth n l d) with v
         | |- context [firstn ?n ?l] =>
           let v := eval vm_compute in (firstn n l) in
           progress change (firstn n l) with v
         | |- context [?a =? ?b] =>
           let v := eval vm_compute in (a =? b) in
           match v with
           | true => change (a =? b) with true
           | false => change (a =? b) with false
           end
         | |- context [?a <=? ?b] =>
           let v := eval vm_compute in (a <=? b) in
           match v with
           | true => change (a <=? b) with true
           | false => change (a <=? b) with false
           end
         end.

Ltac month_cases m H :=
  assert (m = 1 \/ m = 2 \/ m = 3 \/ m = 4 \/ m = 5 \/ m = 6 \/ m = 7 \/
          m = 8 \/ m = 9 \/ m = 10 \/ m = 11 \/ m = 12) as H by lia;
  repeat destruct H as [H|H]; subst m.

Lemma valid_jalali_inv y m d :
  valid_jalali y m d = true ->
  1 <= y <= 9377 /\ 1 <= m <= 12 /\ 1 <= d <= jalali_month_length y m.
Proof.
  unfold valid_jalali, Jdatetime.MINYEAR, Jdatetime.MAXYEAR.
  rewrite !andb_true_iff, !in_range_iff. tauto.
Qed.

Lemma jalali_month_length_bound y m : 29 <= jalali_month_length y m <= 31.
Proof.
  unfold jalali_month_length.
  destruct (m <=? 6), (m <=? 11), (Jdatetime.isleap y); lia.
Qed.

(** [jdatetime.date] accepts the dates of the Jalali calendar. *)
Lemma jdate_new_valid y m d :
  valid_jalali y m d = true ->
  Jdatetime.date_new y m d = Ok (Jdatetime.JDate y m d).
Proof.
  intros H. apply valid_jalali_inv in H. destruct H as (Hy & Hm & Hd).
  unfold Jdatetime.date_new, Jdatetime.MINYEAR, Jdatetime.MAXYEAR.
  destruct (Z.ltb_spec y 1); [lia|]. destruct (Z.ltb_spec 9377 y); [lia|].
  destruct (Z.ltb_spec m 1); [lia|]. destruct (Z.ltb_spec 12 m); [lia|].
  destruct (Z.ltb_spec d 1); [lia|]. cbn [orb].
  revert Hd. unfold jalali_month_length.
  month_cases m Hc; eval_closed; cbn [andb]; intros Hd;
    try (destruct (Z.ltb_spec 31 d); [lia|reflexivity]);
    try (destruct (Z.ltb_spec 30 d); [lia|reflexivity]).
  destruct (Jdatetime.isleap y); cbn [negb andb];
    destruct (Z.eqb_spec d 30); cbn [andb]; try reflexivity; try lia;
    (destruct (Z.ltb_spec 29 d); [lia|reflexivity]).
Qed.

Lemma days_before_month_bound m acc :
  1 <= m <= 12 ->
  acc <= fold_left Z.add
           (firstn (Z.to_nat (m - 1)) Jdatetime.j_days_in_month) acc
      <= acc + 336.
Proof.
  intros Hm. month_cases m Hc; eval_closed; cbn [fold_left]; lia.
Qed.

(** The day number of a Jalali date lies in the years 400 to 9999. *)
Lemma jalali_day_no_bound y m d :
  1 <= y <= 9377 -> 1 <= m <= 12 -> 1 <= d <= 31 ->
  -3 <= jalali_day_no y m d / 146097 <= 20.
Proof.
  intros Hy Hm Hd. unfold jalali_day_no.
  pose proof (days_before_month_bound m
    (365 * (y - 979) + (y - 979) / 33 * 8 + ((y - 979) mod 33 + 3) / 4) Hm) as Hb.
  set (acc := 365 * (y - 979) + (y - 979) / 33 * 8 + ((y - 979) mod 33 + 3) / 4) in *.
  set (f := fold_left _ _ _) in *.
  assert (Ha : -357250 <= acc <= 3067320).
  { unfold acc. Z.div_mod_to_equations. lia. }
  Z.div_mod_to_equations. lia.
Qed.

(** The conversion of a Jalali date is a date that [datetime.date]
    accepts. *)
Lemma JalaliToGregorian_valid y m d :
  valid_jalali y m d = true ->
  exists gy gm gd,
    Jdatetime.JalaliToGregorian y m d = Ok (gy, gm, gd) /\
    Datetime.date_new gy gm gd = Ok (Datetime.Date gy gm gd).
Proof.
  intros H. apply valid_jalali_inv in H. destruct H as (Hy & Hm & Hd).
  pose proof (jalali_month_length_bound y m) as Hl.
  pose proof (jalali_day_no_bound y m d Hy Hm ltac:(lia)) as HN.
  rewrite JalaliToGregorian_split. unfold gregorian_of_day_no.
  pose proof (gregorian_year_spec (jalali_day_no y m d)) as Hs.
  destruct (gregorian_year_of_day_no _) as [[leap gy] g].
  destruct Hs as (Hleap & Hg & Hrule & Hgy).
  destruct (month_and_day_valid leap g Hleap Hg) as (gm & gd & E & Hgm & Hgd).
  rewrite E. cbn [bind fst snd]. exists gy, gm, gd. split; [reflexivity|].
  assert (Hlen : Datetime.days_in_month gy gm = gregorian_month_length leap gm).
  { unfold Datetime.days_in_month, gregorian_month_length. rewrite Hrule.
    destruct Hleap as [-> | ->]; reflexivity. }
  assert (Hml : gregorian_month_length leap gm <= 31).
  { unfold gregorian_month_length.
    destruct (gm =? 2), ((gm =? 4) || (gm =? 6) || (gm =? 9) || (gm =? 11)); lia. }
  unfold Datetime.date_new, Datetime.fits_c_int, Datetime.valid_ymd.
  rewrite Hlen.
  assert (F : forall lo hi x, lo <= x <= hi -> in_range lo hi x = true)
    by (intros; now apply in_range_iff).
  rewrite (F (- 2 ^ 31) (2 ^ 31 - 1) gy), (F (- 2 ^ 31) (2 ^ 31 - 1) gm),
    (F (- 2 ^ 31) (2 ^ 31 - 1) gd), (F 1 9999 gy), (F 1 12 gm),
    (F 1 _ gd) by lia.
  reflexivity.
Qed.

(** [date.togregorian] on a date of the Jalali calendar. *)
Lemma togregorian_valid y m d :
  valid_jalali y m d = true ->
  Jdatetime.togregorian (Jdatetime.JDate y m d) = Ok (jalali_to_gregorian y m d).
Proof.
  intros H. destruct (JalaliToGregorian_valid y m d H) as (gy & gm & gd & E & V).
  unfold Jdatetime.togregorian, jalali_to_gregorian.
  cbn [Jdatetime.year Jdatetime.month Jdatetime.day]. rewrite E.
  cbn [bind]. exact V.
Qed.

End CalendarFacts.

Module DayCountFacts.
Import Py Notions RuntimeFacts CalendarFacts.

Lemma sum_from_last f : forall n lo,
  sum_from lo (S n) f = sum_from lo n f + f (lo + Z.of_nat n).
Proof.
  induction n as [|n IH]; intros lo.
  - cbn [sum_from]. replace (lo + Z.of_nat 0) with lo by lia. lia.
  - change (sum_from lo (S (S n)) f) with (f lo + sum_from (lo + 1) (S n) f).
    rewrite IH. cbn [sum_from].
    replace (lo + 1 + Z.of_nat n) with (lo + Z.of_nat (S n)) by lia. lia.
Qed.

Lemma sum_from_ext f g : forall n lo,
  (forall x, f x = g x) -> sum_from lo n f = sum_from lo n g.
Proof.
  induction n as [|n IH]; intros lo H; cbn [sum_from]; [reflexivity|].
  now rewrite H, (IH (lo + 1) H).
Qed.

Lemma before_year_step y :
  before_year (y + 1) - before_year y = jalali_year_length y.
Proof.
  unfold before_year, jalali_year_length, Jdatetime.isleap, Jdatetime.mem.
  cbn [existsb].
  repeat match goal with
         | |- context [?a =? ?b] => destruct (Z.eqb_spec a b)
         end; cbn [orb]; Z.div_mod_to_equations; lia.
Qed.

Lemma days_before_jalali_year n :
  sum_from 1 n jalali_year_length = before_year (1 + Z.of_nat n) - before_year 1.
Proof.
  induction n as [|n IH].
  - cbn [sum_from]. replace (1 + Z.of_nat 0) with 1 by lia. lia.
  - rewrite sum_from_last, IH.
    replace (1 + Z.of_nat (S n)) with (1 + Z.of_nat n + 1) by lia.
    pose proof (before_year_step (1 + Z.of_nat n)). lia.
Qed.

Ltac eval_to_nat :=
  repeat match goal with
         | |- context [Z.to_nat (?a - 1)] =>
           let v := eval vm_compute in (Z.to_nat (a - 1)) in
           change (Z.to_nat (a - 1)) with v
         end.

Lemma days_before_jalali_month y m acc :
  1 <= m <= 12 ->
  fold_left Z.add (firstn (Z.to_nat (m - 1)) Jdatetime.j_days_in_month) acc =
  acc + sum_from 1 (Z.to_nat (m - 1)) (jalali_month_length y).
Proof.
  intros Hm. unfold jalali_month_length.
  month_cases m Hc; eval_to_nat; cbn [sum_from]; eval_closed;
    cbn [fold_left]; lia.
Qed.

(** The day number that the conversion computes for a Jalali date counts
    the days of the Jalali calendar. *)
Lemma jalali_day_no_counts y m d :
  1 <= y -> 1 <= m <= 12 ->
  jalali_day_no y m d + 584023 = jalali_ordinal y m d + jalali_epoch.
Proof.
  intros Hy Hm. unfold jalali_day_no, jalali_ordinal, jalali_epoch.
  rewrite (days_before_jalali_month y m _ Hm), days_before_jalali_year.
  replace (1 + Z.of_nat (Z.to_nat (y - 1))) with y by lia.
  change (365 * (y - 979) + (y - 979) / 33 * 8 + ((y - 979) mod 33 + 3) / 4)
    with (before_year y).
  change (before_year 1) with (-357207). lia.
Qed.

Lemma month_and_day_counts_common :
  all_from 0 365 (month_and_day_counts 0) = true.
Proof. vm_compute. reflexivity. Qed.

Lemma month_and_day_counts_leap :
  all_from 0 366 (month_and_day_counts 1) = true.
Proof. vm_compute. reflexivity. Qed.

Lemma month_and_day_count leap g m d :
  leap = 0 \/ leap = 1 -> 0 <= g < 365 + leap ->
  Jdatetime.month_and_day Jdatetime.g_days_in_month 0 leap g = Ok (m, d) ->
  sum_from 1 (Z.to_nat (m - 1)) (gregorian_month_length leap) + d = g + 1.
Proof.
  intros Hl Hg E.
  assert (H : month_and_day_counts leap g = true).
  { destruct Hl as [-> | ->].
    - apply (all_from_spec _ _ _ month_and_day_counts_common). lia.
    - apply (all_from_spec _ _ _ month_and_day_counts_leap). lia. }
  unfold month_and_day_counts in H. rewrite E in H. now apply Z.eqb_eq.
Qed.

(** The year that the conversion finds begins as many days after 1 January
    1600 as the day number says, less the day of the year. *)
Lemma gregorian_year_counts N :
  let '(leap, gy, g) := gregorian_year_of_day_no N in
  days_before_year gy + g = N + 584022.
Proof.
  unfold gregorian_year_of_day_no, days_before_year. cbv zeta.
  pose proof (Z.mod_pos_bound N 146097 ltac:(lia)) as Hn.
  pose proof (Z.div_mod N 146097 ltac:(lia)) as HN.
  set (n := N mod 146097) in *. set (Q := N / 146097) in *.
  destruct (Z.leb_spec 36525 n) as [H1|H1].
  - pose proof (Z.mod_pos_bound (n - 1) 36524 ltac:(lia)) as Hg2.
    pose proof (Z.div_mod (n - 1) 36524 ltac:(lia)) as Hn1.
    assert (Hc : 1 <= (n - 1) / 36524 <= 3) by (Z.div_mod_to_equations; lia).
    set (c := (n - 1) / 36524) in *. set (g2 := (n - 1) mod 36524) in *.
    destruct (Z.leb_spec 365 g2) as [H2|H2].
    + pose proof (Z.mod_pos_bound (g2 + 1) 1461 ltac:(lia)) as Hg3.
      pose proof (Z.div_mod (g2 + 1) 1461 ltac:(lia)) as Hn2.
      assert (Hq : 0 <= (g2 + 1) / 1461 <= 24) by (Z.div_mod_to_equations; lia).
      set (q := (g2 + 1) / 1461) in *. set (g3 := (g2 + 1) mod 1461) in *.
      destruct (Z.leb_spec 366 g3) as [H3|H3].
      * pose proof (Z.mod_pos_bound (g3 - 1) 365 ltac:(lia)) as Hg4.
        pose proof (Z.div_mod (g3 - 1) 365 ltac:(lia)) as Hn3.
        assert (Hk : 1 <= (g3 - 1) / 365 <= 3) by (Z.div_mod_to_equations; lia).
        set (k := (g3 - 1) / 365) in *. set (g := (g3 - 1) mod 365) in *.
        Z.div_mod_to_equations. lia.
      * assert (Hq1 : 1 <= q) by lia.
        Z.div_mod_to_equations. lia.
    + assert (Hq : g2 / 1461 = 0) by (Z.div_mod_to_equations; lia).
      assert (Hg3 : g2 mod 1461 = g2) by (Z.div_mod_to_equations; lia).
      rewrite Hq, Hg3.
      destruct (Z.leb_spec 366 g2) as [H3|H3]; [lia|].
      Z.div_mod_to_equations. lia.
  - pose proof (Z.mod_pos_bound n 1461 ltac:(lia)) as Hg3.
    pose proof (Z.div_mod n 1461 ltac:(lia)) as Hn2.
    assert (Hq : 0 <= n / 1461 <= 24) by (Z.div_mod_to_equations; lia).
    set (q := n / 1461) in *. set (g3 := n mod 1461) in *.
    destruct (Z.leb_spec 366 g3) as [H3|H3].
    + pose proof (Z.mod_pos_bound (g3 - 1) 365 ltac:(lia)) as Hg4.
      pose proof (Z.div_mod (g3 - 1) 365 ltac:(lia)) as Hn3.
      assert (Hk : 1 <= (g3 - 1) / 365 <= 3) by (Z.div_mod_to_equations; lia).
      set (k := (g3 - 1) / 365) in *. set (g := (g3 - 1) mod 365) in *.
      Z.div_mod_to_equations. lia.
    + Z.div_mod_to_equations. lia.
Qed.

Lemma days_in_month_is leap gy :
  leap = 0 \/ leap = 1 -> Datetime.is_leap gy = (leap =? 1) ->
  forall m, Datetime.days_in_month gy m = gregorian_month_length leap m.
Proof.
  intros Hl Hrule m. unfold Datetime.days_in_month, gregorian_month_length.
  rewrite Hrule. destruct Hl as [-> | ->]; reflexivity.
Qed.

(** The conversion keeps the day: the Gregorian date it gives is as many
    days into the Gregorian calendar as the Jalali date is into the Jalali
    calendar, from the common epoch. *)
Lemma conversion_counts_days y m d :
  valid_jalali y m d = true ->
  gregorian_ordinal (jalali_to_gregorian y m d) =
  jalali_ordinal y m d + jalali_epoch.
Proof.
  intros H. apply valid_jalali_inv in H. destruct H as (Hy & Hm & Hd).
  rewrite <- (jalali_day_no_counts y m d) by lia.
  unfold jalali_to_gregorian. rewrite JalaliToGregorian_split.
  unfold gregorian_of_day_no.
  pose proof (gregorian_year_spec (jalali_day_no y m d)) as Hs.
  pose proof (gregorian_year_counts (jalali_day_no y m d)) as Hc.
  destruct (gregorian_year_of_day_no _) as [[leap gy] g].
  destruct Hs as (Hleap & Hg & Hrule & _).
  destruct (month_and_day_valid leap g Hleap Hg) as (gm & gd & E & _).
  rewrite E. cbn [bind fst snd]. unfold gregorian_ordinal.
  cbn [Datetime.year Datetime.month Datetime.day].
  rewrite (sum_from_ext _ _ _ _ (days_in_month_is leap gy Hleap Hrule)).
  pose proof (month_and_day_count leap g gm gd Hleap Hg E). lia.
Qed.

Lemma conversion_is_valid y m d :
  valid_jalali y m d = true ->
  let g := jalali_to_gregorian y m d in
  Datetime.valid_ymd (Datetime.year g) (Datetime.month g) (Datetime.day g)
  = true.
Proof.
  intros H. destruct (JalaliToGregorian_valid y m d H) as (gy & gm & gd & E & V).
  unfold jalali_to_gregorian. rewrite E. cbv zeta.
  cbn [Datetime.year Datetime.month Datetime.day].
  unfold Datetime.date_new in V.
  destruct (negb _); [discriminate|].
  destruct (Datetime.valid_ymd gy gm gd); [reflexivity|discriminate].
Qed.

End DayCountFacts.

(** ** [parse_jalali_date] *)

Module DateClaims.
Import Py Utils Notions RuntimeFacts NumeralFacts SlashDateFacts CalendarFacts
  DayCountFacts.

Lemma date_new_valid y m d :
  Datetime.valid_ymd y m d = true ->
  Datetime.date_new y m d = Ok (Datetime.Date y m d).
Proof.
  intros H. unfold Datetime.date_new. rewrite H.
  unfold Datetime.valid_ymd in H. rewrite !andb_true_iff, !in_range_iff in H.
  assert (Hl : Datetime.days_in_month y m <= 31).
  { unfold Datetime.days_in_month.
    destruct (m =? 2), (Datetime.is_leap y),
      ((m =? 4) || (m =? 6) || (m =? 9) || (m =? 11)); lia. }
  unfold Datetime.fits_c_int.
  assert (F : forall x, 1 <= x <= 9999 -> in_range (- 2 ^ 31) (2 ^ 31 - 1) x = true)
    by (intros; apply in_range_iff; lia).
  rewrite !F by lia. reflexivity.
Qed.

(** A numeric date classified Jalali is converted by [jdatetime]. *)
Lemma parse_slash_jalali ys ms ds :
  numeral ys -> numeral ms -> numeral ds ->
  contains_persian (slash_date ys ms ds) = true ->
  valid_jalali (numeral_value ys) (numeral_value ms) (numeral_value ds) = true ->
  parse_jalali_date (Some (slash_date ys ms ds)) =
  Ok (Some (jalali_to_gregorian
              (numeral_value ys) (numeral_value ms) (numeral_value ds))).
Proof.
  intros Hy Hm Hd Hp Hv.
  rewrite parse_slash_date by assumption. rewrite Hp. unfold from_triple.
  rewrite (jdate_new_valid _ _ _ Hv). cbn [bind].
  rewrite (togregorian_valid _ _ _ Hv). reflexivity.
Qed.

(** A numeric date classified Gregorian is taken as it is written. *)
Lemma parse_slash_gregorian ys ms ds :
  numeral ys -> numeral ms -> numeral ds ->
  contains_persian (slash_date ys ms ds) = false ->
  Datetime.valid_ymd
    (numeral_value ys) (numeral_value ms) (numeral_value ds) = true ->
  parse_jalali_date (Some (slash_date ys ms ds)) =
  Ok (Some (Datetime.Date
              (numeral_value ys) (numeral_value ms) (numeral_value ds))).
Proof.
  intros Hy Hm Hd Hp Hv.
  rewrite parse_slash_date by assumption. rewrite Hp. unfold from_triple.
  rewrite (date_new_valid _ _ _ Hv). reflexivity.
Qed.

Lemma contains_persian_iff s :
  contains_persian s = true <-> exists c, In c s /\ 0x0600 <= c <= 0x06FF.
Proof.
  unfold contains_persian. rewrite existsb_exists.
  split; intros (c & Hc & H); exists c; split; auto; now apply in_range_iff.
Qed.

(** Once the digits are normalized a numeric date holds no Persian
    character. *)
Lemma normalized_slash_date_is_latin ys ms ds :
  numeral ys -> numeral ms -> numeral ds ->
  contains_persian
    (convert_persian_digits_to_english (strip (slash_date ys ms ds))) = false.
Proof.
  intros Hy Hm Hd. rewrite strip_slash_date, convert_slash_date by assumption.
  assert (A : forall xs, forallb is_ascii_digit xs = true ->
                         contains_persian xs = false).
  { intros xs. unfold contains_persian. induction xs as [|c r IH]; simpl;
      [reflexivity|]. rewrite andb_true_iff. intros [Hc Hr].
    apply ascii_digit_inv in Hc. rewrite (IH Hr), orb_false_r.
    unfold in_range. destruct (Z.leb_spec 0x0600 c); [lia|reflexivity]. }
  unfold contains_persian in *.
  rewrite existsb_app. cbn [existsb]. rewrite existsb_app. cbn [existsb].
  rewrite !A by (apply normalize_digits_ascii;
                 match goal with H : numeral _ |- _ => apply H end).
  reflexivity.
Qed.

(** C1, as the code has it: the textual Jalali date and the numeric date in
    Persian digits give the same Gregorian date, 2025-06-22, while the
    numeric date in Latin digits holds no Persian character, is classified
    Gregorian and gives the Gregorian date 1404-04-01. *)
Theorem C1_layouts_agree_in_persian_digits :
  parse_jalali_date (Some (utf8 "۱ تیر ۱۴۰۴")) =
    Ok (Some (Datetime.Date 2025 6 22)) /\
  parse_jalali_date (Some (utf8 "۱۴۰۴/۴/۱")) =
    parse_jalali_date (Some (utf8 "۱ تیر ۱۴۰۴")) /\
  contains_persian (utf8 "1404/4/1") = false /\
  parse_jalali_date (Some (utf8 "1404/4/1")) =
    Ok (Some (Datetime.Date 1404 4 1)).
Proof. repeat split; vm_compute; reflexivity. Qed.

(** C1 as stated fails: the two strings of the claim give different
    dates. *)
Lemma C1_latin_numeric_differs :
  parse_jalali_date (Some (utf8 "۱ تیر ۱۴۰۴")) <>
  parse_jalali_date (Some (utf8 "1404/4/1")).
Proof. vm_compute. discriminate. Qed.

(** C4: a well-formed numeric date [Y/M/D] that is classified Jalali and
    names a date of the Jalali calendar is parsed to the Gregorian date of
    the Jalali date (Y, M, D): the date that [jdatetime] computes, which is
    a date of the Gregorian calendar and lies as many days after the common
    epoch as (Y, M, D) lies in the Jalali calendar.  Jalali 1404/04/01 is
    Gregorian 2025-06-22. *)
Theorem C4_numeric_jalali_is_converted ys ms ds :
  numeral ys -> numeral ms -> numeral ds ->
  contains_persian (slash_date ys ms ds) = true ->
  valid_jalali (numeral_value ys) (numeral_value ms) (numeral_value ds) = true ->
  (exists g,
     parse_jalali_date (Some (slash_date ys ms ds)) = Ok (Some g) /\
     g = jalali_to_gregorian
           (numeral_value ys) (numeral_value ms) (numeral_value ds) /\
     Datetime.valid_ymd
       (Datetime.year g) (Datetime.month g) (Datetime.day g) = true /\
     gregorian_ordinal g =
     jalali_ordinal (numeral_value ys) (numeral_value ms) (numeral_value ds)
     + jalali_epoch)
  /\ jalali_to_gregorian 1404 4 1 = Datetime.Date 2025 6 22
  /\ gregorian_ordinal (Datetime.Date 2025 6 22) =
     jalali_ordinal 1404 4 1 + jalali_epoch.
Proof.
  intros Hy Hm Hd Hp Hv. split; [|split].
  - eexists. split; [now apply parse_slash_jalali|].
    split; [reflexivity|]. split.
    + now apply conversion_is_valid.
    + now apply conversion_counts_days.
  - vm_compute. reflexivity.
  - vm_compute. reflexivity.
Qed.

Lemma C4_witness :
  parse_jalali_date (Some (utf8 "۱۴۰۴/۰۴/۰۱")) =
  Ok (Some (Datetime.Date 2025 6 22)).
Proof.
  destruct (C4_numeric_jalali_is_converted
              (utf8 "۱۴۰۴") (utf8 "۰۴") (utf8 "۰۱")) as [(g & P & G & _) _].
  - repeat split; [discriminate|vm_compute; lia].
  - repeat split; [discriminate|vm_compute; lia].
  - repeat split; [discriminate|vm_compute; lia].
  - reflexivity.
  - reflexivity.
  - subst g. exact P.
Defined.

(** C10: the text is classified as it came, before its digits are
    normalized.  Every string with a character from U+0600 to U+06FF is
    classified Jalali, and the Persian digits are such characters; so a
    numeric date with a Persian digit is converted from the Jalali calendar,
    although its normalized text holds no Persian character, and a numeric
    date in Latin digits alone is built directly as a Gregorian date. *)
Theorem C10_classified_before_normalization :
  (forall s, contains_persian s = true <->
             exists c, In c s /\ 0x0600 <= c <= 0x06FF) /\
  (forall c s, 0x06F0 <= c <= 0x06F9 -> In c s -> contains_persian s = true) /\
  (forall ys ms ds, numeral ys -> numeral ms -> numeral ds ->
     let s := slash_date ys ms ds in
     let y := numeral_value ys in
     let m := numeral_value ms in
     let d := numeral_value ds in
     contains_persian
       (convert_persian_digits_to_english (strip s)) = false /\
     (contains_persian s = true -> valid_jalali y m d = true ->
      parse_jalali_date (Some s) = Ok (Some (jalali_to_gregorian y m d))) /\
     (contains_persian s = false -> Datetime.valid_ymd y m d = true ->
      parse_jalali_date (Some s) = Ok (Some (Datetime.Date y m d)))) /\
  parse_jalali_date (Some (utf8 "۱۴۰۴/۰۴/۰۱")) =
    Ok (Some (Datetime.Date 2025 6 22)) /\
  parse_jalali_date (Some (utf8 "1404/04/01")) =
    Ok (Some (Datetime.Date 1404 4 1)).
Proof.
  split; [exact contains_persian_iff|].
  split.
  { intros c s Hc Hin. apply contains_persian_iff. exists c. split; [exact Hin|lia]. }
  split.
  { intros ys ms ds Hy Hm Hd. cbv zeta. split; [|split].
    - now apply normalized_slash_date_is_latin.
    - now apply parse_slash_jalali.
    - now apply parse_slash_gregorian. }
  split; vm_compute; reflexivity.
Qed.

Lemma C10_witness :
  contains_persian (utf8 "۱۴۰۴/۰۴/۰۱") = true /\
  contains_persian
    (convert_persian_digits_to_english (strip (utf8 "۱۴۰۴/۰۴/۰۱"))) = false /\
  parse_jalali_date (Some (utf8 "۱۴۰۴/۰۴/۰۱")) =
    Ok (Some (jalali_to_gregorian 1404 4 1)) /\
  parse_jalali_date (Some (utf8 "1404/04/01")) =
    Ok (Some (Datetime.Date 1404 4 1)).
Proof.
  destruct C10_classified_before_normalization as (_ & Hdig & Hnum & _).
  assert (N : forall t, t <> [] -> forallb date_digit t = true ->
                        (length t <= 4)%nat -> numeral t).
  { intros t H1 H2 H3. repeat split; auto. unfold max_str_digits. lia. }
  split; [|split; [|split]].
  - apply (Hdig 0x06F1); [lia|left; reflexivity].
  - apply (Hnum (utf8 "۱۴۰۴") (utf8 "۰۴") (utf8 "۰۱"));
      apply N; (discriminate || reflexivity || (vm_compute; lia)).
  - apply (Hnum (utf8 "۱۴۰۴") (utf8 "۰۴") (utf8 "۰۱"));
      try (apply N; (discriminate || reflexivity || (vm_compute; lia)));
      reflexivity.
  - apply (Hnum (utf8 "1404") (utf8 "04") (utf8 "01"));
      try (apply N; (discriminate || reflexivity || (vm_compute; lia)));
      reflexivity.
Defined.

End DateClaims.

(** ** [parse_installs] and [parse_size] *)

Module FloatFacts.
Import Py Notions RuntimeFacts.

(** Rounding keeps the sign it is given. *)
Lemma binary_round_aux_sign sx mx ex lx :
  match binary_round_aux prec emax sx mx ex lx with
  | S754_zero s | S754_infinity s | S754_finite s _ _ => s = sx
  | S754_nan => True
  end.
Proof.
  unfold binary_round_aux.
  destruct (shr_fexp prec emax mx ex lx) as [mrs' e'].
  destruct (shr_fexp prec emax _ e' loc_Exact) as [mrs'' e''].
  destruct (shr_m mrs''); [reflexivity| |exact I].
  destruct (e'' <=? emax - prec); reflexivity.
Qed.

Lemma float_of_ratio_sign neg n d :
  match float_of_ratio neg n d with
  | S754_zero s | S754_infinity s | S754_finite s _ _ => s = neg
  | S754_nan => True
  end.
Proof.
  unfold float_of_ratio.
  destruct (SFdiv_core_binary prec emax n 0 d 0) as [[q e] l].
  apply binary_round_aux_sign.
Qed.

Lemma float_of_decimal_not_negative m e :
  not_negative (float_of_decimal false m e).
Proof.
  unfold float_of_decimal.
  destruct (m =? 0); [exact I|].
  destruct (0 <=? e).
  - pose proof (float_of_ratio_sign false (m * 10 ^ e) 1) as H.
    destruct (float_of_ratio _ _ _); simpl; auto.
  - pose proof (float_of_ratio_sign false m (10 ^ (- e))) as H.
    destruct (float_of_ratio _ _ _); simpl; auto.
Qed.

Lemma thousand_is : exists m e, Utils.thousand = S754_finite false m e.
Proof. eexists _, _. vm_compute. reflexivity. Qed.

Lemma float_mul_thousand_not_negative x :
  not_negative x -> not_negative (float_mul x Utils.thousand).
Proof.
  destruct thousand_is as (m & e & ->). unfold float_mul, SFmul.
  destruct x as [s|s| |s mx ex]; simpl; intros H; try exact I.
  - subst s. reflexivity.
  - subst s. cbn [xorb].
    pose proof (binary_round_aux_sign false (Z.pos (mx * m)) (ex + e) loc_Exact) as R.
    destruct (binary_round_aux _ _ _ _ _ _); simpl; auto.
Qed.

Lemma int_of_float_not_negative x n :
  not_negative x -> int_of_float x = Ok n -> 0 <= n.
Proof.
  destruct x as [s|s| |s m e]; simpl; intros H E; try discriminate.
  - injection E as <-. lia.
  - subst s. injection E as <-. unfold int_and_half.
    destruct (Z.leb_spec 0 e); cbn [fst].
    + apply Z.mul_nonneg_nonneg; [lia|]. now apply Z.pow_nonneg.
    + apply Z.shiftr_nonneg. lia.
Qed.

End FloatFacts.

Module TextFacts.
Import Py Utils Notions RuntimeFacts NumeralFacts FloatFacts.

(** *** What the string operations keep out *)

Section Keep.
Variable P : Z -> Prop.

Lemma lstrip_by_keeps sp s : Forall P s -> Forall P (lstrip_by sp s).
Proof.
  induction 1 as [|c r Hc Hr IH]; simpl; [constructor|].
  destruct (sp c); [exact IH|now constructor].
Qed.

Lemma rev_keeps (s : str) : Forall P s -> Forall P (rev s).
Proof. rewrite !Forall_forall. intros H x Hx. apply H, in_rev, Hx. Qed.

Lemma strip_by_keeps sp s : Forall P s -> Forall P (strip_by sp s).
Proof.
  intros H. unfold strip_by.
  apply rev_keeps, lstrip_by_keeps, rev_keeps, lstrip_by_keeps, H.
Qed.

Lemma replace_from_keeps old s : forall skip,
  Forall P s -> Forall P (replace_from old [] skip s).
Proof.
  induction s as [|c r IH]; intros skip H; simpl; [constructor|].
  inversion H as [|? ? Hc Hr]; subst.
  destruct skip; [|now apply IH].
  destruct (startswith old (c :: r)).
  - now apply IH.
  - constructor; [exact Hc|now apply IH].
Qed.

Lemma remove_keeps old s :
  old <> [] -> Forall P s -> Forall P (replace old [] s).
Proof.
  intros Hne H. unfold replace. destruct old; [contradiction|].
  now apply replace_from_keeps.
Qed.

Lemma filter_keeps (f : Z -> bool) s : Forall P s -> Forall P (filter f s).
Proof.
  rewrite !Forall_forall. intros H x Hx. apply filter_In in Hx. apply H, Hx.
Qed.

Lemma drop_underscores_keeps s : forall prev t,
  drop_underscores prev s = Some t -> Forall P s -> Forall P t.
Proof.
  induction s as [|c r IH]; intros prev t E H; simpl in E.
  - destruct (prev =? 0x5F); [discriminate|]. injection E as <-. constructor.
  - inversion H as [|? ? Hc Hr]; subst.
    destruct (c =? 0x5F).
    + destruct (is_ascii_digit prev); [|discriminate]. eapply IH; eauto.
    + destruct ((prev =? 0x5F) && negb (is_ascii_digit c)); [discriminate|].
      destruct (drop_underscores c r) as [t'|] eqn:E'; [|discriminate].
      injection E as <-. constructor; [exact Hc|]. eapply IH; eauto.
Qed.

End Keep.

Lemma normalize_char_minus c : normalize_char c = minus -> c = minus.
Proof.
  unfold normalize_char, minus, in_range.
  destruct (Z.leb_spec 0x06F0 c), (Z.leb_spec c 0x06F9); simpl; lia.
Qed.

Lemma convert_no_minus s :
  no_minus s -> no_minus (convert_persian_digits_to_english s).
Proof.
  rewrite convert_is_map. unfold no_minus. rewrite !Forall_forall.
  intros H x Hx. apply in_map_iff in Hx. destruct Hx as (c & <- & Hc).
  intros E. apply (H c Hc). now apply normalize_char_minus.
Qed.

Lemma lower_char_minus c : In minus (lower_char c) -> c = minus.
Proof.
  unfold lower_char, minus, in_range.
  destruct (Z.leb_spec 0x41 c), (Z.leb_spec c 0x5A),
    (Z.leb_spec 0xC0 c), (Z.leb_spec c 0xDE), (Z.eqb_spec c 0xD7),
    (Z.eqb_spec c 0x130), (Z.eqb_spec c 0x212A), (Z.eqb_spec c 0x212B);
    simpl; intros Hin; repeat (destruct Hin as [Hin|Hin]; try lia); try lia.
Qed.

Lemma lower_no_minus s : no_minus s -> no_minus (lower s).
Proof.
  unfold no_minus, lower. rewrite !Forall_forall.
  intros H x Hx. apply in_flat_map in Hx. destruct Hx as (c & Hc & Hx).
  intros ->. apply (H c Hc). now apply lower_char_minus.
Qed.

Lemma decimal_in_range zeros c d :
  decimal_in zeros c = Some d -> 0 <= d <= 9.
Proof.
  induction zeros as [|z rest IH]; simpl; [discriminate|].
  destruct (in_range z (z + 9) c) eqn:E; [|exact IH].
  apply in_range_iff in E. intros [= <-]. lia.
Qed.

Lemma number_char_minus c : number_char c = minus -> c = minus.
Proof.
  unfold number_char, minus.
  destruct (Z.ltb_spec c 127); [auto|].
  destruct (isspace c); [lia|].
  unfold todecimal. destruct (decimal_in decimal_zeros c) as [d|] eqn:E; [|lia].
  apply decimal_in_range in E. lia.
Qed.

Lemma number_text_no_minus s :
  no_minus s -> no_minus (strip_by is_blank (map number_char s)).
Proof.
  intros H. apply strip_by_keeps. unfold no_minus in *.
  rewrite Forall_forall in *. intros x Hx. apply in_map_iff in Hx.
  destruct Hx as (c & <- & Hc). intros E. apply (H c Hc).
  now apply number_char_minus.
Qed.

Lemma take_sign_no_minus t : no_minus t -> fst (take_sign t) = false.
Proof.
  destruct t as [|c r]; [reflexivity|]. intros H. inversion H; subst.
  unfold take_sign, minus in *.
  destruct (Z.eqb_spec c 0x2D); [contradiction|].
  destruct (c =? 0x2B); reflexivity.
Qed.

(** *** The conversions on a text without a minus sign *)

Lemma float_not_negative s x :
  no_minus s -> float s = Ok x -> not_negative x.
Proof.
  intros H. apply number_text_no_minus in H. unfold float.
  destruct (drop_underscores 0 _) as [t|] eqn:E; [|discriminate].
  pose proof (drop_underscores_keeps _ _ _ _ E H) as Ht.
  pose proof (take_sign_no_minus t Ht) as Hs.
  destruct (take_sign t) as [neg body]. cbn [fst] in Hs. subst neg.
  destruct (_ || _); [intros [= <-]; reflexivity|].
  destruct (str_eqb _ _); [intros [= <-]; exact I|].
  destruct (parse_decimal body) as [[m e]|]; [|discriminate].
  intros [= <-]. apply float_of_decimal_not_negative.
Qed.

Lemma digits_value_nonneg ds :
  forallb is_ascii_digit ds = true -> 0 <= digits_value ds.
Proof.
  unfold digits_value.
  assert (G : forall acc, 0 <= acc -> forallb is_ascii_digit ds = true ->
              0 <= fold_left (fun a c => a * 10 + (c - 0x30)) ds acc).
  { induction ds as [|c r IH]; simpl; intros acc Ha Hd; [exact Ha|].
    apply andb_true_iff in Hd. destruct Hd as [Hc Hr].
    apply ascii_digit_inv in Hc. apply IH; [lia|exact Hr]. }
  apply G. lia.
Qed.

Lemma int_not_negative s n : no_minus s -> int s = Ok n -> 0 <= n.
Proof.
  intros H. apply number_text_no_minus in H. unfold int.
  pose proof (take_sign_no_minus _ H) as Hs.
  destruct (take_sign _) as [neg body]. cbn [fst] in Hs. subst neg.
  destruct (drop_underscores 0 body) as [ds|]; [|discriminate].
  destruct ds as [|c r]; [discriminate|].
  destruct (forallb is_ascii_digit (c :: r)) eqn:F; [|discriminate].
  cbn [negb]. destruct (_ <? _)%nat; [discriminate|].
  intros [= <-]. now apply digits_value_nonneg.
Qed.

(** [float()] fails with [ValueError] only. *)
Lemma float_raises s e : float s = Raise e -> e = ValueError.
Proof.
  unfold float. destruct (drop_underscores 0 _); [|now intros [= <-]].
  destruct (take_sign _) as [neg body].
  destruct (_ || _); [discriminate|]. destruct (str_eqb _ _); [discriminate|].
  destruct (parse_decimal body) as [[m x]|]; [discriminate|now intros [= <-]].
Qed.

End TextFacts.

Module CountClaims.
Import Py Utils Notions RuntimeFacts NumeralFacts FloatFacts TextFacts.

(** *** [parse_installs] *)

(** C2, at the inputs where the code departs from it: a thousand token with
    no numeral beside it, or with text that is no numeral, makes
    [parse_installs] raise [ValueError] where the claim and the docstring
    promise 0; the inputs without such a token behave as claimed. *)
Theorem C2_thousand_token_without_numeral_raises :
  parse_installs (Some (utf8 "هزار")) = Raise ValueError /\
  parse_installs (Some (utf8 "بیش از ۵۰۰ هزار")) = Raise ValueError /\
  parse_installs (Some (utf8 "k")) = Raise ValueError /\
  parse_installs (Some (utf8 "10k installs")) = Raise ValueError /\
  parse_installs (Some (utf8 "abc")) = Ok 0 /\
  parse_installs None = Ok 0.
Proof. repeat split; vm_compute; reflexivity. Qed.

(** *** [parse_size] *)

Lemma contains_first a p s : contains (a :: p) s = true -> In a s.
Proof.
  induction s as [|c r IH]; [discriminate|].
  cbn [contains startswith]. rewrite orb_true_iff, andb_true_iff, Z.eqb_eq.
  intros [[-> _]|H]; [now left|right; auto].
Qed.

Lemma lower_has_no_capital_M s : ~ In 0x4D (lower s).
Proof.
  unfold lower. rewrite in_flat_map. intros (c & _ & H). revert H.
  unfold lower_char, in_range.
  destruct (Z.leb_spec 0x41 c), (Z.leb_spec c 0x5A),
    (Z.leb_spec 0xC0 c), (Z.leb_spec c 0xDE), (Z.eqb_spec c 0xD7),
    (Z.eqb_spec c 0x130), (Z.eqb_spec c 0x212A), (Z.eqb_spec c 0x212B);
    simpl; intros Hin; repeat (destruct Hin as [Hin|Hin]; try lia); try lia.
Qed.

(** The test for the unit [MB] is made on lowercased text and never
    succeeds. *)
Lemma MB_is_never_found s : contains (utf8 "MB") (lower s) = false.
Proof.
  destruct (contains (utf8 "MB") (lower s)) eqn:E; [|reflexivity].
  exfalso. apply (lower_has_no_capital_M s).
  change (utf8 "MB") with [0x4D; 0x42] in E. now apply contains_first in E.
Qed.

(** C3, at the input where the code departs from it: the size with the unit
    [MB] comes out as 0 where the claim gives 48, because the text is
    lowercased before [MB] is looked for, so that the unit is never found
    and stripped; the same number without the unit, or with the Persian
    unit, is truncated to 48, and the other two examples are as claimed. *)
Theorem C3_MB_unit_is_not_stripped :
  parse_size (Some (utf8 "48.7MB")) = Ok 0 /\
  (forall s, contains (utf8 "MB") (lower s) = false) /\
  parse_size (Some (utf8 "48.7")) = Ok 48 /\
  parse_size (Some (utf8 "48.7 مگابایت")) = Ok 48 /\
  parse_size (Some (utf8 "۲۱۵ مگابایت")) = Ok 215 /\
  parse_size (Some (utf8 "")) = Ok 0.
Proof.
  split; [vm_compute; reflexivity|].
  split; [exact MB_is_never_found|].
  repeat split; vm_compute; reflexivity.
Qed.

(** *** Both *)

Lemma installs_text_no_minus s :
  no_minus s ->
  no_minus (lower (strip (replace (utf8 "+") []
                            (convert_persian_digits_to_english s)))).
Proof.
  intros H. apply lower_no_minus, strip_by_keeps, remove_keeps;
    [discriminate|]. now apply convert_no_minus.
Qed.

Lemma parse_installs_not_negative s n :
  no_minus s -> parse_installs (Some s) = Ok n -> 0 <= n.
Proof.
  intros H. destruct s as [|c r]; [now intros [= <-]|].
  pose proof (installs_text_no_minus _ H) as Ht.
  unfold parse_installs. set (text := lower _) in *.
  assert (K : forall tok, tok <> [] ->
            (x <- float (strip (replace tok [] text)) ;;
             int_of_float (float_mul x thousand)) = Ok n -> 0 <= n).
  { intros tok Hne E.
    destruct (float _) as [x|] eqn:F; [|discriminate]. cbn [bind] in E.
    eapply int_of_float_not_negative; [|exact E].
    apply float_mul_thousand_not_negative.
    eapply float_not_negative; [|exact F].
    apply strip_by_keeps, remove_keeps; assumption. }
  destruct (contains (utf8 "هزار") text); [apply K; discriminate|].
  destruct (contains (utf8 "k") text); [apply K; discriminate|].
  destruct (filter isdigit text) as [|d ds] eqn:F; [now intros [= <-]|].
  apply int_not_negative. rewrite <- F. now apply filter_keeps.
Qed.

Lemma size_steps s :
  exists text,
    (no_minus s -> no_minus text) /\
    parse_size (Some s) =
    match s with
    | [] => Ok 0
    | _ :: _ =>
      match x <- float text ;; int_of_float x with
      | Raise ValueError => Ok 0
      | r => r
      end
    end.
Proof.
  destruct s as [|c r]; [exists []; split; [auto|reflexivity]|].
  unfold parse_size.
  set (text := lower (strip (convert_persian_digits_to_english (c :: r)))).
  assert (Ht : no_minus (c :: r) -> no_minus text).
  { intros H. apply lower_no_minus, strip_by_keeps. now apply convert_no_minus. }
  eexists. split; [|reflexivity].
  intros H. specialize (Ht H).
  destruct (contains (utf8 "مگابایت") text);
    [apply strip_by_keeps, remove_keeps; [discriminate|exact Ht]|].
  destruct (contains (utf8 "MB") text);
    [apply strip_by_keeps, remove_keeps; [discriminate|exact Ht]|].
  exact Ht.
Qed.

Lemma parse_size_not_negative s n :
  no_minus s -> parse_size (Some s) = Ok n -> 0 <= n.
Proof.
  intros H. destruct (size_steps s) as (text & Ht & ->).
  destruct s as [|c r]; [now intros [= <-]|]. specialize (Ht H).
  destruct (float text) as [x|e] eqn:F; cbn [bind].
  - pose proof (float_not_negative _ _ Ht F) as Hx.
    destruct (int_of_float x) as [k|e] eqn:I.
    + intros [= <-]. eapply int_of_float_not_negative; eauto.
    + destruct e; try discriminate. intros [= <-]. lia.
  - destruct e; try discriminate. intros [= <-]. lia.
Qed.

Lemma parse_size_raises s e :
  parse_size (Some s) = Raise e -> e = OverflowError.
Proof.
  destruct (size_steps s) as (text & _ & ->).
  destruct s as [|c r]; [discriminate|].
  destruct (float text) as [x|e'] eqn:F; cbn [bind].
  - destruct x as [sg|sg| |sg m ex]; cbn [int_of_float]; try discriminate.
    now intros [= <-].
  - apply float_raises in F. subst e'. discriminate.
Qed.

(** What [parse_size] returns, by what the conversion of its text gives. *)
Lemma parse_size_is s :
  s <> [] ->
  parse_size (Some s) =
  match x <- float (size_text s) ;; int_of_float x with
  | Raise ValueError => Ok 0
  | r => r
  end.
Proof.
  destruct s as [|c r]; [contradiction|].
  cbv beta zeta iota delta [parse_size size_text]. reflexivity.
Qed.

Lemma parse_size_zero_on_value_error s :
  s <> [] ->
  (x <- float (size_text s) ;; int_of_float x) = Raise ValueError ->
  parse_size (Some s) = Ok 0.
Proof. intros Hne E. now rewrite (parse_size_is s Hne), E. Qed.

(** C5, as the code has it: what [parse_installs] and [parse_size] return
    is an integer, never [None]; absent and empty input give 0;
    [parse_size] gives 0 whenever the numeric conversion of its text,
    [int(float(text))], fails with [ValueError], and lets only
    [OverflowError] out; and the value is not negative for any input
    without a minus sign. *)
Theorem C5_not_negative_without_minus_sign :
  parse_installs None = Ok 0 /\ parse_installs (Some []) = Ok 0 /\
  parse_size None = Ok 0 /\ parse_size (Some []) = Ok 0 /\
  (forall s n, no_minus s -> parse_installs (Some s) = Ok n -> 0 <= n) /\
  (forall s n, no_minus s -> parse_size (Some s) = Ok n -> 0 <= n) /\
  (forall s, s <> [] ->
     (x <- float (size_text s) ;; int_of_float x) = Raise ValueError ->
     parse_size (Some s) = Ok 0) /\
  (forall s e, parse_size (Some s) = Raise e -> e = OverflowError).
Proof.
  repeat split; try reflexivity.
  - exact parse_installs_not_negative.
  - exact parse_size_not_negative.
  - exact parse_size_zero_on_value_error.
  - exact parse_size_raises.
Qed.

Lemma C5_witness :
  parse_installs (Some (utf8 "۱۰ هزار")) = Ok 10000 /\ 0 <= 10000 /\
  parse_size (Some (utf8 "۲۱۵ مگابایت")) = Ok 215 /\ 0 <= 215 /\
  parse_size (Some (utf8 "نامشخص")) = Ok 0 /\
  parse_size (Some (utf8 "nan")) = Ok 0.
Proof.
  destruct C5_not_negative_without_minus_sign
    as (_ & _ & _ & _ & Hi & Hs & Hz & _).
  assert (Ei : parse_installs (Some (utf8 "۱۰ هزار")) = Ok 10000)
    by (vm_compute; reflexivity).
  assert (Es : parse_size (Some (utf8 "۲۱۵ مگابایت")) = Ok 215)
    by (vm_compute; reflexivity).
  assert (N : forall s, forallb (fun c => negb (c =? minus)) s = true ->
                        no_minus s).
  { intros s H. apply Forall_forall. intros c Hc.
    rewrite forallb_forall in H. specialize (H c Hc).
    apply negb_true_iff, Z.eqb_neq in H. exact H. }
  split; [exact Ei|].
  split; [apply (Hi (utf8 "۱۰ هزار") 10000 (N (utf8 "۱۰ هزار") eq_refl) Ei)|].
  split; [exact Es|].
  split; [apply (Hs (utf8 "۲۱۵ مگابایت") 215 (N (utf8 "۲۱۵ مگابایت") eq_refl) Es)|].
  split.
  - apply (Hz (utf8 "نامشخص")); [discriminate|vm_compute; reflexivity].
  - apply (Hz (utf8 "nan")); [discriminate|vm_compute; reflexivity].
Defined.

(** C5 as stated fails: a minus sign before the numeral goes through both
    parsers. *)
Lemma C5_negative_values :
  parse_installs (Some (utf8 "-5k")) = Ok (-5000) /\
  parse_size (Some (utf8 "-3 مگابایت")) = Ok (-3).
Proof. split; vm_compute; reflexivity. Qed.

End CountClaims.

(** ** [extract_comment_details] *)

Module CommentClaims.
Import Py Selenium Scraper Notions RuntimeFacts CalendarFacts.

Lemma find_element_raises el name e :
  find_element el name = Raise e -> e = NoSuchElementException.
Proof.
  unfold find_element. destruct (filter _ _); [|discriminate]. now intros [= <-].
Qed.

Lemma extract_id_is el : extract_id el = Ok (get_attribute el "id").
Proof. reflexivity. Qed.

Lemma extract_text_is (found : result WebElement) :
  except [NoSuchElementException]
    (x <- found ;; Ok (Some (strip (Selenium.text x)))) =
  match found with
  | Ok _ | Raise NoSuchElementException => Ok (text_of found)
  | Raise e => Raise e
  end.
Proof. destruct found as [x|[]]; reflexivity. Qed.

Lemma extract_username_is el : extract_username el = Ok (username_of el).
Proof.
  unfold extract_username, username_of. rewrite extract_text_is.
  destruct (find_element el _) as [x|e] eqn:E; [reflexivity|].
  apply find_element_raises in E. now subst e.
Qed.

Lemma extract_body_is el : extract_body el = Ok (body_of el).
Proof.
  unfold extract_body, body_of. rewrite extract_text_is.
  destruct (find_element el _) as [x|e] eqn:E; [reflexivity|].
  apply find_element_raises in E. now subst e.
Qed.

Lemma extract_date_is el : extract_date el = Ok (date_of el).
Proof.
  unfold extract_date, date_of.
  destruct (find_element el _) as [meta_el|e] eqn:E.
  - cbn [bind]. destruct (find_child_divs meta_el) as [|d0 [|d1 rest]];
      reflexivity.
  - apply find_element_raises in E. now subst e.
Qed.

Lemma int_raises s e : int s = Raise e -> e = ValueError.
Proof.
  unfold int. destruct (take_sign _) as [neg body].
  destruct (drop_underscores 0 body) as [[|c r]|]; try now intros [= <-].
  destruct (negb _); [now intros [= <-]|].
  destruct (_ <? _)%nat; [now intros [= <-]|discriminate].
Qed.

Lemma truediv_20_raises p e : truediv p 20 = Raise e -> e = OverflowError.
Proof.
  unfold truediv. change (20 =? 0) with false. cbv iota.
  destruct (p =? 0); [discriminate|].
  destruct (float_of_ratio _ _ _); try discriminate. now intros [= <-].
Qed.

Lemma round_raises x e :
  round x = Raise e -> e = OverflowError \/ e = ValueError.
Proof.
  destruct x as [s|s| |s m ex]; cbn [round]; try discriminate.
  - intros [= <-]. now left.
  - intros [= <-]. now right.
  - destruct (int_and_half m ex). discriminate.
Qed.

Lemma extract_rating_found el fill :
  find_element el "rating__fill" = Ok fill ->
  extract_rating el =
  except [NoSuchElementException; ValueError]
    (percent <- percent_of fill ;;
     q <- truediv percent 20 ;; rating <- round q ;; Ok (Some rating)).
Proof. intros E. unfold extract_rating. rewrite E. reflexivity. Qed.

Lemma extract_rating_missing el :
  find_element el "rating__fill" = Raise NoSuchElementException ->
  extract_rating el = Ok None.
Proof. intros E. unfold extract_rating. rewrite E. reflexivity. Qed.

(** Only the float division of the percentage can make the rating fail. *)
Lemma extract_rating_raises el e :
  extract_rating el = Raise e ->
  e = OverflowError /\ exists fill, find_element el "rating__fill" = Ok fill.
Proof.
  destruct (find_element el "rating__fill") as [fill|e0] eqn:E.
  - rewrite (extract_rating_found el fill E). intros H.
    split; [|now exists fill].
    destruct (percent_of fill) as [p|e1] eqn:P.
    + cbn [bind] in H. destruct (truediv p 20) as [q|e2] eqn:D.
      * cbn [bind] in H. destruct (round q) as [r|e3] eqn:R; [discriminate|].
        apply round_raises in R. destruct R as [-> | ->].
        -- now injection H as <-.
        -- discriminate.
      * apply truediv_20_raises in D. subst e2. now injection H as <-.
    + unfold percent_of in P.
      destruct (get_attribute fill "style") as [[|c r]|]; try discriminate.
      apply int_raises in P. subst e1. discriminate.
  - pose proof (find_element_raises _ _ _ E). subst e0.
    rewrite (extract_rating_missing el E). discriminate.
Qed.

Lemma ratings_agree : all_from 0 101 rating_agrees = true.
Proof. vm_compute. reflexivity. Qed.

Lemma rating_of_percentage p :
  0 <= p <= 100 ->
  (q <- truediv p 20 ;; round q) = Ok (nearest_even_20 p).
Proof.
  intros H.
  pose proof (all_from_spec _ _ _ ratings_agree p ltac:(lia)) as A.
  unfold rating_agrees in A.
  destruct (q <- truediv p 20 ;; round q) as [r|]; [|discriminate].
  apply Z.eqb_eq in A. now subst r.
Qed.

Lemma nearest_even_20_bounds p : 0 <= p <= 100 -> 0 <= nearest_even_20 p <= 5.
Proof.
  intros H. unfold nearest_even_20.
  destruct (Z.ltb_spec (p mod 20) 10); [Z.div_mod_to_equations; lia|].
  destruct (Z.ltb_spec 10 (p mod 20)); [Z.div_mod_to_equations; lia|].
  destruct (Z.even (p / 20)); Z.div_mod_to_equations; lia.
Qed.

(** The dictionary that is returned, field by field. *)
Lemma extract_comment_details_is el :
  extract_comment_details el =
  (r <- extract_rating el ;;
   Ok {| id := get_attribute el "id"; username := username_of el;
         text := body_of el; rating := r; date := date_of el |}).
Proof.
  unfold extract_comment_details.
  rewrite extract_id_is, extract_username_is, extract_body_is. cbn [bind].
  destruct (extract_rating el); cbn [bind]; [|reflexivity].
  rewrite extract_date_is. reflexivity.
Qed.

Lemma details_fields el rc :
  extract_comment_details el = Ok rc ->
  extract_rating el = Ok (rating rc) /\ date rc = date_of el.
Proof.
  rewrite extract_comment_details_is.
  destruct (extract_rating el) as [r|]; [|discriminate].
  cbn [bind]. intros [= <-]. split; reflexivity.
Qed.

(** What [extract_date] gives, case by case: the text of the second [div]
    of the metadata container; [None] when the container itself is
    missing; the empty string when the container has fewer than two [div]
    children. *)
Lemma extract_date_cases el :
  (find_element el "AppComment__meta" = Raise NoSuchElementException ->
   extract_date el = Ok None) /\
  (forall meta_el, find_element el "AppComment__meta" = Ok meta_el ->
     (forall d0 d1 rest, find_child_divs meta_el = d0 :: d1 :: rest ->
        extract_date el = Ok (Some (strip (Selenium.text d1)))) /\
     ((length (find_child_divs meta_el) < 2)%nat ->
        extract_date el = Ok (Some []))) /\
  (forall rc, extract_comment_details el = Ok rc ->
     extract_date el = Ok (date rc)).
Proof.
  rewrite extract_date_is. unfold date_of. repeat split.
  - now intros ->.
  - intros d0 d1 rest E. now rewrite H, E.
  - intros L. rewrite H.
    destruct (find_child_divs meta_el) as [|d0 [|d1 rest]];
      [reflexivity|reflexivity|cbn [length] in L; lia].
  - intros rc E. apply details_fields in E. destruct E as [_ ->].
    reflexivity.
Qed.

(** The handler for [IndexError] is never reached: either the metadata
    container is not found, or the date is a string. *)
Lemma extract_date_found_is_a_string el :
  find_element el "AppComment__meta" = Raise NoSuchElementException \/
  exists t, extract_date el = Ok (Some t).
Proof.
  rewrite extract_date_is. unfold date_of.
  destruct (find_element el "AppComment__meta") as [m|e] eqn:F.
  - right. eexists. reflexivity.
  - left. now rewrite (find_element_raises _ _ _ F).
Qed.

(** C6: the code departs from the claim.  A metadata container with a
    single [div] gives the empty string for the date, where the claim, the
    docstring of the function and its handler for [IndexError] have
    [None]; the same holds of a container without [div]; and for no
    element is that handler reached: whenever the container is found, the
    date is a string. *)
Theorem C6_one_div_gives_empty_string :
  (exists meta_el,
     find_element comment_with_one_meta_div "AppComment__meta" = Ok meta_el /\
     length (find_child_divs meta_el) = 1%nat) /\
  (exists rc,
     extract_comment_details comment_with_one_meta_div = Ok rc /\
     date rc = Some [] /\ date rc <> None) /\
  extract_date (comment [meta_part []]) = Ok (Some []) /\
  (forall el,
     find_element el "AppComment__meta" = Raise NoSuchElementException \/
     exists t, extract_date el = Ok (Some t)).
Proof.
  split; [eexists; split; reflexivity|].
  split.
  - eexists. split; [vm_compute; reflexivity|].
    split; [reflexivity|discriminate].
  - split; [vm_compute; reflexivity|exact extract_date_found_is_a_string].
Qed.

(** C7, as the code has it: without fill indicator the rating is [None];
    with an indicator whose [style] is missing or empty the rating is 0;
    with a [style] that is not read as an integer the rating is [None]; and
    a percentage from 0 to 100 is divided by 20 and rounded to the nearest
    integer, ties to the even one, which gives a rating from 0 to 5. *)
Theorem C7_rating_of_fill_width el :
  (find_element el "rating__fill" = Raise NoSuchElementException ->
   extract_rating el = Ok None) /\
  (forall fill, find_element el "rating__fill" = Ok fill ->
     (get_attribute fill "style" = None \/
      get_attribute fill "style" = Some [] ->
      extract_rating el = Ok (Some 0)) /\
     (forall st, get_attribute fill "style" = Some st -> st <> [] ->
        (int (percent_text st) = Raise ValueError ->
         extract_rating el = Ok None) /\
        (forall p, int (percent_text st) = Ok p -> 0 <= p <= 100 ->
           extract_rating el = Ok (Some (nearest_even_20 p)) /\
           0 <= nearest_even_20 p <= 5))) /\
  (forall rc, extract_comment_details el = Ok rc ->
     extract_rating el = Ok (rating rc)) /\
  map nearest_even_20 [0; 10; 30; 50; 70; 90; 100] = [0; 0; 2; 2; 4; 4; 5].
Proof.
  split; [apply extract_rating_missing|].
  split; [|split; [intros rc E; apply (details_fields el rc E)|reflexivity]].
  intros fill F. rewrite (extract_rating_found el fill F). unfold percent_of.
  split.
  - intros [-> | ->]; vm_compute; reflexivity.
  - intros st -> Hne. destruct st as [|c r]; [contradiction|]. split.
    + intros ->. reflexivity.
    + intros p -> Hp. cbn [bind].
      pose proof (rating_of_percentage p Hp) as R.
      destruct (truediv p 20) as [q|]; [|discriminate]. cbn [bind] in *.
      rewrite R. split; [reflexivity|now apply nearest_even_20_bounds].
Qed.

Lemma C7_witness :
  extract_rating full_comment = Ok (Some 4) /\
  extract_rating comment_without_style = Ok (Some 0) /\
  extract_rating comment_without_rating = Ok None.
Proof.
  split; [|split].
  - apply (proj1 (proj2 (proj2 (proj1 (proj2
             (C7_rating_of_fill_width full_comment))
             (fill [(utf8 "style", utf8 "width: 70%;")]) eq_refl)
             (utf8 "width: 70%;") eq_refl ltac:(discriminate)) 70 eq_refl
             ltac:(lia))).
  - apply (proj1 (proj1 (proj2 (C7_rating_of_fill_width comment_without_style))
             (fill []) eq_refl)).
    left. reflexivity.
  - apply (proj1 (C7_rating_of_fill_width comment_without_rating)).
    reflexivity.
Defined.

(** C7 as stated fails, in three ways: a fill indicator without [style]
    gives the rating 0, not [None]; a width that is numeric and no integer,
    37.5, gives [None], not the 2 that 37.5 / 20 = 1.875 rounds to; and a
    width over 100, 120, gives 6, which is no rating from 0 to 5. *)
Lemma C7_rating_differs_from_claim :
  ((exists fill,
      find_element comment_without_style "rating__fill" = Ok fill /\
      get_attribute fill "style" = None) /\
   (exists rc,
      extract_comment_details comment_without_style = Ok rc /\
      rating rc = Some 0 /\ rating rc <> None)) /\
  ((exists fill,
      find_element comment_with_fraction "rating__fill" = Ok fill /\
      get_attribute fill "style" = Some (utf8 "width: 37.5%;")) /\
   (x <- float (utf8 "1.875") ;; round x) = Ok 2 /\
   (exists rc,
      extract_comment_details comment_with_fraction = Ok rc /\
      rating rc = None /\ rating rc <> Some 2)) /\
  ((exists fill,
      find_element comment_with_wide_fill "rating__fill" = Ok fill /\
      get_attribute fill "style" = Some (utf8 "width: 120%;")) /\
   (exists rc,
      extract_comment_details comment_with_wide_fill = Ok rc /\
      rating rc = Some 6 /\ ~ 0 <= 6 <= 5)).
Proof.
  split; [|split].
  - split; [eexists; split; reflexivity|].
    eexists. split; [vm_compute; reflexivity|].
    split; [reflexivity|discriminate].
  - split; [eexists; split; reflexivity|].
    split; [vm_compute; reflexivity|].
    eexists. split; [vm_compute; reflexivity|].
    split; [reflexivity|discriminate].
  - split; [eexists; split; reflexivity|].
    eexists. split; [vm_compute; reflexivity|].
    split; [reflexivity|lia].
Qed.

(** Every field is extracted on its own.  The id, the username, the body
    and the date never fail, and each is [None] when its sub-element is
    missing; a missing fill indicator gives the rating [None]; the
    dictionary is returned with every field whenever the rating is, in
    particular when the indicator is missing, when its percentage is not
    numeric and when it is a percentage from 0 to 100; all that can escape
    is the [OverflowError] of the float division, on a fill indicator that
    is there. *)
Lemma fields_fail_independently el :
  extract_id el = Ok (get_attribute el "id") /\
  extract_username el = Ok (username_of el) /\
  extract_body el = Ok (body_of el) /\
  extract_date el = Ok (date_of el) /\
  (find_element el "AppComment__username" = Raise NoSuchElementException ->
   username_of el = None) /\
  (find_element el "AppComment__body" = Raise NoSuchElementException ->
   body_of el = None) /\
  (find_element el "AppComment__meta" = Raise NoSuchElementException ->
   date_of el = None) /\
  (find_element el "rating__fill" = Raise NoSuchElementException ->
   extract_rating el = Ok None) /\
  (forall r, extract_rating el = Ok r ->
     extract_comment_details el =
     Ok {| id := get_attribute el "id"; username := username_of el;
           text := body_of el; rating := r; date := date_of el |}) /\
  (find_element el "rating__fill" = Raise NoSuchElementException ->
     extract_comment_details el =
     Ok {| id := get_attribute el "id"; username := username_of el;
           text := body_of el; rating := None; date := date_of el |}) /\
  (forall fill, find_element el "rating__fill" = Ok fill ->
     (exists e, percent_of fill = Raise e) \/
     (exists p, percent_of fill = Ok p /\ 0 <= p <= 100) ->
     exists rc, extract_comment_details el = Ok rc) /\
  (forall e, extract_comment_details el = Raise e ->
     e = OverflowError /\
     exists fill, find_element el "rating__fill" = Ok fill).
Proof.
  split; [apply extract_id_is|]. split; [apply extract_username_is|].
  split; [apply extract_body_is|]. split; [apply extract_date_is|].
  split; [unfold username_of; now intros ->|].
  split; [unfold body_of; now intros ->|].
  split; [unfold date_of; now intros ->|].
  split; [apply extract_rating_missing|].
  rewrite extract_comment_details_is.
  split; [now intros r ->|].
  split; [intros E; now rewrite (extract_rating_missing el E)|].
  split.
  - intros fill F H. rewrite (extract_rating_found el fill F).
    destruct H as [[e P]|(p & P & Hp)]; rewrite P.
    + unfold percent_of in P.
      destruct (get_attribute fill "style") as [[|c r]|]; try discriminate.
      apply int_raises in P. subst e. eexists. reflexivity.
    + cbn [bind]. pose proof (rating_of_percentage p Hp) as R.
      destruct (truediv p 20) as [q|]; [|discriminate]. cbn [bind] in *.
      rewrite R. eexists. reflexivity.
  - intros e E. apply extract_rating_raises.
    destruct (extract_rating el) as [r|e']; [discriminate|].
    cbn [bind] in E. now injection E as ->.
Qed.

Lemma rating_missing_only :
  extract_comment_details comment_without_rating =
  Ok {| id := Some (utf8 "4711"); username := Some (utf8 "Sara");
        text := Some (utf8 "good app"); rating := None;
        date := Some (utf8 "۱ تیر ۱۴۰۴") |}.
Proof. vm_compute. reflexivity. Qed.

(** C8: the code departs from the claim.  For a comment whose fill
    indicator carries a width of 400 digits no dictionary is returned:
    [round(percent / 20)] raises [OverflowError], which the handler of the
    rating, written for [NoSuchElementException] and [ValueError], does not
    take, so the exception leaves [extract_comment_details]; this is so
    with all the other parts of the comment there, and with all of them
    missing.  [int()] reads the width: the conversion itself succeeds. *)
Theorem C8_long_width_raises :
  (exists fill,
     find_element comment_with_long_width "rating__fill" = Ok fill /\
     get_attribute fill "style" = Some long_width /\
     length long_width = 409%nat /\
     exists p, percent_of fill = Ok p /\ truediv p 20 = Raise OverflowError) /\
  extract_rating comment_with_long_width = Raise OverflowError /\
  extract_comment_details comment_with_long_width = Raise OverflowError /\
  extract_comment_details fill_with_long_width = Raise OverflowError.
Proof.
  split.
  - eexists. split; [reflexivity|]. split; [reflexivity|].
    split; [reflexivity|]. eexists. split; vm_compute; reflexivity.
  - repeat split; vm_compute; reflexivity.
Qed.

End CommentClaims.

(** ** [extract_all_comment_elements] *)

Module PaginationClaims.
Import Py Selenium Scraper Notions.

Section Loop.

Variable Session : Type.
Variable wd_get : str -> Session -> result unit * Session.
Variable wait_until_load_more : Session -> result WebElement * Session.
Variable scroll_into_view : WebElement -> Session -> result unit * Session.
Variable sleep : Z -> Session -> Session.
Variable click : WebElement -> Session -> result unit * Session.
Variable find_comment_items : Session -> result (list WebElement) * Session.

#[local] Abbreviation step :=
  (load_more_step Session wait_until_load_more scroll_into_view sleep click).
#[local] Abbreviation loop :=
  (load_more_loop Session wait_until_load_more scroll_into_view sleep click).
#[local] Abbreviation made_passes :=
  (passes Session wait_until_load_more scroll_into_view sleep click).
#[local] Abbreviation harvest :=
  (extract_all_comment_elements Session wd_get wait_until_load_more
     scroll_into_view sleep click find_comment_items).

(** A wait that raises ends the loop in the state it leaves. *)
Lemma step_stops_when_wait_raises s e s' :
  wait_until_load_more s = (Raise e, s') -> step s = (false, s').
Proof. intros E. unfold load_more_step. now rewrite E. Qed.

(** After [n] full passes and a pass that stops, the loop has ended, given
    fuel for [n + 1] passes. *)
Lemma loop_ends_after_passes s n s' :
  made_passes s n s' ->
  forall s_end fuel,
    step s' = (false, s_end) -> (n < fuel)%nat -> loop fuel s = Some s_end.
Proof.
  induction 1 as [s|s s1 n s' Hstep Hrest IH]; intros s_end fuel Hstop Hfuel.
  - destruct fuel as [|fuel]; [lia|]. cbn [load_more_loop]. now rewrite Hstop.
  - destruct fuel as [|fuel]; [lia|]. cbn [load_more_loop]. rewrite Hstep.
    apply IH; [exact Hstop|lia].
Qed.

(** C9: when the wait for the load-more control times out in some pass of
    the loop, after any number [n] of passes that revealed comments, the
    loop is over within [n + 1] passes, the timeout is not raised further,
    and the function returns the comment elements that the session holds
    then. *)
Theorem C9_timeout_ends_the_loop url s s0 n sn s_end :
  wd_get url s = (Ok tt, s0) ->
  passes Session wait_until_load_more scroll_into_view sleep click s0 n sn ->
  wait_until_load_more sn = (Raise TimeoutException, s_end) ->
  forall fuel, (n < fuel)%nat ->
    load_more_loop Session wait_until_load_more scroll_into_view sleep click
      fuel s0 = Some s_end /\
    extract_all_comment_elements Session wd_get wait_until_load_more
      scroll_into_view sleep click find_comment_items fuel url s =
    Some (find_comment_items s_end).
Proof.
  intros Hget Hpasses Hwait fuel Hfuel.
  assert (L : loop fuel s0 = Some s_end).
  { eapply loop_ends_after_passes; eauto.
    now apply step_stops_when_wait_raises with (e := TimeoutException). }
  split; [exact L|].
  unfold extract_all_comment_elements. now rewrite Hget, L.
Qed.

End Loop.

Lemma C9_witness :
  extract_all_comment_elements Page page_get page_wait page_scroll page_sleep
    page_click page_items 3 (utf8 "https://cafebazaar.ir/app/x") sample_page =
  Some (Ok [full_comment; comment_without_rating; comment_without_style],
        {| shown := [full_comment; comment_without_rating; comment_without_style];
           held := [] |}).
Proof.
  refine (proj2 (C9_timeout_ends_the_loop Page page_get page_wait page_scroll
    page_sleep page_click page_items (utf8 "https://cafebazaar.ir/app/x")
    sample_page sample_page 2
    {| shown := [full_comment; comment_without_rating; comment_without_style];
       held := [] |}
    {| shown := [full_comment; comment_without_rating; comment_without_style];
       held := [] |} eq_refl _ eq_refl 3%nat _)).
  - eapply passes_more; [reflexivity|].
    eapply passes_more; [reflexivity|]. apply passes_none.
  - lia.
Defined.

End PaginationClaims.

(** * Further properties *)

Module NormalizeExtras.
Import Py Utils Notions RuntimeFacts NumeralFacts.

Lemma normalize_char_idem c : normalize_char (normalize_char c) = normalize_char c.
Proof.
  unfold normalize_char, in_range.
  destruct (Z.leb_spec 0x06F0 c), (Z.leb_spec c 0x06F9); cbn [andb]; try reflexivity.
  - destruct (Z.leb_spec 0x06F0 (c - 0x06F0 + 0x30)); [lia|reflexivity].
  - destruct (Z.leb_spec 0x06F0 c); [|lia]. destruct (Z.leb_spec c 0x06F9); [lia|reflexivity].
  - destruct (Z.leb_spec 0x06F0 c); [lia|reflexivity].
  - destruct (Z.leb_spec 0x06F0 c); [lia|reflexivity].
Qed.

Lemma normalize_char_not_persian c : in_range 0x06F0 0x06F9 (normalize_char c) = false.
Proof.
  unfold normalize_char, in_range.
  destruct (Z.leb_spec 0x06F0 c), (Z.leb_spec c 0x06F9); cbn [andb].
  - destruct (Z.leb_spec 0x06F0 (c - 0x06F0 + 0x30)); [lia|reflexivity].
  - destruct (Z.leb_spec 0x06F0 c); [|lia]. destruct (Z.leb_spec c 0x06F9); [lia|reflexivity].
  - destruct (Z.leb_spec 0x06F0 c); [lia|reflexivity].
  - destruct (Z.leb_spec 0x06F0 c); [lia|reflexivity].
Qed.

Lemma normalize_char_fixed c : in_range 0x06F0 0x06F9 c = false -> normalize_char c = c.
Proof. unfold normalize_char. now intros ->. Qed.

(** X1: digit normalization is idempotent and keeps the length; no
    Persian digit is left after it, and a string without Persian digits is
    left as it is. *)
Theorem X1_digit_normalization_is_idempotent s :
  convert_persian_digits_to_english (convert_persian_digits_to_english s) =
    convert_persian_digits_to_english s /\
  length (convert_persian_digits_to_english s) = length s /\
  existsb (in_range 0x06F0 0x06F9) (convert_persian_digits_to_english s) = false /\
  (existsb (in_range 0x06F0 0x06F9) s = false ->
   convert_persian_digits_to_english s = s).
Proof.
  rewrite !convert_is_map. repeat split.
  - rewrite map_map. apply map_ext, normalize_char_idem.
  - apply length_map.
  - induction s as [|c r IH]; [reflexivity|]. cbn [map existsb].
    now rewrite normalize_char_not_persian, IH.
  - induction s as [|c r IH]; [reflexivity|]. cbn [map existsb].
    rewrite orb_false_iff. intros [Hc Hr].
    now rewrite (normalize_char_fixed c Hc), (IH Hr).
Qed.
Lemma X1_witness :
  convert_persian_digits_to_english (utf8 "1404 abc") = utf8 "1404 abc".
Proof.
  apply (proj2 (proj2 (proj2
    (X1_digit_normalization_is_idempotent (utf8 "1404 abc"))))).
  reflexivity.
Defined.

End NormalizeExtras.

Module DateExtras.
Import Py Utils Notions RuntimeFacts NumeralFacts SlashDateFacts CalendarFacts
  DayCountFacts DateClaims CommentClaims.

Lemma numeral_value_by_digits ds ds' :
  map digit_val ds = map digit_val ds' -> numeral_value ds = numeral_value ds'.
Proof.
  unfold numeral_value. generalize 0 as acc. revert ds'.
  induction ds as [|c r IH]; intros [|c' r'] acc E; try discriminate;
    [reflexivity|].
  cbn [map] in E. injection E as Ec Er. cbn [fold_left]. rewrite Ec.
  now apply IH.
Qed.

(** X2: after digit normalization a numeral is read by [int()] as its
    decimal value, whichever of the two scripts each digit is written in:
    numerals with the same digit values give the same integer. *)
Theorem X2_numerals_read_alike_in_both_scripts ds ds' :
  numeral ds -> numeral ds' -> map digit_val ds = map digit_val ds' ->
  int (convert_persian_digits_to_english ds) = Ok (numeral_value ds) /\
  int (convert_persian_digits_to_english ds') =
  int (convert_persian_digits_to_english ds).
Proof.
  intros H H' E. rewrite !convert_is_map, !int_numeral by assumption.
  split; [reflexivity|]. f_equal. symmetry. now apply numeral_value_by_digits.
Qed.

Lemma X2_witness :
  int (convert_persian_digits_to_english (utf8 "۱۴۰۴")) = Ok 1404 /\
  int (convert_persian_digits_to_english (utf8 "1۴0۴")) =
  int (convert_persian_digits_to_english (utf8 "۱۴۰۴")).
Proof.
  apply (X2_numerals_read_alike_in_both_scripts (utf8 "۱۴۰۴") (utf8 "1۴0۴"));
    try (repeat split; [discriminate|vm_compute; lia]).
  reflexivity.
Defined.

(** *** What the constructors reject *)

Lemma jdate_new_raises y m d e :
  Jdatetime.date_new y m d = Raise e -> e = ValueError.
Proof.
  unfold Jdatetime.date_new.
  repeat match goal with
         | |- context [if ?c then _ else _] => destruct c
         end; try discriminate; now intros [= <-].
Qed.

Lemma jdate_new_ok y m d j :
  Jdatetime.date_new y m d = Ok j ->
  j = Jdatetime.JDate y m d /\ valid_jalali y m d = true.
Proof.
  unfold Jdatetime.date_new, Jdatetime.MINYEAR, Jdatetime.MAXYEAR.
  destruct (Z.ltb_spec y 1); [discriminate|].
  destruct (Z.ltb_spec 9377 y); [discriminate|]. cbn [orb].
  destruct (Z.ltb_spec m 1); [discriminate|].
  destruct (Z.ltb_spec 12 m); [discriminate|]. cbn [orb].
  destruct (Z.ltb_spec d 1); [discriminate|].
  intros E.
  assert (V : 1 <= d <= jalali_month_length y m /\ j = Jdatetime.JDate y m d).
  { revert E. unfold jalali_month_length.
    month_cases m Hc; eval_closed; cbn [andb];
      try (destruct (Z.ltb_spec 31 d); [discriminate|]; intros [= <-]; split; [lia|reflexivity]);
      try (destruct (Z.ltb_spec 30 d); [discriminate|]; intros [= <-]; split; [lia|reflexivity]).
    destruct (Jdatetime.isleap y); cbn [negb andb];
      destruct (Z.eqb_spec d 30); cbn [andb]; try discriminate;
      try (intros [= <-]; split; [lia|reflexivity]);
      (destruct (Z.ltb_spec 29 d); [discriminate|]; intros [= <-]; split; [lia|reflexivity]). }
  destruct V as [V ->]. split; [reflexivity|].
  unfold valid_jalali, Jdatetime.MINYEAR, Jdatetime.MAXYEAR.
  rewrite !andb_true_iff, !in_range_iff. lia.
Qed.

Lemma jdate_new_invalid y m d :
  valid_jalali y m d = false -> Jdatetime.date_new y m d = Raise ValueError.
Proof.
  intros H. destruct (Jdatetime.date_new y m d) as [j|e] eqn:E.
  - apply jdate_new_ok in E. destruct E as [_ E]. congruence.
  - apply jdate_new_raises in E. now subst e.
Qed.

(** From three integers the Jalali branch always returns. *)
Lemma from_triple_jalali y m d :
  from_triple true y m d =
  if valid_jalali y m d then Ok (Some (jalali_to_gregorian y m d)) else Ok None.
Proof.
  unfold from_triple. destruct (valid_jalali y m d) eqn:V.
  - rewrite (jdate_new_valid _ _ _ V). cbn [bind].
    now rewrite (togregorian_valid _ _ _ V).
  - now rewrite (jdate_new_invalid _ _ _ V).
Qed.

Lemma date_new_raises y m d e :
  Datetime.date_new y m d = Raise e -> e = OverflowError \/ e = ValueError.
Proof.
  unfold Datetime.date_new. destruct (negb _); [intros [= <-]; now left|].
  destruct (Datetime.valid_ymd y m d); [discriminate|intros [= <-]; now right].
Qed.

Lemma strptime_raises s e :
  Datetime.strptime_Y_B_d s = Raise e -> e = OverflowError \/ e = ValueError.
Proof.
  unfold Datetime.strptime_Y_B_d.
  destruct (split s) as [|y [|b [|d [|x r]]]]; try (intros [= <-]; now right).
  destruct (_ && _); [|intros [= <-]; now right].
  destruct (Datetime.index_of _ _ _); [|intros [= <-]; now right].
  destruct (int y) as [yv|e1] eqn:Ey; cbn [bind].
  - destruct (int d) as [dv|e2] eqn:Ed; cbn [bind].
    + apply date_new_raises.
    + apply int_raises in Ed. subst e2. intros [= <-]. now right.
  - apply int_raises in Ey. subst e1. intros [= <-]. now right.
Qed.

(** The Jalali text branch returns. *)
Lemma jalali_text_returns day_str month_str year_str :
  exists r,
    except_value_type
      (day <- int day_str ;;
       let month := get PERSIAN_MONTHS month_str in
       year <- int year_str ;;
       match month with
       | None | Some 0 => Ok None
       | Some month =>
         jalali_date <- Jdatetime.date_new year month day ;;
         g <- Jdatetime.togregorian jalali_date ;; Ok (Some g)
       end) = Ok r.
Proof.
  destruct (int day_str) as [d|e] eqn:Ed; cbn [bind].
  2:{ apply int_raises in Ed. subst e. eexists. reflexivity. }
  destruct (int year_str) as [y|e] eqn:Ey; cbn [bind].
  2:{ apply int_raises in Ey. subst e. eexists. reflexivity. }
  destruct (get PERSIAN_MONTHS month_str) as [m|]; [|eexists; reflexivity].
  pose proof (from_triple_jalali y m d) as F. unfold from_triple in F.
  destruct m; try (eexists; reflexivity);
    rewrite F; destruct (valid_jalali _ _ _); eexists; reflexivity.
Qed.

Lemma jalali_slash_returns y m d : exists r, from_triple true y m d = Ok r.
Proof.
  rewrite from_triple_jalali. destruct (valid_jalali y m d); eexists; reflexivity.
Qed.

Lemma parse_jalali_date_outcomes t :
  (contains_persian t = true -> exists r, parse_jalali_date (Some t) = Ok r) /\
  (forall e, parse_jalali_date (Some t) = Raise e -> e = OverflowError).
Proof.
  destruct t as [|c r]; [split; [discriminate|discriminate]|].
  unfold parse_jalali_date.
  set (s := c :: r). set (cleaned := convert_persian_digits_to_english _).
  destruct (_ && _).
  - destruct (split_on 0x2F cleaned) as [|ys [|ms [|ds [|x rest]]]];
      try (split; [intros _; eexists; reflexivity|discriminate]).
    destruct (int ys) as [y|e1] eqn:Ey; cbn [bind].
    2:{ apply int_raises in Ey. subst e1.
        split; [intros _; eexists; reflexivity|discriminate]. }
    destruct (int ms) as [m|e1] eqn:Em; cbn [bind].
    2:{ apply int_raises in Em. subst e1.
        split; [intros _; eexists; reflexivity|discriminate]. }
    destruct (int ds) as [d|e1] eqn:Ed; cbn [bind].
    2:{ apply int_raises in Ed. subst e1.
        split; [intros _; eexists; reflexivity|discriminate]. }
    split.
    + intros ->. apply jalali_slash_returns.
    + intros e. destruct (contains_persian s).
      * destruct (jalali_slash_returns y m d) as [x H]. unfold from_triple in H.
        rewrite H. discriminate.
      * destruct (Datetime.date_new y m d) as [g|e1] eqn:G; [discriminate|].
        apply date_new_raises in G. destruct G as [-> | ->];
          [now intros [= <-]|discriminate].
  - destruct (split cleaned) as [|a [|b [|d [|x rest]]]];
      try (split; [intros _; eexists; reflexivity|discriminate]).
    split.
    + intros ->. apply jalali_text_returns.
    + intros e. destruct (contains_persian s).
      * destruct (jalali_text_returns a b d) as [x H]. intros E.
        assert (X : Ok x = Raise e) by (rewrite <- H; exact E).
        discriminate.
      * destruct (Datetime.strptime_Y_B_d cleaned) as [g|e1] eqn:G; [discriminate|].
        apply strptime_raises in G. destruct G as [-> | ->];
          [now intros [= <-]|discriminate].
Qed.

Lemma parse_jalali_date_raises s e :
  parse_jalali_date s = Raise e -> e = OverflowError.
Proof.
  destruct s as [t|]; [apply parse_jalali_date_outcomes|discriminate].
Qed.

(** X3: the only exception that [parse_jalali_date] lets out is
    [OverflowError], and only for a text without Persian character; for a
    text with a Persian character it always returns a date or [None]. *)
Theorem X3_only_overflow_escapes_and_never_from_persian_text :
  (forall s e, parse_jalali_date s = Raise e ->
     e = OverflowError /\
     exists t, s = Some t /\ contains_persian t = false) /\
  (forall t, contains_persian t = true ->
     exists r, parse_jalali_date (Some t) = Ok r).
Proof.
  split.
  - intros [t|] e E; [|discriminate].
    split; [now apply (parse_jalali_date_outcomes t)|].
    exists t. split; [reflexivity|].
    destruct (contains_persian t) eqn:P; [|reflexivity].
    destruct (proj1 (parse_jalali_date_outcomes t) P) as [r R]. congruence.
  - intros t. apply parse_jalali_date_outcomes.
Qed.

Lemma X3_witness :
  exists r, parse_jalali_date (Some (utf8 "۳۰ اسفند ۱۴۰۴")) = Ok r.
Proof.
  apply (proj2 X3_only_overflow_escapes_and_never_from_persian_text
           (utf8 "۳۰ اسفند ۱۴۰۴")).
  reflexivity.
Defined.

(** X4: a numeric date that is classified Jalali and is no date of the
    Jalali calendar (a month over 12, a day over the length of the month)
    gives [None]. *)
Theorem X4_jalali_date_out_of_range_is_none ys ms ds :
  numeral ys -> numeral ms -> numeral ds ->
  contains_persian (slash_date ys ms ds) = true ->
  valid_jalali (numeral_value ys) (numeral_value ms) (numeral_value ds) = false ->
  parse_jalali_date (Some (slash_date ys ms ds)) = Ok None.
Proof.
  intros Hy Hm Hd Hp Hv. rewrite parse_slash_date by assumption.
  now rewrite Hp, from_triple_jalali, Hv.
Qed.

Lemma X4_witness :
  parse_jalali_date (Some (utf8 "۱۴۰۴/۱۲/۳۰")) = Ok None /\
  parse_jalali_date (Some (utf8 "۱۴۰۳/۱۲/۳۰")) =
    Ok (Some (Datetime.Date 2025 3 20)).
Proof.
  split; [|vm_compute; reflexivity].
  apply (X4_jalali_date_out_of_range_is_none (utf8 "۱۴۰۴") (utf8 "۱۲") (utf8 "۳۰"));
    try (repeat split; [discriminate|vm_compute; lia]); reflexivity.
Defined.

(** X5: a numeric date without Persian character is taken as a Gregorian
    date: it is returned when the calendar has it, [None] when the calendar
    has not, and [OverflowError] escapes when a number is beyond a C int. *)
Theorem X5_latin_numeric_date_is_taken_as_gregorian ys ms ds :
  numeral ys -> numeral ms -> numeral ds ->
  contains_persian (slash_date ys ms ds) = false ->
  let y := numeral_value ys in
  let m := numeral_value ms in
  let d := numeral_value ds in
  let fits := Datetime.fits_c_int y && Datetime.fits_c_int m
              && Datetime.fits_c_int d in
  parse_jalali_date (Some (slash_date ys ms ds)) =
  if negb fits then Raise OverflowError
  else if Datetime.valid_ymd y m d then Ok (Some (Datetime.Date y m d))
  else Ok None.
Proof.
  intros Hy Hm Hd Hp. cbv zeta. rewrite parse_slash_date by assumption.
  rewrite Hp. unfold from_triple, Datetime.date_new.
  destruct (negb _); [reflexivity|].
  destruct (Datetime.valid_ymd _ _ _); reflexivity.
Qed.

Lemma X5_witness :
  parse_jalali_date (Some (utf8 "2025/4/1")) = Ok (Some (Datetime.Date 2025 4 1)) /\
  parse_jalali_date (Some (utf8 "2025/2/30")) = Ok None /\
  parse_jalali_date (Some (utf8 "99999999999/1/1")) = Raise OverflowError.
Proof.
  split; [|split].
  - apply (X5_latin_numeric_date_is_taken_as_gregorian (utf8 "2025") (utf8 "4") (utf8 "1"));
      try (repeat split; [discriminate|vm_compute; lia]); reflexivity.
  - apply (X5_latin_numeric_date_is_taken_as_gregorian (utf8 "2025") (utf8 "2") (utf8 "30"));
      try (repeat split; [discriminate|vm_compute; lia]); reflexivity.
  - apply (X5_latin_numeric_date_is_taken_as_gregorian (utf8 "99999999999") (utf8 "1") (utf8 "1"));
      try (repeat split; [discriminate|vm_compute; lia]); reflexivity.
Defined.

End DateExtras.



Module TextDateExtras.
Import Py Utils Notions MoreNotions RuntimeFacts NumeralFacts SlashDateFacts
  CalendarFacts DayCountFacts DateClaims CountClaims CommentClaims DateExtras.

Lemma word_char_inv c : word_char c = true -> isspace c = false /\ c <> 0x2F.
Proof.
  unfold word_char. rewrite andb_true_iff, !negb_true_iff, Z.eqb_neq. tauto.
Qed.

Lemma normalize_word_char c : word_char c = true -> word_char (normalize_char c) = true.
Proof.
  intros H. unfold normalize_char.
  destruct (in_range 0x06F0 0x06F9 c) eqn:E; [|exact H].
  apply in_range_iff in E. unfold word_char, isspace, in_range.
  repeat match goal with
         | |- context [?a <=? ?b] => destruct (Z.leb_spec a b); try lia
         | |- context [?a =? ?b] => destruct (Z.eqb_spec a b); try lia
         end; reflexivity.
Qed.

Lemma normalize_word t : word t -> word (map normalize_char t).
Proof.
  intros [Hne H]. split.
  - destruct t; [contradiction|discriminate].
  - rewrite forallb_forall in *. intros x Hx. apply in_map_iff in Hx.
    destruct Hx as (c & <- & Hc). apply normalize_word_char, H, Hc.
Qed.

Lemma numeral_is_word ds : numeral ds -> word ds.
Proof.
  intros (Hne & H & _). split; [exact Hne|].
  rewrite forallb_forall in *. intros c Hc. specialize (H c Hc).
  unfold word_char. rewrite (date_digit_not_space c H).
  apply date_digit_inv in H. destruct (Z.eqb_spec c 0x2F); [lia|reflexivity].
Qed.

(** *** Splitting at blanks *)

Lemma split_runs_word w : forall cur rest,
  w <> [] -> forallb word_char w = true ->
  split_runs isspace cur (w ++ rest) =
  split_runs isspace
    (Some (rev w ++ match cur with Some a => a | None => [] end)) rest.
Proof.
  induction w as [|c r IH]; intros cur rest Hne H; [contradiction|].
  cbn [forallb] in H. apply andb_true_iff in H. destruct H as [Hc Hr].
  apply word_char_inv in Hc. destruct Hc as [Hc _].
  change ((c :: r) ++ rest) with (c :: (r ++ rest)).
  cbn [split_runs]. rewrite Hc.
  destruct r as [|c' r'].
  - reflexivity.
  - rewrite IH by (discriminate || exact Hr).
    cbn [rev]. now rewrite <- !app_assoc.
Qed.

Lemma split_three t1 t2 t3 :
  word t1 -> word t2 -> word t3 -> split (text_date t1 t2 t3) = [t1; t2; t3].
Proof.
  intros [N1 W1] [N2 W2] [N3 W3]. unfold split, text_date.
  change (utf8 " ") with [0x20].
  rewrite split_runs_word by assumption.
  change ([0x20] ++ t2 ++ [0x20] ++ t3) with (0x20 :: (t2 ++ 0x20 :: t3)).
  cbn [split_runs]. change (isspace 0x20) with true. cbv iota.
  rewrite split_runs_word by assumption.
  cbn [split_runs]. change (isspace 0x20) with true. cbv iota.
  rewrite <- (app_nil_r t3) at 1. rewrite split_runs_word by assumption.
  cbn [split_runs]. now rewrite !app_nil_r, !rev_involutive.
Qed.

Lemma word_ends t :
  word t -> (forall c, hd_error t = Some c -> isspace c = false) /\
            (forall c, hd_error (rev t) = Some c -> isspace c = false).
Proof.
  intros [_ H]. split; intros c Hc.
  - apply (forallb_hd _ _ _ H) in Hc. now apply word_char_inv in Hc.
  - apply (forallb_hd _ _ _ (forallb_rev _ _ H)) in Hc. now apply word_char_inv in Hc.
Qed.

Lemma strip_text_date t1 t2 t3 :
  word t1 -> word t3 -> strip (text_date t1 t2 t3) = text_date t1 t2 t3.
Proof.
  intros W1 W3. apply strip_by_ends; intros c Hc.
  - destruct W1 as [N1 H1]. destruct t1 as [|c1 r1]; [contradiction|].
    cbn in Hc. injection Hc as <-. cbn [forallb] in H1.
    apply andb_true_iff in H1. destruct H1 as [H1 _].
    now apply word_char_inv in H1.
  - unfold text_date in Hc. rewrite !rev_app_distr, <- !app_assoc in Hc.
    destruct (word_ends t3 W3) as [_ E]. apply E.
    destruct W3 as [N3 _]. destruct (rev t3) as [|c3 r3] eqn:R.
    + exfalso. apply N3. rewrite <- (rev_involutive t3), R. reflexivity.
    + cbn in Hc. exact Hc.
Qed.

Lemma no_slash_in_words t1 t2 t3 :
  word t1 -> word t2 -> word t3 -> contains [0x2F] (text_date t1 t2 t3) = false.
Proof.
  intros [_ W1] [_ W2] [_ W3].
  destruct (contains [0x2F] _) eqn:E; [|reflexivity]. exfalso.
  apply contains_first in E. unfold text_date in E.
  change (utf8 " ") with [0x20] in E.
  rewrite forallb_forall in W1, W2, W3.
  repeat (apply in_app_or in E; destruct E as [E|E]);
    try (apply W1 in E || apply W2 in E || apply W3 in E;
         apply word_char_inv in E; tauto);
    cbn in E; lia.
Qed.

Lemma convert_text_date t1 t2 t3 :
  convert_persian_digits_to_english (text_date t1 t2 t3) =
  text_date (map normalize_char t1) (map normalize_char t2)
    (map normalize_char t3).
Proof.
  rewrite convert_is_map. unfold text_date. now rewrite !map_app.
Qed.

(** A text of three words goes through the textual branch. *)
Lemma parse_three_words t1 t2 t3 :
  word t1 -> word t2 -> word t3 ->
  parse_jalali_date (Some (text_date t1 t2 t3)) =
  if contains_persian (text_date t1 t2 t3) then
    except_value_type
      (day <- int (map normalize_char t1) ;;
       year <- int (map normalize_char t3) ;;
       match get PERSIAN_MONTHS (map normalize_char t2) with
       | None | Some 0 => Ok None
       | Some month =>
         jalali_date <- Jdatetime.date_new year month day ;;
         g <- Jdatetime.togregorian jalali_date ;; Ok (Some g)
       end)
  else
    match Datetime.strptime_Y_B_d
            (text_date (map normalize_char t1) (map normalize_char t2)
               (map normalize_char t3)) with
    | Ok d => Ok (Some d)
    | Raise ValueError => Ok None
    | Raise e => Raise e
    end.
Proof.
  intros W1 W2 W3.
  pose proof (strip_text_date t1 t2 t3 W1 W3) as Es.
  pose proof (convert_text_date t1 t2 t3) as Ec.
  pose proof (no_slash_in_words _ _ _ (normalize_word _ W1) (normalize_word _ W2)
                (normalize_word _ W3)) as Ns.
  pose proof (split_three _ _ _ (normalize_word _ W1) (normalize_word _ W2)
                (normalize_word _ W3)) as Sp.
  remember (text_date t1 t2 t3) as s eqn:Hs.
  assert (Hne : s <> []).
  { destruct W1 as [N1 _]. rewrite Hs. unfold text_date.
    destruct t1; [contradiction|discriminate]. }
  destruct s as [|c r]; [contradiction|].
  unfold parse_jalali_date. rewrite Es, Ec.
  change (utf8 "/") with [0x2F]. rewrite Ns. cbn [andb]. rewrite Sp.
  reflexivity.
Qed.


Lemma month_entry name m :
  In (name, m) PERSIAN_MONTHS ->
  word (utf8 name) /\ map normalize_char (utf8 name) = utf8 name /\
  contains_persian (utf8 name) = true /\
  get PERSIAN_MONTHS (utf8 name) = Some m /\ 1 <= m <= 12.
Proof.
  unfold PERSIAN_MONTHS. cbn [In]. intros H.
  repeat (destruct H as [H|H];
          [injection H as <- <-;
           repeat split; try discriminate; try reflexivity; lia|]).
  contradiction.
Qed.

Lemma text_date_is_persian t1 t2 t3 :
  contains_persian t2 = true -> contains_persian (text_date t1 t2 t3) = true.
Proof.
  intros H. unfold contains_persian, text_date in *.
  rewrite !existsb_app, H. now rewrite !orb_true_r.
Qed.

Lemma parse_text_jalali ds name m ys :
  numeral ds -> numeral ys -> In (name, m) PERSIAN_MONTHS ->
  parse_jalali_date (Some (text_date ds (utf8 name) ys)) =
  from_triple true (numeral_value ys) m (numeral_value ds).
Proof.
  intros Hd Hy Hin.
  destruct (month_entry name m Hin) as (W & Nn & P & G & Hm).
  rewrite parse_three_words by (assumption || now apply numeral_is_word).
  rewrite (text_date_is_persian _ _ _ P), Nn, G.
  rewrite !int_numeral by assumption. cbn [bind].
  unfold from_triple.
  destruct m; [lia|reflexivity|lia].
Qed.

(** X6: the textual layout [day month year] with a month name of the table
    and numerals in either script gives the Gregorian date of that Jalali
    date, and [None] when the Jalali calendar has no such date. *)
Theorem X6_textual_jalali_date_is_converted ds name m ys :
  numeral ds -> numeral ys -> In (name, m) PERSIAN_MONTHS ->
  parse_jalali_date (Some (text_date ds (utf8 name) ys)) =
  if valid_jalali (numeral_value ys) m (numeral_value ds)
  then Ok (Some (jalali_to_gregorian (numeral_value ys) m (numeral_value ds)))
  else Ok None.
Proof.
  intros Hd Hy Hin.
  rewrite (parse_text_jalali ds name m ys Hd Hy Hin).
  apply from_triple_jalali.
Qed.

Lemma X6_witness :
  parse_jalali_date (Some (utf8 "۲۹ اسفند ۱۴۰۳")) =
    Ok (Some (Datetime.Date 2025 3 19)) /\
  parse_jalali_date (Some (utf8 "۳۱ مهر ۱۴۰۳")) = Ok None.
Proof.
  split.
  - refine (eq_trans (X6_textual_jalali_date_is_converted
             (utf8 "۲۹") "اسفند" 12 (utf8 "۱۴۰۳") _ _ _) _).
    + repeat split; [discriminate|vm_compute; lia].
    + repeat split; [discriminate|vm_compute; lia].
    + cbn. tauto.
    + reflexivity.
  - refine (eq_trans (X6_textual_jalali_date_is_converted
             (utf8 "۳۱") "مهر" 7 (utf8 "۱۴۰۳") _ _ _) _).
    + repeat split; [discriminate|vm_compute; lia].
    + repeat split; [discriminate|vm_compute; lia].
    + cbn. tauto.
    + reflexivity.
Defined.

(** X7: the two layouts agree on every date: the textual layout with the
    name of a month and the numeric layout with its number, classified
    Jalali, are parsed to the same result. *)
Theorem X7_textual_and_numeric_layouts_agree ds name m ms ys :
  numeral ds -> numeral ms -> numeral ys ->
  In (name, m) PERSIAN_MONTHS -> numeral_value ms = m ->
  contains_persian (slash_date ys ms ds) = true ->
  parse_jalali_date (Some (text_date ds (utf8 name) ys)) =
  parse_jalali_date (Some (slash_date ys ms ds)).
Proof.
  intros Hd Hm Hy Hin Em Hp.
  rewrite (parse_text_jalali ds name m ys Hd Hy Hin).
  rewrite parse_slash_date by assumption.
  now rewrite Hp, Em.
Qed.

Lemma X7_witness :
  parse_jalali_date (Some (utf8 "۱ تیر ۱۴۰۴")) =
  parse_jalali_date (Some (utf8 "۱۴۰۴/۴/۱")).
Proof.
  apply (X7_textual_and_numeric_layouts_agree
           (utf8 "۱") "تیر" 4 (utf8 "۴") (utf8 "۱۴۰۴"));
    try (repeat split; [discriminate|vm_compute; lia]); try reflexivity.
  cbn. tauto.
Defined.

(** X8: three words classified Jalali whose middle word is no month name
    of the table give [None]. *)
Theorem X8_unknown_month_name_is_none t1 t2 t3 :
  word t1 -> word t2 -> word t3 ->
  contains_persian (text_date t1 t2 t3) = true ->
  get PERSIAN_MONTHS (convert_persian_digits_to_english t2) = None ->
  parse_jalali_date (Some (text_date t1 t2 t3)) = Ok None.
Proof.
  intros W1 W2 W3 P G. rewrite convert_is_map in G.
  rewrite parse_three_words, P, G by assumption.
  destruct (int (map normalize_char t1)) as [d|e] eqn:Ed; cbn [bind].
  2:{ apply int_raises in Ed. now subst e. }
  destruct (int (map normalize_char t3)) as [y|e] eqn:Ey; cbn [bind].
  2:{ apply int_raises in Ey. now subst e. }
  reflexivity.
Qed.

Lemma X8_witness :
  parse_jalali_date (Some (utf8 "۱ تابستان ۱۴۰۴")) = Ok None.
Proof.
  apply (X8_unknown_month_name_is_none
           (utf8 "۱") (utf8 "تابستان") (utf8 "۱۴۰۴"));
    try (split; [discriminate|reflexivity]); reflexivity.
Defined.

End TextDateExtras.



Module InstallExtras.
Import Py Utils Notions MoreNotions RuntimeFacts NumeralFacts TextFacts
  CountClaims.

Lemma ascii_not_k_inv c :
  ascii_not_k c = true -> 0 <= c <= 127 /\ c <> 0x6B /\ c <> 0x4B.
Proof.
  unfold ascii_not_k. rewrite !andb_true_iff, in_range_iff, !negb_true_iff, !Z.eqb_neq.
  tauto.
Qed.

Lemma normalize_plain c : plain_char c = true -> ascii_not_k (normalize_char c) = true.
Proof.
  unfold plain_char, normalize_char.
  destruct (in_range 0x06F0 0x06F9 c) eqn:E; cbn [orb].
  - intros _. apply in_range_iff in E. unfold ascii_not_k.
    rewrite !andb_true_iff, in_range_iff, !negb_true_iff, !Z.eqb_neq. lia.
  - auto.
Qed.

Lemma normalize_plain_digit c :
  plain_char c = true -> is_ascii_digit (normalize_char c) = date_digit c.
Proof.
  unfold plain_char, normalize_char, date_digit, is_ascii_digit.
  destruct (in_range 0x06F0 0x06F9 c) eqn:E; cbn [orb]; intros H.
  - apply in_range_iff in E. rewrite orb_true_r. apply in_range_iff. lia.
  - now rewrite orb_false_r.
Qed.

Lemma filter_digits_normalize s :
  forallb plain_char s = true ->
  filter is_ascii_digit (map normalize_char s) =
  map normalize_char (filter date_digit s).
Proof.
  induction s as [|c r IH]; [reflexivity|]. cbn [forallb map filter].
  rewrite andb_true_iff. intros [Hc Hr].
  rewrite (normalize_plain_digit c Hc), (IH Hr). now destruct (date_digit c).
Qed.

(** *** The steps of [parse_installs] on ASCII text *)

Lemma remove_char_is_filter p s :
  replace [p] [] s = filter (fun c => negb (p =? c)) s.
Proof.
  unfold replace. induction s as [|c r IH]; [reflexivity|].
  cbn [replace_from startswith length Nat.pred filter app].
  destruct (p =? c); cbn [andb negb]; [exact IH|now rewrite IH].
Qed.

Section Filters.
Variable f : Z -> bool.

Lemma filter_lstrip sp s :
  (forall c, sp c = true -> f c = false) ->
  filter f (lstrip_by sp s) = filter f s.
Proof.
  intros H. induction s as [|c r IH]; [reflexivity|]. cbn [lstrip_by].
  destruct (sp c) eqn:E; [|reflexivity].
  cbn [filter]. now rewrite (H c E).
Qed.

Lemma filter_strip sp s :
  (forall c, sp c = true -> f c = false) ->
  filter f (strip_by sp s) = filter f s.
Proof.
  intros H. unfold strip_by.
  rewrite filter_rev, (filter_lstrip sp _ H), filter_rev, (filter_lstrip sp _ H).
  apply rev_involutive.
Qed.
End Filters.

Lemma space_is_no_digit c : isspace c = true -> is_ascii_digit c = false.
Proof.
  intros H. destruct (is_ascii_digit c) eqn:E; [|reflexivity].
  apply ascii_digit_inv in E. exfalso. unfold isspace in H.
  repeat rewrite ?orb_true_iff, ?in_range_iff, ?Z.eqb_eq in H. lia.
Qed.

Lemma lower_char_ascii c :
  ascii_not_k c = true ->
  exists c', lower_char c = [c'] /\ ascii_not_k c' = true /\
             is_ascii_digit c' = is_ascii_digit c /\
             (is_ascii_digit c = true -> c' = c).
Proof.
  intros H. apply ascii_not_k_inv in H. destruct H as (Hr & Hk & HK).
  unfold lower_char, in_range.
  destruct (Z.leb_spec 0x41 c), (Z.leb_spec c 0x5A); cbn [andb].
  - exists (c + 32). split; [reflexivity|]. split; [|split].
    + unfold ascii_not_k. rewrite !andb_true_iff, in_range_iff, !negb_true_iff,
        !Z.eqb_neq. lia.
    + unfold is_ascii_digit, in_range.
      destruct (Z.leb_spec 0x30 (c + 32)), (Z.leb_spec (c + 32) 0x39),
        (Z.leb_spec 0x30 c), (Z.leb_spec c 0x39); cbn [andb]; lia || reflexivity.
    + intros D. apply ascii_digit_inv in D. lia.
  - destruct (Z.leb_spec 0xC0 c); [lia|]. cbn [andb].
    destruct (Z.eqb_spec c 0x130); [lia|]. destruct (Z.eqb_spec c 0x212A); [lia|].
    destruct (Z.eqb_spec c 0x212B); [lia|].
    exists c. repeat split; try reflexivity.
    unfold ascii_not_k. rewrite !andb_true_iff, in_range_iff, !negb_true_iff,
      !Z.eqb_neq. lia.
  - destruct (Z.leb_spec 0xC0 c); [lia|]. cbn [andb].
    destruct (Z.eqb_spec c 0x130); [lia|]. destruct (Z.eqb_spec c 0x212A); [lia|].
    destruct (Z.eqb_spec c 0x212B); [lia|].
    exists c. repeat split; try reflexivity.
    unfold ascii_not_k. rewrite !andb_true_iff, in_range_iff, !negb_true_iff,
      !Z.eqb_neq. lia.
  - destruct (Z.leb_spec 0xC0 c); [lia|]. cbn [andb].
    destruct (Z.eqb_spec c 0x130); [lia|]. destruct (Z.eqb_spec c 0x212A); [lia|].
    destruct (Z.eqb_spec c 0x212B); [lia|].
    exists c. repeat split; try reflexivity.
    unfold ascii_not_k. rewrite !andb_true_iff, in_range_iff, !negb_true_iff,
      !Z.eqb_neq. lia.
Qed.

Lemma lower_ascii s :
  forallb ascii_not_k s = true ->
  forallb ascii_not_k (lower s) = true /\
  filter is_ascii_digit (lower s) = filter is_ascii_digit s.
Proof.
  unfold lower. induction s as [|c r IH]; [split; reflexivity|].
  cbn [forallb flat_map]. rewrite andb_true_iff. intros [Hc Hr].
  destruct (lower_char_ascii c Hc) as (c' & -> & A & D & F).
  destruct (IH Hr) as [IH1 IH2].
  cbn [app forallb filter]. rewrite A, IH1, D, IH2. split; [reflexivity|].
  destruct (is_ascii_digit c) eqn:E; [|reflexivity]. now rewrite (F eq_refl).
Qed.

Lemma isdigit_ascii c : 0 <= c <= 127 -> isdigit c = is_ascii_digit c.
Proof.
  intros H.
  assert (N : forall zs, forallb (fun z => 127 <? z) zs = true ->
                         decimal_in zs c = None).
  { induction zs as [|z r IH]; [reflexivity|]. cbn [forallb decimal_in].
    rewrite andb_true_iff, Z.ltb_lt. intros [Hz Hr].
    unfold in_range. destruct (Z.leb_spec z c); [lia|]. cbn [andb]. now apply IH. }
  assert (M : forall rs, forallb (fun r => 127 <? fst r) rs = true ->
                         existsb (fun r => in_range (fst r) (snd r) c) rs = false).
  { induction rs as [|z r IH]; [reflexivity|]. cbn [forallb existsb].
    rewrite andb_true_iff, Z.ltb_lt. intros [Hz Hr].
    unfold in_range at 1. destruct (Z.leb_spec (fst z) c); [lia|]. cbn [andb orb].
    now apply IH. }
  unfold isdigit, todecimal.
  match eval cbv delta [decimal_zeros] in decimal_zeros with
  | ?z :: ?r =>
    change (decimal_in decimal_zeros c)
      with (if in_range z (z + 9) c then Some (c - z) else decimal_in r c);
    rewrite (N r) by reflexivity
  end.
  change (in_range 48 (48 + 9) c) with (is_ascii_digit c).
  destruct (is_ascii_digit c); [reflexivity|]. apply M. reflexivity.
Qed.

Lemma filter_isdigit_ascii s :
  forallb ascii_not_k s = true -> filter isdigit s = filter is_ascii_digit s.
Proof.
  induction s as [|c r IH]; [reflexivity|]. cbn [forallb filter].
  rewrite andb_true_iff. intros [Hc Hr]. apply ascii_not_k_inv in Hc.
  rewrite isdigit_ascii by lia. now rewrite (IH Hr).
Qed.

Lemma forallb_filter_keeps {A} (p g : A -> bool) l :
  forallb p l = true -> forallb p (filter g l) = true.
Proof.
  rewrite !forallb_forall. intros H x Hx. apply filter_In in Hx. apply H, Hx.
Qed.

Lemma forallb_strip_keeps p sp s :
  forallb p s = true -> forallb p (strip_by sp s) = true.
Proof.
  rewrite !forallb_forall. intros H.
  pose proof (strip_by_keeps (fun c => p c = true) sp s) as K.
  rewrite !Forall_forall in K. apply K. exact H.
Qed.

Lemma no_token_in_ascii tok0 tok s :
  forallb ascii_not_k s = true -> ascii_not_k tok0 = false ->
  contains (tok0 :: tok) s = false.
Proof.
  intros H T. destruct (contains _ _) eqn:E; [|reflexivity].
  apply contains_first in E. rewrite forallb_forall in H.
  rewrite (H _ E) in T. discriminate.
Qed.

(** X9: without thousand token the install count is the number written by
    the digits of the text, whatever stands between them: for a text of
    Persian digits and ASCII characters other than k, with at most 4300
    digits, [parse_installs] returns the value of its digits, and 0 when
    it has none. *)
Theorem X9_plain_count_keeps_its_digits s :
  forallb plain_char s = true ->
  (length (filter date_digit s) <= max_str_digits)%nat ->
  parse_installs (Some s) = Ok (numeral_value (filter date_digit s)).
Proof.
  intros Hp Hlen. destruct s as [|c0 r0]; [reflexivity|].
  set (s := c0 :: r0) in *. unfold parse_installs.
  rewrite convert_is_map. change (utf8 "+") with [0x2B].
  rewrite remove_char_is_filter.
  set (s1 := map normalize_char s).
  assert (A1 : forallb ascii_not_k s1 = true).
  { unfold s1. rewrite forallb_forall in *. intros x Hx.
    apply in_map_iff in Hx. destruct Hx as (c & <- & Hc).
    apply normalize_plain, Hp, Hc. }
  set (s2 := filter _ s1).
  assert (A2 : forallb ascii_not_k s2 = true) by now apply forallb_filter_keeps.
  assert (D2 : filter is_ascii_digit s2 = filter is_ascii_digit s1).
  { unfold s2. clear. induction s1 as [|c r IH]; [reflexivity|]. cbn [filter].
    destruct (Z.eqb_spec 0x2B c) as [<-|N]; cbn [negb filter].
    - exact IH.
    - now rewrite IH. }
  set (s3 := strip s2).
  assert (A3 : forallb ascii_not_k s3 = true) by now apply forallb_strip_keeps.
  assert (D3 : filter is_ascii_digit s3 = filter is_ascii_digit s2)
    by (apply filter_strip, space_is_no_digit).
  destruct (lower_ascii s3 A3) as [A4 D4].
  set (text := lower s3) in *.
  change (utf8 "هزار") with [0x0647; 0x0632; 0x0627; 0x0631].
  change (utf8 "k") with [0x6B].
  rewrite (no_token_in_ascii 0x0647 _ text A4) by reflexivity.
  rewrite (no_token_in_ascii 0x6B _ text A4) by reflexivity.
  rewrite (filter_isdigit_ascii text A4), D4, D3, D2.
  unfold s1. rewrite (filter_digits_normalize s Hp).
  set (ds := filter date_digit s) in *.
  assert (Hd : forallb date_digit ds = true).
  { unfold ds. rewrite forallb_forall. intros x Hx.
    apply filter_In in Hx. tauto. }
  destruct ds as [|d r] eqn:E; [reflexivity|].
  change (match map normalize_char (d :: r) with
          | [] => Ok 0
          | _ :: _ => int (map normalize_char (d :: r))
          end) with (int (map normalize_char (d :: r))).
  apply int_numeral. repeat split; [discriminate|exact Hd|exact Hlen].
Qed.

Lemma X9_witness :
  parse_installs (Some (utf8 "+1,000 installs")) = Ok 1000 /\
  parse_installs (Some (utf8 "۵۰۰+")) = Ok 500 /\
  parse_installs (Some (utf8 "abc")) = Ok 0.
Proof.
  split; [|split].
  - apply (X9_plain_count_keeps_its_digits (utf8 "+1,000 installs"));
      [reflexivity|vm_compute; lia].
  - apply (X9_plain_count_keeps_its_digits (utf8 "۵۰۰+"));
      [reflexivity|vm_compute; lia].
  - apply (X9_plain_count_keeps_its_digits (utf8 "abc"));
      [reflexivity|vm_compute; lia].
Defined.

End InstallExtras.

(** ** The pagination loop, further *)

Module PaginationExtras.
Import Py Selenium Scraper Notions MoreNotions.

Section Loop.

Variable Session : Type.
Variable wd_get : str -> Session -> result unit * Session.
Variable wait_until_load_more : Session -> result WebElement * Session.
Variable scroll_into_view : WebElement -> Session -> result unit * Session.
Variable sleep : Z -> Session -> Session.
Variable click : WebElement -> Session -> result unit * Session.
Variable find_comment_items : Session -> result (list WebElement) * Session.

#[local] Abbreviation step :=
  (load_more_step Session wait_until_load_more scroll_into_view sleep click).
#[local] Abbreviation loop :=
  (load_more_loop Session wait_until_load_more scroll_into_view sleep click).
#[local] Abbreviation made_passes :=
  (passes Session wait_until_load_more scroll_into_view sleep click).
#[local] Abbreviation harvest :=
  (extract_all_comment_elements Session wd_get wait_until_load_more
     scroll_into_view sleep click find_comment_items).

(** A pass stops exactly when one of its three calls raises. *)
Lemma step_stops_iff s s_end :
  step s = (false, s_end) <->
  (exists e, wait_until_load_more s = (Raise e, s_end)) \/
  (exists b s1 e, wait_until_load_more s = (Ok b, s1) /\
     scroll_into_view b s1 = (Raise e, s_end)) \/
  (exists b s1 s2 e, wait_until_load_more s = (Ok b, s1) /\
     scroll_into_view b s1 = (Ok tt, s2) /\
     click b (sleep 500 s2) = (Raise e, s_end)).
Proof.
  unfold load_more_step.
  destruct (wait_until_load_more s) as [[b|e] s1] eqn:W.
  - destruct (scroll_into_view b s1) as [[[]|e] s2] eqn:Sc.
    + destruct (click b (sleep 500 s2)) as [[[]|e] s3] eqn:C.
      * split; [discriminate|].
        intros [(e & [=])|[(b' & s1' & e & [= <- <-] & H)|
                           (b' & s1' & s2' & e & [= <- <-] & H & H')]].
        -- rewrite Sc in H. discriminate.
        -- rewrite Sc in H. injection H as <-. rewrite C in H'. discriminate.
      * split.
        -- intros [= <-]. right. right. now exists b, s1, s2, e.
        -- intros [(e' & [=])|[(b' & s1' & e' & [= <- <-] & H)|
                           (b' & s1' & s2' & e' & [= <- <-] & H & H')]].
           ++ rewrite Sc in H. discriminate.
           ++ rewrite Sc in H. injection H as <-. rewrite C in H'.
              now injection H' as _ <-.
    + split.
      * intros [= <-]. right. left. now exists b, s1, e.
      * intros [(e' & [=])|[(b' & s1' & e' & [= <- <-] & H)|
                           (b' & s1' & s2' & e' & [= <- <-] & H & H')]].
        -- rewrite Sc in H. now injection H as _ <-.
        -- rewrite Sc in H. discriminate.
  - split.
    + intros [= <-]. left. now exists e.
    + intros [(e' & [= _ <-])|[(b' & s1' & e' & [=] & H)|
                           (b' & s1' & s2' & e' & [=] & H & H')]].
      reflexivity.
Qed.

Lemma loop_ends_iff fuel : forall s s_end,
  loop fuel s = Some s_end <->
  exists n sn, (n < fuel)%nat /\ made_passes s n sn /\ step sn = (false, s_end).
Proof.
  induction fuel as [|fuel IH]; intros s s_end.
  - split; [discriminate|]. intros (n & sn & H & _). lia.
  - cbn [load_more_loop].
    destruct (load_more_step _ _ _ _ _ s) as [[] s1] eqn:E.
    + rewrite IH. split.
      * intros (n & sn & Hn & P & St). exists (S n), sn.
        split; [lia|]. split; [|exact St]. now apply passes_more with s1.
      * intros (n & sn & Hn & P & St). inversion P; subst.
        -- rewrite E in St. discriminate.
        -- match goal with H : step s = (true, _) |- _ =>
             rewrite E in H; injection H as <- end.
           eexists _, sn. split; [|split; eauto]. lia.
    + split.
      * intros [= <-]. exists 0%nat, s. split; [lia|].
        split; [apply passes_none|exact E].
      * intros (n & sn & Hn & P & St). inversion P; subst.
        -- rewrite E in St. now injection St as <-.
        -- match goal with H : step s = (true, _) |- _ =>
             rewrite E in H; discriminate end.
Qed.

(** X10: the load-more loop has no way out but an exception: it is over
    exactly when, after some number of full passes, the wait for the
    control, the scrolling or the click raises, and then in the state that
    the failing call leaves. *)
Theorem X10_loop_ends_only_when_a_call_raises fuel s0 s_end :
  load_more_loop Session wait_until_load_more scroll_into_view sleep click
    fuel s0 = Some s_end <->
  exists n sn, (n < fuel)%nat /\
    passes Session wait_until_load_more scroll_into_view sleep click s0 n sn /\
    ((exists e, wait_until_load_more sn = (Raise e, s_end)) \/
     (exists b s1 e, wait_until_load_more sn = (Ok b, s1) /\
        scroll_into_view b s1 = (Raise e, s_end)) \/
     (exists b s1 s2 e, wait_until_load_more sn = (Ok b, s1) /\
        scroll_into_view b s1 = (Ok tt, s2) /\
        click b (sleep 500 s2) = (Raise e, s_end))).
Proof.
  rewrite loop_ends_iff. split; intros (n & sn & Hn & P & H);
    exists n, sn; (split; [exact Hn|split; [exact P|]]);
    now apply step_stops_iff.
Qed.

Lemma loop_runs_on (I : Session -> Prop) :
  (forall s, I s -> exists s', step s = (true, s') /\ I s') ->
  forall fuel s, I s -> loop fuel s = None.
Proof.
  intros Inv. induction fuel as [|fuel IH]; intros s Hs; [reflexivity|].
  cbn [load_more_loop]. destruct (Inv s Hs) as (s' & -> & Hs'). now apply IH.
Qed.

(** X11: while every pass finds and activates the control,
    [extract_all_comment_elements] does not return: the loop is still
    running after any number of passes. *)
Theorem X11_never_returns_while_every_pass_succeeds
  (I : Session -> Prop) url s s0 :
  (forall s, I s -> exists s',
     load_more_step Session wait_until_load_more scroll_into_view sleep click
       s = (true, s') /\ I s') ->
  wd_get url s = (Ok tt, s0) -> I s0 ->
  forall fuel,
    extract_all_comment_elements Session wd_get wait_until_load_more
      scroll_into_view sleep click find_comment_items fuel url s = None.
Proof.
  intros Inv G H0 fuel. unfold extract_all_comment_elements.
  now rewrite G, (loop_runs_on I Inv fuel s0 H0).
Qed.

End Loop.

Lemma X11_witness :
  extract_all_comment_elements nat endless_get endless_wait endless_scroll
    endless_sleep endless_click endless_items 1000
    (utf8 "https://cafebazaar.ir/app/x") 0%nat = None.
Proof.
  apply (X11_never_returns_while_every_pass_succeeds nat endless_get
           endless_wait endless_scroll endless_sleep endless_click
           endless_items (fun _ => True)
           (utf8 "https://cafebazaar.ir/app/x") 0%nat 0%nat).
  - intros s _. exists (S s). split; [reflexivity|exact I].
  - reflexivity.
  - exact I.
Defined.

End PaginationExtras.

(** ** Whitespace around the texts *)

Module StripExtras.
Import Py Utils Notions RuntimeFacts NumeralFacts NormalizeExtras InstallExtras.

Section Strip.
Variable sp : Z -> bool.

Lemma lstrip_by_spaces ws s :
  forallb sp ws = true -> lstrip_by sp (ws ++ s) = lstrip_by sp s.
Proof.
  induction ws as [|c r IH]; [reflexivity|]. cbn [forallb app lstrip_by].
  intros H. apply andb_true_iff in H. destruct H as [-> H]. now apply IH.
Qed.

Lemma lstrip_by_split s :
  exists ws, forallb sp ws = true /\ s = ws ++ lstrip_by sp s.
Proof.
  induction s as [|c r (ws & H & E)]; [now exists []|]. cbn [lstrip_by].
  destruct (sp c) eqn:C.
  - exists (c :: ws). cbn [forallb app]. rewrite C, H. now rewrite <- E.
  - now exists [].
Qed.

Lemma lstrip_by_before_spaces t ws :
  forallb sp ws = true ->
  lstrip_by sp (t ++ ws) =
  match lstrip_by sp t with [] => [] | u => u ++ ws end.
Proof.
  intros H. induction t as [|c r IH].
  - cbn [app lstrip_by]. rewrite <- (app_nil_r ws), lstrip_by_spaces by exact H.
    reflexivity.
  - cbn [app lstrip_by]. destruct (sp c); [exact IH|reflexivity].
Qed.

Lemma lstrip_by_rev_spaces t ws :
  forallb sp ws = true ->
  lstrip_by sp (rev (match lstrip_by sp t with [] => [] | u => u ++ ws end)) =
  lstrip_by sp (rev (lstrip_by sp t)).
Proof.
  intros H. destruct (lstrip_by sp t) as [|c r]; [reflexivity|].
  rewrite rev_app_distr. apply lstrip_by_spaces.
  rewrite forallb_forall in *. intros x Hx. apply H. now apply in_rev.
Qed.

(** Separators around a string do not change what stripping leaves. *)
Lemma strip_by_padded ws1 t ws2 :
  forallb sp ws1 = true -> forallb sp ws2 = true ->
  strip_by sp (ws1 ++ t ++ ws2) = strip_by sp t.
Proof.
  intros H1 H2. unfold strip_by.
  rewrite lstrip_by_spaces, lstrip_by_before_spaces by assumption.
  now rewrite lstrip_by_rev_spaces.
Qed.

(** A string is what stripping leaves of it, between separators. *)
Lemma strip_by_split s :
  exists ws1 ws2, forallb sp ws1 = true /\ forallb sp ws2 = true /\
    s = ws1 ++ strip_by sp s ++ ws2.
Proof.
  destruct (lstrip_by_split s) as (ws1 & H1 & E1).
  destruct (lstrip_by_split (rev (lstrip_by sp s))) as (ws2 & H2 & E2).
  exists ws1, (rev ws2). split; [exact H1|]. split.
  - rewrite forallb_forall in *. intros x Hx. apply H2. now apply in_rev.
  - unfold strip_by. rewrite <- rev_app_distr, <- E2, rev_involutive. exact E1.
Qed.

Lemma strip_by_idem s : strip_by sp (strip_by sp s) = strip_by sp s.
Proof.
  destruct (strip_by_split s) as (ws1 & ws2 & H1 & H2 & E).
  rewrite E at 2. now rewrite strip_by_padded.
Qed.

End Strip.

Lemma space_is_not_persian c :
  isspace c = true -> in_range 0x0600 0x06FF c = false.
Proof.
  intros H. destruct (in_range 0x0600 0x06FF c) eqn:E; [|reflexivity].
  apply in_range_iff in E. exfalso. revert H. unfold isspace, in_range.
  repeat match goal with
  | |- context [?a =? ?b] => destruct (Z.eqb_spec a b); [lia|]
  | |- context [?a <=? ?b] => destruct (Z.leb_spec a b); try lia
  end; cbn; discriminate.
Qed.

Lemma spaces_not_persian ws :
  forallb isspace ws = true -> contains_persian ws = false.
Proof.
  unfold contains_persian. induction ws as [|c r IH]; [reflexivity|].
  cbn [forallb existsb]. intros H. apply andb_true_iff in H.
  destruct H as [Hc Hr]. now rewrite (space_is_not_persian c Hc), IH.
Qed.

Lemma contains_persian_strip s :
  contains_persian (strip s) = contains_persian s.
Proof.
  destruct (strip_by_split isspace s) as (ws1 & ws2 & H1 & H2 & E).
  fold (strip s) in E. rewrite E at 2. unfold contains_persian.
  rewrite !existsb_app.
  fold (contains_persian ws1) (contains_persian ws2).
  rewrite (spaces_not_persian ws1 H1), (spaces_not_persian ws2 H2).
  now rewrite orb_false_r.
Qed.

Lemma spaces_normalize ws :
  forallb isspace ws = true -> map normalize_char ws = ws.
Proof.
  induction ws as [|c r IH]; [reflexivity|]. cbn [forallb map].
  intros H. apply andb_true_iff in H. destruct H as [Hc Hr].
  rewrite (IH Hr), normalize_char_fixed; [reflexivity|].
  destruct (in_range 0x06F0 0x06F9 c) eqn:E; [|reflexivity].
  apply in_range_iff in E. pose proof (space_is_not_persian c Hc) as N.
  destruct (in_range 0x0600 0x06FF c) eqn:E'; [discriminate|].
  assert (in_range 0x0600 0x06FF c = true) by (apply in_range_iff; lia).
  congruence.
Qed.

(** Normalization and stripping commute. *)
Lemma strip_convert s :
  strip (convert_persian_digits_to_english (strip s)) =
  strip (convert_persian_digits_to_english s).
Proof.
  destruct (strip_by_split isspace s) as (ws1 & ws2 & H1 & H2 & E).
  fold (strip s) in E. rewrite E at 2. rewrite !convert_is_map, !map_app.
  rewrite (spaces_normalize ws1 H1), (spaces_normalize ws2 H2).
  unfold strip at 3. now rewrite strip_by_padded.
Qed.

Lemma strip_remove_convert p s :
  isspace p = false ->
  strip (replace [p] [] (convert_persian_digits_to_english (strip s))) =
  strip (replace [p] [] (convert_persian_digits_to_english s)).
Proof.
  intros Hp.
  destruct (strip_by_split isspace s) as (ws1 & ws2 & H1 & H2 & E).
  fold (strip s) in E. rewrite E at 2.
  rewrite !convert_is_map, !map_app, !remove_char_is_filter, !filter_app.
  rewrite (spaces_normalize ws1 H1), (spaces_normalize ws2 H2).
  unfold strip at 3. rewrite strip_by_padded; [reflexivity| |];
    apply forallb_filter_keeps; assumption.
Qed.

Lemma parse_jalali_date_by_parts a b :
  a <> [] -> b <> [] ->
  contains_persian a = contains_persian b -> strip a = strip b ->
  parse_jalali_date (Some a) = parse_jalali_date (Some b).
Proof.
  destruct a as [|a0 a]; [contradiction|]. destruct b as [|b0 b]; [contradiction|].
  intros _ _ Hc Hs. unfold parse_jalali_date. now rewrite Hc, Hs.
Qed.

Lemma parse_jalali_date_strip s :
  parse_jalali_date (Some (strip s)) = parse_jalali_date (Some s).
Proof.
  destruct s as [|c r]; [reflexivity|]. set (s := c :: r).
  destruct (strip s) as [|c' r'] eqn:E.
  - unfold parse_jalali_date, s. fold s. rewrite E. reflexivity.
  - rewrite <- E. apply parse_jalali_date_by_parts.
    + rewrite E. discriminate.
    + discriminate.
    + apply contains_persian_strip.
    + apply strip_by_idem.
Qed.

Lemma parse_installs_strip s :
  parse_installs (Some (strip s)) = parse_installs (Some s).
Proof.
  destruct s as [|c r]; [reflexivity|]. set (s := c :: r).
  pose proof (strip_remove_convert 0x2B s eq_refl) as K.
  destruct (strip s) as [|c' r'] eqn:E.
  - unfold parse_installs, s. fold s. change (utf8 "+") with [0x2B].
    rewrite <- K. reflexivity.
  - unfold parse_installs, s. fold s. change (utf8 "+") with [0x2B].
    now rewrite K.
Qed.

Lemma parse_size_strip s :
  parse_size (Some (strip s)) = parse_size (Some s).
Proof.
  destruct s as [|c r]; [reflexivity|]. set (s := c :: r).
  pose proof (strip_convert s) as K.
  destruct (strip s) as [|c' r'] eqn:E.
  - unfold parse_size, s. fold s. rewrite <- K. reflexivity.
  - unfold parse_size, s. fold s. now rewrite K.
Qed.

(** X12: whitespace before and after a date text does not change what
    [parse_jalali_date] makes of it. *)
Theorem X12_whitespace_around_a_date_is_ignored (ws1 t ws2 : str) :
  forallb isspace ws1 = true -> forallb isspace ws2 = true ->
  parse_jalali_date (Some (ws1 ++ t ++ ws2)) = parse_jalali_date (Some t).
Proof.
  intros H1 H2.
  transitivity (parse_jalali_date (Some (strip (ws1 ++ t ++ ws2))));
    [symmetry; apply parse_jalali_date_strip|].
  transitivity (parse_jalali_date (Some (strip t)));
    [|apply parse_jalali_date_strip].
  unfold strip. now rewrite strip_by_padded.
Qed.

Lemma X12_witness :
  parse_jalali_date (Some (utf8 "  ۱۴۰۴/۴/۱ ")) =
  parse_jalali_date (Some (utf8 "۱۴۰۴/۴/۱")).
Proof.
  apply (X12_whitespace_around_a_date_is_ignored
           (utf8 "  ") (utf8 "۱۴۰۴/۴/۱") (utf8 " ")); reflexivity.
Defined.

(** X13: whitespace before and after a count does not change what
    [parse_installs] and [parse_size] make of it. *)
Theorem X13_whitespace_around_a_count_is_ignored (ws1 t ws2 : str) :
  forallb isspace ws1 = true -> forallb isspace ws2 = true ->
  parse_installs (Some (ws1 ++ t ++ ws2)) = parse_installs (Some t) /\
  parse_size (Some (ws1 ++ t ++ ws2)) = parse_size (Some t).
Proof.
  intros H1 H2. split.
  - transitivity (parse_installs (Some (strip (ws1 ++ t ++ ws2))));
      [symmetry; apply parse_installs_strip|].
    transitivity (parse_installs (Some (strip t)));
      [|apply parse_installs_strip].
    unfold strip. now rewrite strip_by_padded.
  - transitivity (parse_size (Some (strip (ws1 ++ t ++ ws2))));
      [symmetry; apply parse_size_strip|].
    transitivity (parse_size (Some (strip t))); [|apply parse_size_strip].
    unfold strip. now rewrite strip_by_padded.
Qed.

Lemma X13_witness :
  parse_installs (Some (utf8 " ۵۰۰+ ")) = parse_installs (Some (utf8 "۵۰۰+")) /\
  parse_size (Some (utf8 " ۵۰۰+ ")) = parse_size (Some (utf8 "۵۰۰+")).
Proof.
  apply (X13_whitespace_around_a_count_is_ignored
           (utf8 " ") (utf8 "۵۰۰+") (utf8 " ")); reflexivity.
Defined.

End StripExtras.

(** ** Exceptions of [parse_installs] *)

Module InstallErrorExtras.
Import Py Utils Notions MoreNotions RuntimeFacts NumeralFacts
  TextFacts CountClaims CommentClaims NormalizeExtras InstallExtras StripExtras.

Lemma int_of_float_raises x e :
  int_of_float x = Raise e -> e = ValueError \/ e = OverflowError.
Proof.
  destruct x; cbn [int_of_float]; intros [= <-]; auto.
Qed.

Lemma scaled_raises number e :
  (x <- float number ;; int_of_float (float_mul x thousand)) = Raise e ->
  e = ValueError \/ e = OverflowError.
Proof.
  destruct (float number) as [x|e'] eqn:F; cbn [bind].
  - apply int_of_float_raises.
  - apply float_raises in F. subst e'. intros [= <-]. now left.
Qed.

Lemma parse_installs_raises s e :
  parse_installs s = Raise e -> e = ValueError \/ e = OverflowError.
Proof.
  destruct s as [[|c r]|]; try discriminate. unfold parse_installs.
  destruct (contains _ _); [apply scaled_raises|].
  destruct (contains _ _); [apply scaled_raises|].
  destruct (filter isdigit _) as [|d ds]; [discriminate|].
  intros H. apply int_raises in H. now left.
Qed.

(** X14: [parse_installs] lets out [ValueError] and [OverflowError] and
    nothing else; both occur: a count that reads as infinity overflows, one
    that reads as not-a-number is a value error. *)
Theorem X14_install_count_raises_value_or_overflow_error :
  (forall s e, parse_installs s = Raise e ->
     e = ValueError \/ e = OverflowError) /\
  parse_installs (Some (utf8 "1e999k")) = Raise OverflowError /\
  parse_installs (Some (utf8 "nank")) = Raise ValueError.
Proof.
  split; [exact parse_installs_raises|]. split; vm_compute; reflexivity.
Qed.

(** *** Digits that [int()] does not read *)

Lemma other_digit_inv c :
  other_digit c = true ->
  127 < c /\ isspace c = false /\ in_range 0x06F0 0x06F9 c = false /\
  lower_char c = [c] /\ c <> 0x0647.
Proof.
  unfold other_digit, other_digit_ranges. cbn [existsb fst snd].
  rewrite !orb_true_iff, !in_range_iff. intros H.
  assert (B : 0xB2 <= c <= 0xB3 \/ c = 0xB9 \/ 0x1369 <= c <= 0x1F10A) by lia.
  assert (N : c <> 0x1680 /\ ~ 0x2000 <= c <= 0x200A /\ c <> 0x2028 /\
              c <> 0x2029 /\ c <> 0x202F /\ c <> 0x205F /\ c <> 0x3000 /\
              c <> 0x212A /\ c <> 0x212B) by lia.
  clear H. repeat split; try lia.
  - unfold isspace, in_range.
    repeat match goal with
    | |- context [?a =? ?b] => destruct (Z.eqb_spec a b); [lia|]
    | |- context [?a <=? ?b] => destruct (Z.leb_spec a b); try lia
    end; reflexivity.
  - unfold in_range.
    destruct (Z.leb_spec 0x06F0 c), (Z.leb_spec c 0x06F9); try reflexivity; lia.
  - unfold lower_char, in_range.
    repeat match goal with
    | |- context [?a =? ?b] => destruct (Z.eqb_spec a b); [lia|]
    | |- context [?a <=? ?b] => destruct (Z.leb_spec a b); try lia
    end; reflexivity.
Qed.

Lemma decimal_in_outside zs lo hi c :
  forallb (fun z => (hi <? z) || (z + 9 <? lo)) zs = true ->
  lo <= c <= hi -> decimal_in zs c = None.
Proof.
  intros H Hc. induction zs as [|z r IH]; [reflexivity|].
  cbn [forallb] in H. apply andb_true_iff in H. destruct H as [Hz Hr].
  cbn [decimal_in]. rewrite orb_true_iff, !Z.ltb_lt in Hz.
  unfold in_range. destruct (Z.leb_spec z c), (Z.leb_spec c (z + 9));
    cbn [andb]; try lia; now apply IH.
Qed.

Lemma other_digit_no_decimal c : other_digit c = true -> todecimal c = None.
Proof.
  unfold other_digit. rewrite existsb_exists. intros ([lo hi] & Hin & Hc).
  cbn [fst snd] in Hc. apply in_range_iff in Hc.
  assert (K : forallb (fun r => forallb (fun z => (snd r <? z) || (z + 9 <? fst r))
                                  decimal_zeros) other_digit_ranges = true)
    by (vm_compute; reflexivity).
  rewrite forallb_forall in K. specialize (K _ Hin). cbn [fst snd] in K.
  now apply decimal_in_outside with lo hi.
Qed.

Lemma other_digit_isdigit c : other_digit c = true -> isdigit c = true.
Proof.
  intros H. unfold isdigit. rewrite (other_digit_no_decimal c H). exact H.
Qed.

Lemma other_digit_unread c : other_digit c = true -> number_char c = 0x3F.
Proof.
  intros H. destruct (other_digit_inv c H) as (A & S & _).
  unfold number_char. destruct (Z.ltb_spec c 127); [lia|].
  now rewrite S, (other_digit_no_decimal c H).
Qed.

(** [int()] reads no text with a character that it takes for [?]. *)
Lemma drop_underscores_covers s : forall prev t c,
  drop_underscores prev s = Some t -> In c s -> c = 0x5F \/ In c t.
Proof.
  induction s as [|a r IH]; intros prev t c E Hc; [contradiction|].
  cbn [drop_underscores] in E. destruct (Z.eqb_spec a 0x5F) as [->|N].
  - destruct (is_ascii_digit prev); [|discriminate].
    destruct Hc as [<-|Hc]; [now left|]. eapply IH; eauto.
  - destruct (_ && _); [discriminate|].
    destruct (drop_underscores a r) as [t'|] eqn:E'; [|discriminate].
    injection E as <-. destruct Hc as [<-|Hc]; [right; now left|].
    destruct (IH _ _ _ E' Hc); [now left|right; now right].
Qed.

Lemma int_unread s :
  In 0x3F (map number_char s) -> int s = Raise ValueError.
Proof.
  intros H. destruct (int s) as [n|e] eqn:E.
  2:{ apply int_raises in E. now subst e. }
  exfalso. unfold int in E.
  destruct (strip_by_split is_blank (map number_char s))
    as (ws1 & ws2 & H1 & H2 & Es).
  set (st := strip_by is_blank (map number_char s)) in *.
  assert (Hst : In 0x3F st).
  { rewrite Es in H. rewrite !in_app_iff in H.
    rewrite forallb_forall in H1, H2.
    destruct H as [H|[H|H]]; [apply H1 in H; discriminate|exact H|
                               apply H2 in H; discriminate]. }
  destruct (take_sign st) as [neg body] eqn:T.
  assert (Hb : In 0x3F body).
  { unfold take_sign in T. destruct st as [|a r]; [contradiction|].
    destruct (Z.eqb_spec a 0x2D) as [->|N1].
    - injection T as _ <-. destruct Hst as [Hst|Hst]; [discriminate|exact Hst].
    - destruct (Z.eqb_spec a 0x2B) as [->|N2].
      + injection T as _ <-. destruct Hst as [Hst|Hst]; [discriminate|exact Hst].
      + injection T as _ <-. exact Hst. }
  destruct (drop_underscores 0 body) as [ds|] eqn:D; [|discriminate].
  destruct (drop_underscores_covers _ _ _ _ D Hb) as [?|Hd]; [discriminate|].
  destruct ds as [|d r]; [discriminate|].
  destruct (forallb is_ascii_digit (d :: r)) eqn:F; [|discriminate].
  rewrite forallb_forall in F. apply F in Hd. discriminate.
Qed.

Lemma normalize_count_char c :
  count_char c = true ->
  ascii_not_k (normalize_char c) || other_digit (normalize_char c) = true.
Proof.
  unfold count_char. rewrite orb_true_iff. intros [H|H].
  - now rewrite (normalize_plain c H).
  - destruct (other_digit_inv c H) as (_ & _ & P & _).
    rewrite (normalize_char_fixed c P), H. apply orb_true_r.
Qed.

Lemma lower_count_char c :
  ascii_not_k c || other_digit c = true ->
  forallb (fun c => ascii_not_k c || other_digit c) (lower_char c) = true.
Proof.
  rewrite orb_true_iff. intros [H|H].
  - destruct (lower_char_ascii c H) as (c' & -> & A & _).
    cbn [forallb]. now rewrite A.
  - destruct (other_digit_inv c H) as (_ & _ & _ & -> & _).
    cbn [forallb]. rewrite H. now rewrite orb_true_r.
Qed.

(** X15: the digit filter of [parse_installs] keeps characters that
    [int()] does not read: a count with a superscript or circled digit,
    without thousand token, raises [ValueError]. *)
Theorem X15_digit_that_int_rejects_raises s :
  forallb count_char s = true -> existsb other_digit s = true ->
  parse_installs (Some s) = Raise ValueError.
Proof.
  intros Hs Ho. rewrite existsb_exists in Ho. destruct Ho as (c & Hc & Oc).
  destruct (other_digit_inv c Oc) as (Big & Sp & Pd & Lc & Nh).
  destruct s as [|c0 r0]; [contradiction|]. set (s := c0 :: r0) in *.
  unfold parse_installs. rewrite convert_is_map.
  change (utf8 "+") with [0x2B]. rewrite remove_char_is_filter.
  set (m := fun c => ascii_not_k c || other_digit c).
  set (s1 := map normalize_char s).
  assert (A1 : forallb m s1 = true).
  { unfold s1. rewrite forallb_forall in *. intros x Hx.
    apply in_map_iff in Hx. destruct Hx as (a & <- & Ha).
    apply normalize_count_char, Hs, Ha. }
  assert (I1 : In c s1).
  { unfold s1. apply in_map_iff. exists c. split; [|exact Hc].
    now apply normalize_char_fixed. }
  set (s2 := filter _ s1).
  assert (A2 : forallb m s2 = true) by now apply forallb_filter_keeps.
  assert (I2 : In c s2).
  { apply filter_In. split; [exact I1|].
    apply negb_true_iff, Z.eqb_neq. lia. }
  set (s3 := strip s2).
  assert (A3 : forallb m s3 = true) by now apply forallb_strip_keeps.
  assert (I3 : In c s3).
  { destruct (strip_by_split isspace s2) as (ws1 & ws2 & H1 & H2 & E).
    fold (strip s2) in E. fold s3 in E. rewrite E, !in_app_iff in I2.
    rewrite forallb_forall in H1, H2.
    destruct I2 as [H|[H|H]]; [apply H1 in H; congruence|exact H|
                                apply H2 in H; congruence]. }
  set (text := lower s3).
  assert (A4 : forallb m text = true).
  { unfold text, lower. rewrite forallb_forall in *. intros x Hx.
    apply in_flat_map in Hx. destruct Hx as (a & Ha & Hx).
    pose proof (lower_count_char a (A3 a Ha)) as L.
    rewrite forallb_forall in L. now apply L. }
  assert (I4 : In c text).
  { unfold text, lower. apply in_flat_map. exists c. split; [exact I3|].
    rewrite Lc. now left. }
  assert (T : forall tok0 tok, m tok0 = false -> contains (tok0 :: tok) text = false).
  { intros tok0 tok M. destruct (contains _ _) eqn:E; [|reflexivity].
    apply contains_first in E. rewrite forallb_forall in A4.
    rewrite (A4 _ E) in M. discriminate. }
  change (utf8 "هزار") with [0x0647; 0x0632; 0x0627; 0x0631].
  change (utf8 "k") with [0x6B].
  rewrite !T by reflexivity.
  assert (I5 : In c (filter isdigit text)).
  { apply filter_In. split; [exact I4|now apply other_digit_isdigit]. }
  destruct (filter isdigit text) as [|d ds] eqn:E; [contradiction|].
  apply int_unread, in_map_iff. exists c. split; [|exact I5].
  now apply other_digit_unread.
Qed.

Lemma X15_witness :
  parse_installs (Some (utf8 "۵² installs")) = Raise ValueError.
Proof.
  apply (X15_digit_that_int_rejects_raises (utf8 "۵² installs"));
    reflexivity.
Defined.

End InstallErrorExtras.

(** ** The list page and the app page *)

Module PageExtras.
Import Py Flow Pages Scripts PageNotions SampleSite.

Section Pages.
Context {World Soup Tag : Type}.
Variable web : Web World Soup Tag.

Lemma app_path_nonempty h : app_path h = true -> nonempty (Some h) = Some h.
Proof. destruct h; [discriminate|reflexivity]. Qed.

Lemma collect_links_is base_url tags : forall acc,
  collect_links web base_url tags acc =
  acc ++ map (app base_url) (filter app_path (hrefs web tags)).
Proof.
  induction tags as [|t r IH]; intros acc; cbn [collect_links hrefs flat_map].
  - now rewrite app_nil_r.
  - rewrite IH. fold (hrefs web r).
    destruct (tag_get web t "href") as [[|c h]|]; cbn [nonempty app filter];
      try reflexivity.
    fold (app_path (c :: h)). destruct (app_path (c :: h));
      [|reflexivity].
    cbn [map]. now rewrite <- app_assoc.
Qed.

(** X16: the links that [get_app_links] returns are the [href] values
    of the selected tags that start with [/app/], each after the base
    address, in the order of the page and with their repetitions; the
    status of the response plays no part. *)
Theorem X16_links_are_the_app_paths_in_page_order
  list_url base_url headers w response w1 :
  requests_get web list_url headers w = (Returns response, w1) ->
  get_app_links web list_url base_url headers w =
  (Returns (map (app base_url)
      (filter app_path
         (hrefs web (soup_select web (soup_of web response)
                       "a.SimpleAppItem--single")))), w1).
Proof.
  intros G. unfold get_app_links. rewrite G. now rewrite collect_links_is.
Qed.

Lemma getitem_short {A} (l : list A) i :
  (length l <= i)%nat -> getitem l i = Raises (Builtin IndexError).
Proof.
  intros H. unfold getitem. now rewrite (proj2 (nth_error_None l i) H).
Qed.

(** X17: for a page with fewer than five cells in its information table
    [extract_app_details] raises [IndexError], whatever else the page
    holds. *)
Theorem X17_fewer_than_five_cells_raise_index_error url w response w1 :
  requests_get web url language w = (Returns response, w1) ->
  (length (info_cells web (soup_of web response)) < 5)%nat ->
  extract_app_details web url w = (Raises (Builtin IndexError), w1).
Proof.
  intros G H. unfold extract_app_details. fold language. rewrite G.
  fold (soup_of web response). fold (info_cells web (soup_of web response)).
  set (cells := info_cells web (soup_of web response)) in *.
  f_equal.
  destruct (getitem cells 0) as [c0|e] eqn:E0.
  2:{ unfold getitem in E0. destruct (nth_error cells 0); [discriminate|].
      now injection E0 as <-. }
  cbn [and_then].
  destruct (getitem cells 3) as [c3|e] eqn:E3.
  2:{ unfold getitem in E3. destruct (nth_error cells 3); [discriminate|].
      now injection E3 as <-. }
  cbn [and_then]. rewrite getitem_short by lia. reflexivity.
Qed.

Lemma getitem_inv {A} (l : list A) i x :
  getitem l i = Returns x -> nth_error l i = Some x.
Proof.
  unfold getitem. destruct (nth_error l i); [now intros [= ->]|discriminate].
Qed.

Lemma getitem_raises {A} (l : list A) i e :
  getitem l i = Raises e -> e = Builtin IndexError.
Proof.
  unfold getitem. destruct (nth_error l i); [discriminate|now intros [= <-]].
Qed.

Lemma text_attribute_inv x t :
  text_attribute web x = Returns t -> exists tag, x = inl tag /\ t = tag_text web tag.
Proof.
  destruct x as [tag|s]; [|discriminate]. intros [= <-]. now exists tag.
Qed.

Lemma or_default_inv (found : option Tag) default tag :
  or_default found default = inl tag -> found = Some tag.
Proof.
  unfold or_default, tag_bool. destruct found as [t|]; cbn [negb];
    [now intros [= ->]|discriminate].
Qed.

Lemma or_default_none default :
  text_attribute web (@or_default Tag None default) = Raises AttributeError.
Proof. reflexivity. Qed.

(** X18: when [extract_app_details] returns, the name and the
    description are the texts of the heading and of the description block
    that were found in the page, and the install count, the size and the
    date are the texts of the first, fourth and fifth cell. *)
Theorem X18_returned_details_are_texts_of_the_page url w response w1 d w' :
  requests_get web url language w = (Returns response, w1) ->
  extract_app_details web url w = (Returns d, w') ->
  w' = w1 /\
  exists h1 content c0 c3 c4,
    soup_find web (soup_of web response) "h1" "AppName fs-20" = Some h1 /\
    soup_find web (soup_of web response) "div"
      "AppDescription__content fs-14" = Some content /\
    nth_error (info_cells web (soup_of web response)) 0 = Some c0 /\
    nth_error (info_cells web (soup_of web response)) 3 = Some c3 /\
    nth_error (info_cells web (soup_of web response)) 4 = Some c4 /\
    name d = tag_text web h1 /\ description d = tag_text web content /\
    installs d = tag_text web c0 /\ size d = tag_text web c3 /\
    updated_at d = tag_text web c4.
Proof.
  intros G. unfold extract_app_details. fold language. rewrite G.
  fold (soup_of web response). fold (info_cells web (soup_of web response)).
  set (soup := soup_of web response).
  destruct (getitem (info_cells web soup) 0) as [c0|] eqn:E0; [|discriminate].
  cbn [and_then].
  destruct (getitem (info_cells web soup) 3) as [c3|] eqn:E3; [|discriminate].
  cbn [and_then].
  destruct (getitem (info_cells web soup) 4) as [c4|] eqn:E4; [|discriminate].
  cbn [and_then].
  destruct (collect_screenshots web _ _) as [shots|]; [|discriminate].
  cbn [and_then].
  destruct (text_attribute web (or_default (soup_find web soup "h1" _) _))
    as [n|] eqn:En; [|discriminate].
  cbn [and_then].
  destruct (text_attribute web (or_default (soup_find web soup "div" _) _))
    as [ds|] eqn:Ed; [|discriminate].
  cbn [and_then]. intros [= <- <-]. split; [reflexivity|].
  apply text_attribute_inv in En. destruct En as (h1 & En & ->).
  apply text_attribute_inv in Ed. destruct Ed as (content & Ed & ->).
  apply or_default_inv in En. apply or_default_inv in Ed.
  apply getitem_inv in E0, E3, E4.
  exists h1, content, c0, c3, c4. cbn [name description installs size updated_at].
  repeat split; assumption.
Qed.

Lemma first_source_raises srcset e :
  first_source srcset = Raises e -> e = Builtin IndexError.
Proof.
  unfold first_source.
  destruct (getitem (split_on 0x2C srcset) 0) as [first|e'] eqn:E;
    cbn [and_then].
  - apply getitem_raises.
  - apply getitem_raises in E. now intros [= <-].
Qed.

Lemma collect_screenshots_raises pics : forall acc e,
  collect_screenshots web pics acc = Raises e -> e = Builtin IndexError.
Proof.
  induction pics as [|p r IH]; intros acc e; cbn [collect_screenshots];
    [discriminate|].
  destruct (lazy_source web _ "data-lazy-src"); [apply IH|].
  destruct (lazy_source web _ "data-lazy-srcset") as [srcset|]; [|apply IH].
  destruct (first_source srcset) as [u|e'] eqn:F; cbn [and_then].
  - apply IH.
  - apply first_source_raises in F. now intros [= <-].
Qed.

(** X19: the replacement strings for a missing name or description never
    come back: without the heading or without the description block
    [extract_app_details] raises, [AttributeError] at the latest. *)
Theorem X19_missing_name_or_description_never_returns url w response w1 :
  requests_get web url language w = (Returns response, w1) ->
  soup_find web (soup_of web response) "h1" "AppName fs-20" = None \/
  soup_find web (soup_of web response) "div"
    "AppDescription__content fs-14" = None ->
  exists e, extract_app_details web url w = (Raises e, w1) /\
            (e = AttributeError \/ e = Builtin IndexError).
Proof.
  intros G H. unfold extract_app_details. fold language. rewrite G.
  fold (soup_of web response). fold (info_cells web (soup_of web response)).
  set (soup := soup_of web response) in *.
  destruct (getitem (info_cells web soup) 0) as [c0|e] eqn:E0; cbn [and_then].
  2:{ apply getitem_raises in E0. subst e. eexists. split; [reflexivity|auto]. }
  destruct (getitem (info_cells web soup) 3) as [c3|e] eqn:E3; cbn [and_then].
  2:{ apply getitem_raises in E3. subst e. eexists. split; [reflexivity|auto]. }
  destruct (getitem (info_cells web soup) 4) as [c4|e] eqn:E4; cbn [and_then].
  2:{ apply getitem_raises in E4. subst e. eexists. split; [reflexivity|auto]. }
  destruct (collect_screenshots web _ _) as [shots|e] eqn:Es; cbn [and_then].
  2:{ apply collect_screenshots_raises in Es. subst e.
      eexists. split; [reflexivity|auto]. }
  destruct (soup_find web soup "h1" "AppName fs-20") as [h1|];
    destruct (soup_find web soup "div" "AppDescription__content fs-14")
      as [content|];
    try (destruct H; discriminate);
    cbn [text_attribute or_default tag_bool negb and_then];
    eexists; (split; [reflexivity|auto]).
Qed.

(** *** Screenshots *)

Lemma nonempty_inv s v : nonempty s = Some v -> s = Some v /\ v <> [].
Proof.
  destruct s as [[|c r]|]; try discriminate. intros [= <-].
  split; [reflexivity|discriminate].
Qed.

Lemma lazy_source_inv t key v :
  lazy_source web t key = Some v ->
  exists tag, t = Some tag /\ tag_get web tag key = Some v /\ v <> [].
Proof.
  unfold lazy_source, tag_bool. destruct t as [tag|]; [|discriminate].
  intros H. apply nonempty_inv in H. now exists tag.
Qed.

Lemma split_runs_nonempty sp s : forall cur,
  match cur with Some w => w <> [] | None => True end ->
  Forall (fun t => t <> []) (split_runs sp cur s).
Proof.
  induction s as [|c r IH]; intros cur Hc; cbn [split_runs].
  - destruct cur as [w|]; constructor; [|constructor].
    intros E. apply Hc. rewrite <- (rev_involutive w), E. reflexivity.
  - destruct (sp c).
    + destruct cur as [w|]; [constructor|]; try now apply IH.
      intros E. apply Hc. rewrite <- (rev_involutive w), E. reflexivity.
    + apply IH. discriminate.
Qed.

Lemma first_source_nonempty srcset u :
  first_source srcset = Returns u -> u <> [].
Proof.
  unfold first_source.
  destruct (getitem (split_on 0x2C srcset) 0) as [first|]; [|discriminate].
  cbn [and_then]. intros H. apply getitem_inv in H.
  pose proof (split_runs_nonempty isspace first None I) as F.
  fold (split first) in F. rewrite Forall_forall in F.
  apply F. eapply nth_error_In, H.
Qed.

Lemma collect_screenshots_adds pics : forall acc shots,
  collect_screenshots web pics acc = Returns shots ->
  exists new, shots = acc ++ new /\ (length new <= length pics)%nat /\
              Forall (fun u => u <> []) new.
Proof.
  induction pics as [|p r IH]; intros acc shots; cbn [collect_screenshots].
  - intros [= <-]. exists []. rewrite app_nil_r.
    split; [reflexivity|]. split; [cbn [length]; lia|constructor].
  - destruct (lazy_source web _ "data-lazy-src") as [src|] eqn:L1.
    + intros H. apply IH in H. destruct H as (new & -> & Hl & Hn).
      exists (src :: new). rewrite <- app_assoc. split; [reflexivity|].
      split; [cbn [length]; lia|]. constructor; [|exact Hn].
      apply lazy_source_inv in L1. now destruct L1 as (? & _ & _ & ?).
    + destruct (lazy_source web _ "data-lazy-srcset") as [srcset|] eqn:L2.
      * destruct (first_source srcset) as [u|] eqn:F; [|discriminate].
        cbn [and_then]. intros H. apply IH in H.
        destruct H as (new & -> & Hl & Hn).
        exists (u :: new). rewrite <- app_assoc. split; [reflexivity|].
        split; [cbn [length]; lia|]. constructor; [|exact Hn].
        now apply first_source_nonempty in F.
      * intros H. apply IH in H. destruct H as (new & -> & Hl & Hn).
        exists new. split; [reflexivity|]. split; [cbn [length]; lia|exact Hn].
Qed.

(** X20: the image addresses that are returned are not empty, and there
    is one for each picture of the page at most. *)
Theorem X20_screenshots_are_nonempty_one_per_picture_at_most
  url w response w1 d :
  requests_get web url language w = (Returns response, w1) ->
  extract_app_details web url w = (Returns d, w1) ->
  Forall (fun u => u <> []) (image_urls d) /\
  (length (image_urls d) <=
   length (soup_find_all web (soup_of web response) "picture" "sg__image"))%nat.
Proof.
  intros G. unfold extract_app_details. fold language. rewrite G.
  fold (soup_of web response). set (soup := soup_of web response).
  destruct (getitem _ 0) as [c0|]; [|discriminate]. cbn [and_then].
  destruct (getitem _ 3) as [c3|]; [|discriminate]. cbn [and_then].
  destruct (getitem _ 4) as [c4|]; [|discriminate]. cbn [and_then].
  destruct (collect_screenshots web _ _) as [shots|] eqn:Es; [|discriminate].
  cbn [and_then].
  destruct (text_attribute web _) as [n|]; [|discriminate]. cbn [and_then].
  destruct (text_attribute web _) as [ds|]; [|discriminate]. cbn [and_then].
  intros [= <-]. cbn [image_urls].
  apply collect_screenshots_adds in Es. destruct Es as (new & -> & Hl & Hn).
  cbn [app]. now split.
Qed.

End Pages.

Lemma X16_witness :
  get_app_links web LIST_URL BASE_URL None start =
  (Returns [calm_url; untitled_url; calm_url], asked LIST_URL start).
Proof.
  rewrite (X16_links_are_the_app_paths_in_page_order web LIST_URL BASE_URL
             None start (answer LIST_URL) (asked LIST_URL start))
    by (vm_compute; reflexivity).
  vm_compute. reflexivity.
Defined.

Lemma X17_witness :
  extract_app_details web missing_url start =
  (Raises (Builtin IndexError), asked missing_url start).
Proof.
  apply (X17_fewer_than_five_cells_raise_index_error web missing_url start
           (answer missing_url) (asked missing_url start)).
  - vm_compute. reflexivity.
  - vm_compute. lia.
Defined.

Lemma X18_witness :
  exists h1 content c0 c3 c4,
    soup_find web (soup_of web (answer calm_url)) "h1" "AppName fs-20" =
      Some h1 /\
    soup_find web (soup_of web (answer calm_url)) "div"
      "AppDescription__content fs-14" = Some content /\
    nth_error (info_cells web (soup_of web (answer calm_url))) 0 = Some c0 /\
    nth_error (info_cells web (soup_of web (answer calm_url))) 3 = Some c3 /\
    nth_error (info_cells web (soup_of web (answer calm_url))) 4 = Some c4 /\
    name calm = tag_text web h1 /\ description calm = tag_text web content /\
    installs calm = tag_text web c0 /\ size calm = tag_text web c3 /\
    updated_at calm = tag_text web c4.
Proof.
  apply (X18_returned_details_are_texts_of_the_page web calm_url start
           (answer calm_url) (asked calm_url start) calm
           (asked calm_url start)); vm_compute; reflexivity.
Defined.

Lemma X19_witness :
  exists e, extract_app_details web untitled_url start =
            (Raises e, asked untitled_url start) /\
            (e = AttributeError \/ e = Builtin IndexError).
Proof.
  apply (X19_missing_name_or_description_never_returns web untitled_url start
           (answer untitled_url) (asked untitled_url start)).
  - vm_compute. reflexivity.
  - left. vm_compute. reflexivity.
Defined.

Lemma X20_witness :
  Forall (fun u => u <> []) (image_urls calm) /\
  (length (image_urls calm) <=
   length (soup_find_all web (soup_of web (answer calm_url))
             "picture" "sg__image"))%nat.
Proof.
  apply (X20_screenshots_are_nonempty_one_per_picture_at_most web calm_url
           start (answer calm_url) (asked calm_url start) calm);
    vm_compute; reflexivity.
Defined.

End PageExtras.

(** ** Saving *)

Module SaverExtras.
Import Py Flow Pages Savers PageNotions Notions RuntimeFacts CountClaims
  CommentClaims DateExtras InstallErrorExtras StripExtras SampleSite.

Section Savers.
Context {World Soup Tag App User : Type}.
Variable web : Web World Soup Tag.
Variable browser : Browser World.
Variable db : Database World App User.



(** X22: the first comment that fails ends the loop over the comments:
    the comments before it are stored, those after it are not looked at. *)
Theorem X22_first_failing_comment_ends_the_saving
  app_instance before el after w w1 e w2 :
  save_comments db app_instance before w = (Returns tt, w1) ->
  save_comments db app_instance [el] w1 = (Raises e, w2) ->
  save_comments db app_instance (before ++ el :: after) w = (Raises e, w2).
Proof.
  intros Hb He. revert w Hb.
  induction before as [|b r IH]; intros w Hb.
  - cbn [save_comments] in Hb. injection Hb as <-.
    cbn [List.app save_comments] in *.
    destruct (Scraper.extract_comment_details el) as [c|x]; [|exact He].
    destruct (save_comment_details db app_instance c w) as [[[]|x] w']; [|exact He].
    discriminate.
  - cbn [List.app save_comments] in *.
    destruct (Scraper.extract_comment_details b) as [c|x]; [|discriminate].
    destruct (save_comment_details db app_instance c w) as [[[]|x] w']; [|discriminate].
    now apply IH.
Qed.

Lemma strip_spaces s : forallb isspace s = true -> strip s = [].
Proof.
  intros H. unfold strip. rewrite <- (app_nil_r s).
  change (s ++ []) with (s ++ [] ++ []).
  rewrite strip_by_padded; [reflexivity|exact H|reflexivity].
Qed.

(** X23: a comment without user-name element, or with a blank one, is
    stored without user, and [get_or_create] is not called for it. *)
Theorem X23_comment_without_name_is_stored_without_user app_instance el c w :
  Scraper.extract_comment_details el = Ok c ->
  (forall u, Selenium.find_element el "AppComment__username" = Ok u ->
             forallb isspace (Selenium.text u) = true) ->
  save_comment_details db app_instance c w =
  match Utils.parse_jalali_date (Scraper.date c) with
  | Raise e => (Raises (Builtin e), w)
  | Ok date =>
    Comment_update_or_create db app_instance None (Scraper.text c)
      {| comment_rating := Scraper.rating c; comment_date := date |} w
  end.
Proof.
  intros E H. rewrite extract_comment_details_is in E.
  destruct (Scraper.extract_rating el) as [r|]; [|discriminate].
  cbn [bind] in E. injection E as <-.
  unfold save_comment_details. cbn [Scraper.username].
  unfold username_of, Notions.text_of.
  destruct (Selenium.find_element el "AppComment__username") as [u|x].
  - rewrite (strip_spaces _ (H u eq_refl)). reflexivity.
  - reflexivity.
Qed.

(** X24: when the date of a named comment cannot be parsed, its user has
    been looked up or created, and the comment is not stored:
    [OverflowError] comes out in the state left by [get_or_create]. *)
Theorem X24_overflowing_date_leaves_the_user_without_comment
  app_instance c w display_name u w1 e :
  nonempty (Scraper.username c) = Some display_name ->
  User_get_or_create db (Scraper.id c) display_name w = (Returns u, w1) ->
  Utils.parse_jalali_date (Scraper.date c) = Raise e ->
  save_comment_details db app_instance c w = (Raises (Builtin OverflowError), w1).
Proof.
  intros N G P. unfold save_comment_details. rewrite N, G, P.
  now rewrite (parse_jalali_date_raises _ _ P).
Qed.

End Savers.


Lemma X22_witness :
  exists w,
    save_comments db (utf8 "Calm")
      ([full_comment] ++ comment_without_rating :: [comment_without_style])
      start = (Raises DatabaseError, w).
Proof.
  eexists.
  apply (X22_first_failing_comment_ends_the_saving db (utf8 "Calm")
           [full_comment] comment_without_rating [comment_without_style]
           start (snd (save_comments db (utf8 "Calm") [full_comment] start))
           DatabaseError);
    vm_compute; reflexivity.
Defined.

Lemma X23_witness :
  save_comment_details db (utf8 "Calm") (details anonymous_comment) start =
  Comment_update_or_create db (utf8 "Calm") None (Some (utf8 "good app"))
    {| comment_rating := Some 5;
       comment_date := Some (Datetime.Date 2025 6 22) |} start.
Proof.
  rewrite (X23_comment_without_name_is_stored_without_user db (utf8 "Calm")
             anonymous_comment (details anonymous_comment) start).
  - vm_compute. reflexivity.
  - vm_compute. reflexivity.
  - intros u H. vm_compute in H. discriminate.
Defined.

Lemma X24_witness :
  save_comment_details db (utf8 "Calm") (details late_comment) start =
  (Raises (Builtin OverflowError),
   snd (User_get_or_create db (Some (utf8 "4711")) (utf8 "Sara") start)).
Proof.
  apply (X24_overflowing_date_leaves_the_user_without_comment db
           (utf8 "Calm") (details late_comment) start (utf8 "Sara")
           (Some (utf8 "4711")) _ OverflowError);
    vm_compute; reflexivity.
Defined.

End SaverExtras.

(** ** The run *)

Module ScriptExtras.
Import Py Flow Pages Savers Scripts PageNotions SampleSite.

Section Scripts.
Context {World Soup Tag App User : Type}.
Variable web : Web World Soup Tag.
Variable browser : Browser World.
Variable db : Database World App User.

Lemma save_app_and_comments_returns fuel url w r w' :
  save_app_and_comments web browser db fuel url w = Some (r, w') ->
  r = Returns tt.
Proof.
  unfold save_app_and_comments.
  destruct (scrape_and_save web browser db fuel url w) as [[[x|x] w1]|];
    [now intros [= <- _]|now intros [= <- _]|discriminate].
Qed.

Lemma process_links_returns fuel links : forall w r w',
  process_links web browser db fuel links w = Some (r, w') -> r = Returns tt.
Proof.
  induction links as [|l rest IH]; intros w r w'; cbn [process_links].
  - now intros [= <- _].
  - destruct (save_app_and_comments web browser db fuel l w)
      as [[[x|x] w1]|] eqn:E; [apply IH| |discriminate].
    apply save_app_and_comments_returns in E. discriminate.
Qed.

(** X25: [run_scraper] raises only what [get_app_links], the creation
    of the driver or its [quit] raise: no failure of an app ends the loop
    over the links, and the driver is quit after the last of them. *)
Theorem X25_run_raises_only_at_its_ends fuel w r w' :
  run_scraper web browser db fuel w = Some (r, w') ->
  (exists e, r = Raises e /\
     get_app_links web LIST_URL BASE_URL None w = (Raises e, w')) \/
  (exists links w1,
     get_app_links web LIST_URL BASE_URL None w = (Returns links, w1) /\
     ((exists e, r = Raises e /\
         create_webdriver browser w1 = (Raises e, w')) \/
      (exists w2 w3,
         create_webdriver browser w1 = (Returns tt, w2) /\
         process_links web browser db fuel links w2 = Some (Returns tt, w3) /\
         quit browser w3 = (r, w')))).
Proof.
  unfold run_scraper.
  destruct (get_app_links web LIST_URL BASE_URL None w) as [[links|e] w1].
  2:{ intros [= <- <-]. left. now exists e. }
  intros H. right. exists links, w1. split; [reflexivity|].
  destruct (create_webdriver browser w1) as [[[]|e] w2].
  2:{ injection H as <- <-. left. now exists e. }
  right.
  destruct (process_links web browser db fuel links w2) as [[p w3]|] eqn:P;
    [|discriminate].
  pose proof (process_links_returns _ _ _ _ _ P) as ->.
  injection H as H. exists w2, w3. split; [reflexivity|]. now split.
Qed.

End Scripts.

Lemma X25_witness :
  exists links w1 w2 w3,
    get_app_links web LIST_URL BASE_URL None start = (Returns links, w1) /\
    create_webdriver browser w1 = (Returns tt, w2) /\
    process_links web browser db 10 links w2 = Some (Returns tt, w3) /\
    quit browser w3 = (Returns tt, finish).
Proof.
  destruct (X25_run_raises_only_at_its_ends web browser db 10 start
              (Returns tt) finish) as [(e & H & _)|(links & w1 & G & H)].
  - vm_compute. reflexivity.
  - discriminate.
  - destruct H as [(e & H & _)|(w2 & w3 & C & P & Q)]; [discriminate|].
    exists links, w1, w2, w3. exact (conj G (conj C (conj P Q))).
Defined.

End ScriptExtras.

(** ** The extracted texts *)

Module CommentExtras.
Import Py Selenium Scraper Notions RuntimeFacts CommentClaims StripExtras.

Lemma text_of_stripped found t :
  Notions.text_of found = Some t -> strip t = t.
Proof.
  destruct found as [x|e]; [|discriminate]. intros [= <-].
  apply strip_by_idem.
Qed.

Lemma date_of_stripped el t : date_of el = Some t -> strip t = t.
Proof.
  unfold date_of. destruct (find_element el "AppComment__meta") as [m|];
    [|discriminate].
  intros [= <-]. destruct (find_child_divs m) as [|d0 [|d1 r]];
    try reflexivity.
  apply strip_by_idem.
Qed.

(** X26: the user name, the body and the date that
    [extract_comment_details] returns have no whitespace at their ends. *)
Theorem X26_extracted_texts_have_no_whitespace_at_their_ends el c :
  extract_comment_details el = Ok c ->
  (forall t, username c = Some t -> strip t = t) /\
  (forall t, text c = Some t -> strip t = t) /\
  (forall t, date c = Some t -> strip t = t).
Proof.
  rewrite extract_comment_details_is.
  destruct (extract_rating el) as [r|]; [|discriminate].
  cbn [bind]. intros [= <-]. cbn [username text date].
  repeat split; intros t H.
  - now apply text_of_stripped in H.
  - now apply text_of_stripped in H.
  - now apply date_of_stripped in H.
Qed.

Lemma X26_witness : strip (utf8 "Sara") = utf8 "Sara".
Proof.
  refine (proj1 (X26_extracted_texts_have_no_whitespace_at_their_ends
                   full_comment
                   {| id := Some (utf8 "4711"); username := Some (utf8 "Sara");
                      text := Some (utf8 "good app"); rating := Some 4;
                      date := Some (utf8 "۱ تیر ۱۴۰۴") |} _) (utf8 "Sara") _).
  - vm_compute. reflexivity.
  - reflexivity.
Defined.

End CommentExtras.

(** ** Dates in Arabic-Indic digits *)

Module ArabicDigitExtras.
Import Py Utils Notions MoreNotions RuntimeFacts NumeralFacts
  SlashDateFacts DateExtras NormalizeExtras.

Lemma arabic_digit_inv c : arabic_digit c = true -> 0x0660 <= c <= 0x0669.
Proof. apply in_range_iff. Qed.

Lemma decimal_in_second z1 z2 rest c :
  in_range z1 (z1 + 9) c = false -> in_range z2 (z2 + 9) c = true ->
  decimal_in (z1 :: z2 :: rest) c = Some (c - z2).
Proof. intros H1 H2. cbn [decimal_in]. now rewrite H1, H2. Qed.

Lemma todecimal_arabic c :
  arabic_digit c = true -> todecimal c = Some (c - 0x0660).
Proof.
  intros H. apply arabic_digit_inv in H. unfold todecimal.
  apply (decimal_in_second 0x30 0x0660).
  - unfold in_range. destruct (Z.leb_spec c (0x30 + 9)); [lia|].
    apply andb_false_r.
  - apply in_range_iff. lia.
Qed.

Lemma arabic_not_space c : arabic_digit c = true -> isspace c = false.
Proof.
  intros H. apply arabic_digit_inv in H.
  destruct (isspace c) eqn:E; [exfalso|reflexivity].
  unfold isspace in E.
  repeat rewrite ?orb_true_iff, ?in_range_iff, ?Z.eqb_eq in E. lia.
Qed.

Lemma number_char_arabic c :
  arabic_digit c = true -> number_char c = 0x30 + (c - 0x0660).
Proof.
  intros H. unfold number_char.
  rewrite (arabic_not_space c H), (todecimal_arabic c H).
  apply arabic_digit_inv in H. destruct (Z.ltb_spec c 127); [lia|reflexivity].
Qed.

Lemma number_chars_arabic ds :
  forallb arabic_digit ds = true ->
  forallb is_ascii_digit (map number_char ds) = true /\
  digits_value (map number_char ds) = arabic_value ds.
Proof.
  unfold digits_value, arabic_value. generalize 0 as acc.
  induction ds as [|c r IH]; intros acc H; [split; reflexivity|].
  cbn [forallb] in H. apply andb_true_iff in H. destruct H as [Hc Hr].
  cbn [map forallb fold_left]. rewrite (number_char_arabic c Hc).
  destruct (IH (acc * 10 + (c - 0x0660)) Hr) as [A V]. split.
  - rewrite A, andb_true_r. apply arabic_digit_inv in Hc.
    apply in_range_iff. lia.
  - rewrite <- V. f_equal. lia.
Qed.

Lemma int_by_number_chars s s' :
  map number_char s = map number_char s' -> int s = int s'.
Proof. intros E. unfold int. now rewrite E. Qed.

(** [int()] reads a numeral in Arabic-Indic digits as its value. *)
Lemma int_arabic ds : arabic_numeral ds -> int ds = Ok (arabic_value ds).
Proof.
  intros (Hne & H & Hlen). destruct (number_chars_arabic ds H) as [A V].
  rewrite (int_by_number_chars ds (map number_char ds)).
  - rewrite int_digits, V; [reflexivity| |exact A|now rewrite length_map].
    destruct ds; [contradiction|discriminate].
  - symmetry. now apply number_char_digits.
Qed.

Lemma normalize_arabic ds :
  forallb arabic_digit ds = true -> map normalize_char ds = ds.
Proof.
  induction ds as [|c r IH]; [reflexivity|]. cbn [forallb map].
  rewrite andb_true_iff. intros [Hc Hr]. rewrite (IH Hr).
  rewrite normalize_char_fixed; [reflexivity|].
  apply arabic_digit_inv in Hc. unfold in_range.
  destruct (Z.leb_spec 0x06F0 c); [lia|reflexivity].
Qed.

Lemma split_on_arabic xs :
  forallb arabic_digit xs = true -> split_on 0x2F xs = [xs].
Proof.
  induction xs as [|c r IH]; [reflexivity|]. cbn [forallb split_on].
  rewrite andb_true_iff. intros [Hc Hr]. apply arabic_digit_inv in Hc.
  destruct (Z.eqb_spec c 0x2F); [lia|]. now rewrite (IH Hr).
Qed.

Lemma split_on_arabic_slash xs rest :
  forallb arabic_digit xs = true ->
  split_on 0x2F (xs ++ 0x2F :: rest) = xs :: split_on 0x2F rest.
Proof.
  induction xs as [|c r IH]; [reflexivity|]. cbn [forallb split_on app].
  rewrite andb_true_iff. intros [Hc Hr]. apply arabic_digit_inv in Hc.
  destruct (Z.eqb_spec c 0x2F); [lia|]. now rewrite (IH Hr).
Qed.

Lemma arabic_hd ds :
  arabic_numeral ds -> exists c, hd_error ds = Some c /\ arabic_digit c = true.
Proof.
  intros (Hne & H & _). destruct ds as [|c r]; [contradiction|].
  exists c. split; [reflexivity|]. cbn [forallb] in H.
  now apply andb_true_iff in H.
Qed.

Lemma arabic_rev ds : arabic_numeral ds -> arabic_numeral (rev ds).
Proof.
  intros (Hne & Hd & Hlen). repeat split.
  - intros E. apply Hne. rewrite <- (rev_involutive ds), E. reflexivity.
  - now apply forallb_rev.
  - now rewrite length_rev.
Qed.

Lemma strip_arabic_date ys ms ds :
  arabic_numeral ys -> arabic_numeral ds ->
  strip (slash_date ys ms ds) = slash_date ys ms ds.
Proof.
  intros Hy Hd. apply strip_by_ends; intros c Hc; apply arabic_not_space.
  - destruct (arabic_hd ys Hy) as (c' & Hc' & A).
    unfold slash_date in Hc. rewrite (hd_error_app _ _ _ Hc') in Hc.
    now injection Hc as <-.
  - destruct (arabic_hd _ (arabic_rev ds Hd)) as (c' & Hc' & A).
    unfold slash_date in Hc. rewrite !rev_app_distr, <- !app_assoc in Hc.
    rewrite (hd_error_app _ _ _ Hc') in Hc. now injection Hc as <-.
Qed.

Lemma arabic_date_is_persian ys ms ds :
  arabic_numeral ys -> contains_persian (slash_date ys ms ds) = true.
Proof.
  intros Hy. destruct (arabic_hd ys Hy) as (c & Hc & A).
  destruct ys as [|c' r]; [discriminate|]. injection Hc as ->.
  unfold contains_persian, slash_date. cbn [app existsb].
  apply arabic_digit_inv in A.
  assert (E : in_range 0x0600 0x06FF c = true) by (apply in_range_iff; lia).
  now rewrite E.
Qed.

(** X27: a numeric date in Arabic-Indic digits is classified Jalali and
    converted like one in Persian digits, though the digit normalizer
    leaves these digits as they are: [int()] reads them. *)
Theorem X27_arabic_indic_date_is_taken_as_jalali ys ms ds :
  arabic_numeral ys -> arabic_numeral ms -> arabic_numeral ds ->
  convert_persian_digits_to_english (slash_date ys ms ds) =
    slash_date ys ms ds /\
  parse_jalali_date (Some (slash_date ys ms ds)) =
  if valid_jalali (arabic_value ys) (arabic_value ms) (arabic_value ds)
  then Ok (Some (jalali_to_gregorian
                   (arabic_value ys) (arabic_value ms) (arabic_value ds)))
  else Ok None.
Proof.
  intros Hy Hm Hd.
  assert (Ec : convert_persian_digits_to_english (slash_date ys ms ds) =
               slash_date ys ms ds).
  { rewrite convert_is_map. unfold slash_date. rewrite !map_app.
    destruct Hy as (_ & Hy & _), Hm as (_ & Hm & _), Hd as (_ & Hd' & _).
    rewrite (normalize_arabic ys Hy), (normalize_arabic ms Hm),
      (normalize_arabic ds Hd').
    reflexivity. }
  split; [exact Ec|].
  pose proof (strip_arabic_date ys ms ds Hy Hd) as Es.
  pose proof (arabic_date_is_persian ys ms ds Hy) as Ep.
  rewrite <- from_triple_jalali.
  remember (slash_date ys ms ds) as s eqn:Hs.
  destruct s as [|c r].
  { exfalso. destruct Hy as (Hne & _). unfold slash_date in Hs.
    destruct ys; [contradiction|discriminate]. }
  unfold parse_jalali_date. rewrite Es, Ec, Ep, Hs. unfold slash_date.
  rewrite slash_is. cbn [app].
  destruct Hy as (Ny & Ay & Ly), Hm as (Nm & Am & Lm), Hd as (Nd & Ad & Ld).
  rewrite contains_slash, split_on_arabic_slash, split_on_arabic_slash,
    split_on_arabic by assumption.
  cbn [length Nat.eqb andb].
  rewrite !int_arabic by (repeat split; assumption).
  reflexivity.
Qed.

Lemma X27_witness :
  parse_jalali_date (Some (utf8 "١٤٠٤/٤/١")) =
  Ok (Some (Datetime.Date 2025 6 22)).
Proof.
  refine (eq_trans (proj2 (X27_arabic_indic_date_is_taken_as_jalali
                             (utf8 "١٤٠٤") (utf8 "٤") (utf8 "١") _ _ _)) _).
  - repeat split; [discriminate|vm_compute; lia].
  - repeat split; [discriminate|vm_compute; lia].
  - repeat split; [discriminate|vm_compute; lia].
  - vm_compute. reflexivity.
Defined.

End ArabicDigitExtras.
